(** * Budget travel planner: the budget optimizer, the currency utility and the
      weather and inventory generators, embedded from the TypeScript sources.

    Conventions of the embedding.
    - A JavaScript number is a rational ([Q]): arithmetic is exact, the
      rounding of IEEE-754 doubles is not modelled, and NaN and the infinities
      appear only where noted (an unparseable string, a division by a zero
      total).  Equality of numbers is [==].  A bound that the rounding of
      a floating-point result could decide is stated with the slack that
      covers it (half a cent on an amount, a degree on a temperature).
    - A JavaScript string is a Rocq [string] read as UTF-8 text; the currency
      functions work on its characters ([list ascii]).
    - An exception is a value of [result]: [Throw e] for a thrown error.
    - A [try { .. } catch { .. }] block is [try_catch]. *)

From Stdlib Require Import ZArith QArith Qround Qabs Qminmax Lia Lqa.
From Stdlib Require Import Ascii String Decimal DecimalN.
From Stdlib Require Import Sorted.
From stdpp Require Import base list.

Local Open Scope Z_scope.
Local Open Scope Q_scope.

(* ------------------------------------------------------------------ *)
(** ** Characters of a currency string *)

Module Chars.

Definition chars := list ascii.

Definition of_string (s : string) : chars := list_ascii_of_string s.
Definition to_string (l : chars) : string := string_of_list_ascii l.

Definition code (c : ascii) : N := N_of_ascii c.

(** Decimal digits are kept as the constructors of [Decimal.uint], most
    significant first, so that [N.of_uint] gives their value. *)
Definition digit_of_char (c : ascii) : option (uint -> uint) :=
  match code c with
  | 48%N => Some D0 | 49%N => Some D1 | 50%N => Some D2 | 51%N => Some D3
  | 52%N => Some D4 | 53%N => Some D5 | 54%N => Some D6 | 55%N => Some D7
  | 56%N => Some D8 | 57%N => Some D9
  | _ => None
  end.

Definition is_digit (c : ascii) : bool :=
  match digit_of_char c with Some _ => true | None => false end.

Fixpoint chars_of_uint (d : uint) : chars :=
  match d with
  | Nil => []
  | D0 d => "0"%char :: chars_of_uint d
  | D1 d => "1"%char :: chars_of_uint d
  | D2 d => "2"%char :: chars_of_uint d
  | D3 d => "3"%char :: chars_of_uint d
  | D4 d => "4"%char :: chars_of_uint d
  | D5 d => "5"%char :: chars_of_uint d
  | D6 d => "6"%char :: chars_of_uint d
  | D7 d => "7"%char :: chars_of_uint d
  | D8 d => "8"%char :: chars_of_uint d
  | D9 d => "9"%char :: chars_of_uint d
  end.

(** The longest run of decimal digits at the front of [s], and what
    follows it. *)
Fixpoint read_digits (s : chars) : uint * chars :=
  match s with
  | [] => (Nil, [])
  | c :: rest =>
      match digit_of_char c with
      | Some d => let '(ds, tl) := read_digits rest in (d ds, tl)
      | None => (Nil, s)
      end
  end.

Definition no_digits (d : uint) : bool :=
  match d with Nil => true | _ => false end.

Fixpoint uint_length (d : uint) : nat :=
  match d with
  | Nil => O
  | D0 d | D1 d | D2 d | D3 d | D4 d | D5 d | D6 d | D7 d | D8 d | D9 d =>
      S (uint_length d)
  end.

(** White space that a single UTF-8 byte encodes: TAB, LF, VT, FF, CR and
    SPACE.  (The multi-byte Unicode spaces are not recognised.) *)
Definition is_space (c : ascii) : bool :=
  match code c with
  | 9%N | 10%N | 11%N | 12%N | 13%N | 32%N => true
  | _ => false
  end.

Fixpoint skip_spaces (s : chars) : chars :=
  match s with
  | [] => []
  | c :: rest => if is_space c then skip_spaces rest else s
  end.

(** [String.prototype.trim] *)
Definition trim (s : chars) : chars :=
  rev (skip_spaces (rev (skip_spaces s))).

End Chars.

(* ------------------------------------------------------------------ *)
(** ** Currency utility (parseCurrency, formatCurrency) *)

Module Currency.
Import Chars.

(** [currencyString.replace(/[$,€£¥]/g, '')] on UTF-8 text: the dollar sign
    and the comma are one byte each; the euro sign is E2 82 AC, the pound
    sign C2 A3 and the yen sign C2 A5. *)
Fixpoint strip_symbols (s : chars) : chars :=
  match s with
  | [] => []
  | c :: rest =>
      match code c with
      | 36%N | 44%N => strip_symbols rest
      | 226%N =>
          match rest with
          | c2 :: c3 :: rest3 =>
              if ((code c2 =? 130) && (code c3 =? 172))%N
              then strip_symbols rest3
              else c :: strip_symbols rest
          | _ => c :: strip_symbols rest
          end
      | 194%N =>
          match rest with
          | c2 :: rest2 =>
              if ((code c2 =? 163) || (code c2 =? 165))%N
              then strip_symbols rest2
              else c :: strip_symbols rest
          | _ => c :: strip_symbols rest
          end
      | _ => c :: strip_symbols rest
      end
  end.

(** An optional sign: [true] for a minus. *)
Definition read_sign (s : chars) : bool * chars :=
  match s with
  | sg :: tl =>
      if (code sg =? 45)%N then (true, tl)
      else if (code sg =? 43)%N then (false, tl)
      else (false, s)
  | [] => (false, s)
  end.

(** The exponent part of a decimal literal, [e] or [E], an optional sign
    and at least one digit; [0] when there is none. *)
Definition read_exponent (s : chars) : Z :=
  match s with
  | c :: rest =>
      if ((code c =? 101) || (code c =? 69))%N then
        let '(neg, rest') := read_sign rest in
        let ds := fst (read_digits rest') in
        if no_digits ds then 0%Z
        else let e := Z.of_N (N.of_uint ds) in if neg then (- e)%Z else e
      else 0%Z
  | [] => 0%Z
  end.

(** [parseFloat]: leading white space, an optional sign, then the longest
    prefix that is a decimal literal (digits, an optional fraction, an
    optional exponent).  [None] is NaN.  The literal [Infinity] has no
    rational value and is read as NaN. *)
Definition parseFloat (s : chars) : option Q :=
  let '(neg, s1) := read_sign (skip_spaces s) in
  let '(ip, s2) := read_digits s1 in
  let '(fp, s3) :=
    match s2 with
    | dot :: tl => if (code dot =? 46)%N then read_digits tl else (Nil, s2)
    | [] => (Nil, s2)
    end in
  if no_digits ip && no_digits fp then None
  else
    let mant :=
      inject_Z (Z.of_N (N.of_uint ip))
      + inject_Z (Z.of_N (N.of_uint fp)) / inject_Z (10 ^ Z.of_nat (uint_length fp)) in
    let v := mant * (10 # 1) ^ read_exponent s3 in
    Some (if neg then - v else v).

(** function parseCurrency(currencyString: string): number *)
Definition parseCurrency (currencyString : string) : Q :=
  match currencyString with
  | EmptyString => 0
  | _ =>
      let numericString := trim (strip_symbols (of_string currencyString)) in
      match parseFloat numericString with
      | Some v => v          (* parseFloat(..) || 0 *)
      | None => 0
      end
  end.

(** Grouping separators: a comma before every group of three digits,
    counted from the right.  [group_rev] works on the reversed digits;
    [k] counts the digits written since the last separator. *)
Fixpoint group_rev (k : nat) (ds : chars) : chars :=
  match ds with
  | [] => []
  | d :: rest =>
      if Nat.eqb k 3 then ","%char :: d :: group_rev 1 rest
      else d :: group_rev (S k) rest
  end.

Definition group (ds : chars) : chars := rev (group_rev 0 (rev ds)).

Definition digit_char (n : Z) : ascii := ascii_of_N (48 + Z.to_N n).

(** The amount in cents, rounded half away from zero (the default
    rounding of Intl.NumberFormat), as a magnitude. *)
Definition cents (amount : Q) : Z := Qfloor (Qabs amount * 100 + (1 # 2)).

Definition format_chars (amount : Q) : chars :=
  let c := cents amount in
  (if Qlt_le_dec amount 0 then ["-"%char] else [])
    ++ "$"%char :: group (chars_of_uint (N.to_uint (Z.to_N (c / 100))))
    ++ "."%char :: [digit_char ((c mod 100) / 10); digit_char (c mod 10)].

(** function formatCurrency(amount: number): string
    Intl.NumberFormat('en-US', currency USD, exactly two fraction digits). *)
Definition formatCurrency (amount : Q) : string := to_string (format_chars amount).

End Currency.

Import Currency.

(* ------------------------------------------------------------------ *)
(** ** Exceptions *)

Module JS.

Inductive exn : Type :=
| TypeError (message : string)
| RangeError (message : string)
| URIError (message : string)
| Error (message : string).

Inductive result (A : Type) : Type :=
| Ok (a : A)
| Throw (e : exn).
Arguments Ok {A} a.
Arguments Throw {A} e.

Definition bind {A B} (m : result A) (k : A -> result B) : result B :=
  match m with
  | Ok a => k a
  | Throw e => Throw e
  end.

(** try { body } catch (error) { handler error } *)
Definition try_catch {A} (body : result A) (handler : exn -> result A) : result A :=
  match body with
  | Ok a => Ok a
  | Throw e => handler e
  end.

(** A loop over an array whose body may throw; [acc] is what the loop
    mutates. *)
Fixpoint forEach {A S} (body : S -> A -> result S) (l : list A) (acc : S) : result S :=
  match l with
  | [] => Ok acc
  | x :: rest => bind (body acc x) (forEach body rest)
  end.

Fixpoint mapM {A B} (f : A -> result B) (l : list A) : result (list B) :=
  match l with
  | [] => Ok []
  | x :: rest =>
      bind (f x) (fun y => bind (mapM f rest) (fun ys => Ok (y :: ys)))
  end.

End JS.

Import JS.
#[global] Instance result_bind : MBind result := fun A B k m => JS.bind m k.
#[global] Instance result_ret : MRet result := @JS.Ok.

(* ------------------------------------------------------------------ *)
(** ** Data model (the interfaces Activity, Day and Itinerary) *)

Module Activity.
Record t : Type := mk {
  name : string;
  description : string;
  cost : string;
  type : string;
  location : string;
  duration : string;
  imageUrl : option string
}.
(** activity.cost = c *)
Definition set_cost (c : string) (a : t) : t :=
  mk (name a) (description a) c (type a) (location a) (duration a) (imageUrl a).
End Activity.

Module Accommodation.
Record t : Type := mk {
  name : string;
  location : string;
  cost : string;
  imageUrl : option string
}.
Definition set_cost (c : string) (a : t) : t :=
  mk (name a) (location a) c (imageUrl a).
End Accommodation.

Module Transportation.
Record t : Type := mk {
  type : string;
  details : string;
  cost : string
}.
Definition set_cost (c : string) (a : t) : t :=
  mk (type a) (details a) c.
End Transportation.

(** A day of the itinerary.  The interface declares [transportation] as
    required, but the itinerary is built from the JSON a language model
    returns and [processItinerary] passes [day.transportation] through as it
    came (it rebuilds [accommodation] and [activities]), so the property may
    be absent at run time: [None] is [undefined]. *)
Record Day : Type := mkDay {
  date : string;
  activities : list Activity.t;
  accommodation : Accommodation.t;
  transportation : option Transportation.t;
  alternativeActivities : option (list Activity.t)
}.

Record Itinerary : Type := mkItinerary {
  destination : string;
  totalCost : string;
  duration : string;
  days : list Day;
  travelTips : list string
}.

Definition set_activities (acts : list Activity.t) (day : Day) : Day :=
  mkDay (date day) acts (accommodation day) (transportation day) (alternativeActivities day).
Definition set_accommodation (a : Accommodation.t) (day : Day) : Day :=
  mkDay (date day) (activities day) a (transportation day) (alternativeActivities day).
Definition set_transportation (t : Transportation.t) (day : Day) : Day :=
  mkDay (date day) (activities day) (accommodation day) (Some t) (alternativeActivities day).
Definition set_alternativeActivities (alts : list Activity.t) (day : Day) : Day :=
  mkDay (date day) (activities day) (accommodation day) (transportation day) (Some alts).

(** [day.transportation.cost]: reading a property of [undefined] throws. *)
Definition transportation_of (day : Day) : result Transportation.t :=
  match transportation day with
  | Some t => Ok t
  | None => Throw (TypeError "Cannot read properties of undefined (reading 'cost')")
  end.

(* ------------------------------------------------------------------ *)
(** ** Budget optimizer *)

Module Optimizer.

Definition Qgt_bool (a b : Q) : bool := negb (Qle_bool a b).

Record Breakdown : Type := mkBreakdown {
  accommodationTotal : Q;
  activitiesTotal : Q;
  transportationTotal : Q
}.

Definition sumActivities (acts : list Activity.t) (start : Q) : Q :=
  fold_left (fun total activity => total + parseCurrency (Activity.cost activity)) acts start.

(** function analyzeBudgetAllocation(itinerary) *)
Definition analyzeBudgetAllocation (itinerary : Itinerary) : result Breakdown :=
  forEach
    (fun b day =>
       let accommodationTotal' :=
         accommodationTotal b + parseCurrency (Accommodation.cost (accommodation day)) in
       tr ← transportation_of day;
       let transportationTotal' :=
         transportationTotal b + parseCurrency (Transportation.cost tr) in
       Ok (mkBreakdown accommodationTotal'
             (sumActivities (activities day) (activitiesTotal b))
             transportationTotal'))
    (days itinerary) (mkBreakdown 0 0 0).

(** [Math.min(savingsNeeded / total, cap)].  [optimizeBudget] calls the
    three reducers with a positive [savingsNeeded] only, so a zero total
    divides to +Infinity and the minimum is the cap. *)
Definition reductionPercentage (savingsNeeded total cap : Q) : Q :=
  if Qeq_bool total 0 then cap else Qmin (savingsNeeded / total) cap.

(** function optimizeAccommodation(days, savingsNeeded, totalAccommodationCost) *)
Definition optimizeAccommodation (days : list Day) (savingsNeeded totalAccommodationCost : Q)
  : list Day :=
  let reductionPercentage :=
    reductionPercentage savingsNeeded totalAccommodationCost (5 # 10) in
  map (fun day =>
         let currentCost := parseCurrency (Accommodation.cost (accommodation day)) in
         let reducedCost := currentCost * (1 - reductionPercentage) in
         set_accommodation
           (Accommodation.set_cost (formatCurrency reducedCost) (accommodation day)) day)
      days.

(** The comparator [(a, b) => parseCurrency(b.cost) - parseCurrency(a.cost)]
    of a stable sort: [sortedActivities] lists the positions of the day's
    activities, dearest first, equal costs in their original order.  The
    sorted array holds the very objects of [day.activities], so it is kept
    as positions into that array. *)
Definition costAt (acts : list Activity.t) (i : nat) : Q :=
  match acts !! i with
  | Some a => parseCurrency (Activity.cost a)
  | None => 0
  end.

Fixpoint insert_desc (key : nat -> Q) (i : nat) (sorted : list nat) : list nat :=
  match sorted with
  | [] => [i]
  | j :: rest =>
      if Qgt_bool (key j) (key i) then j :: insert_desc key i rest
      else i :: sorted
  end.

Definition sortedActivities (acts : list Activity.t) : list nat :=
  foldr (insert_desc (costAt acts)) [] (seq 0 (length acts)).

(** day.activities.findIndex(a => a.name === name) *)
Fixpoint findIndex (name : string) (acts : list Activity.t) : option nat :=
  match acts with
  | [] => None
  | a :: rest =>
      if String.eqb (Activity.name a) name then Some O
      else option_map S (findIndex name rest)
  end.

(** One turn of [sortedActivities.forEach((activity, index) => ..)]:
    [ref] is the position of [activity] in [day.activities]; its cost is
    read from the array as it is now. *)
Definition reduceActivity (reductionPercentage : Q) (index ref : nat)
    (acts : list Activity.t) : list Activity.t :=
  match acts !! ref with
  | None => acts
  | Some activity =>
      let currentCost := parseCurrency (Activity.cost activity) in
      let adjustedReduction :=
        reductionPercentage * (1 + (if Nat.eqb index 0 then 2 # 10 else 0)) in
      let reducedCost := currentCost * (1 - adjustedReduction) in
      match findIndex (Activity.name activity) acts with
      | Some originalIndex =>
          match acts !! originalIndex with
          | Some original =>
              <[originalIndex := Activity.set_cost (formatCurrency reducedCost) original]> acts
          | None => acts
          end
      | None => acts
      end
  end.

Fixpoint reduceSorted (reductionPercentage : Q) (index : nat) (sorted : list nat)
    (acts : list Activity.t) : list Activity.t :=
  match sorted with
  | [] => acts
  | ref :: rest =>
      reduceSorted reductionPercentage (S index) rest
        (reduceActivity reductionPercentage index ref acts)
  end.

(** function optimizeActivities(days, savingsNeeded, totalActivitiesCost) *)
Definition optimizeActivities (days : list Day) (savingsNeeded totalActivitiesCost : Q)
  : list Day :=
  let reductionPercentage :=
    reductionPercentage savingsNeeded totalActivitiesCost (4 # 10) in
  map (fun day =>
         set_activities
           (reduceSorted reductionPercentage 0 (sortedActivities (activities day))
              (activities day)) day)
      days.

(** function optimizeTransportation(days, savingsNeeded, totalTransportationCost) *)
Definition optimizeTransportation (days : list Day) (savingsNeeded totalTransportationCost : Q)
  : result (list Day) :=
  let reductionPercentage :=
    reductionPercentage savingsNeeded totalTransportationCost (45 # 100) in
  mapM (fun day =>
          tr ← transportation_of day;
          let currentCost := parseCurrency (Transportation.cost tr) in
          let reducedCost := currentCost * (1 - reductionPercentage) in
          Ok (set_transportation
                (Transportation.set_cost (formatCurrency reducedCost) tr) day))
       days.

(** function addBudgetAlternatives(days) *)
Definition budgetAlternative (activity : Activity.t) : Activity.t :=
  let currentCost := parseCurrency (Activity.cost activity) in
  let reducedCost := currentCost * (6 # 10) in
  Activity.mk
    (String.append "Budget " (Activity.name activity))
    (String.append "A more affordable version of "
       (String.append (Activity.name activity) "."))
    (formatCurrency reducedCost)
    (Activity.type activity)
    (Activity.location activity)
    (Activity.duration activity)
    (Activity.imageUrl activity).

Definition addBudgetAlternatives (days : list Day) : list Day :=
  map (fun day => set_alternativeActivities (map budgetAlternative (activities day)) day)
      days.

(** function calculateTotalCost(days) *)
Definition calculateTotalCost (days : list Day) : result Q :=
  forEach
    (fun total day =>
       let total1 := total + parseCurrency (Accommodation.cost (accommodation day)) in
       tr ← transportation_of day;
       let total2 := total1 + parseCurrency (Transportation.cost tr) in
       Ok (sumActivities (activities day) total2))
    days 0.

(** JSON.parse(JSON.stringify(itinerary)): a structural copy.  Values of
    the embedding have no identity, so the copy is the value itself; what
    the copy buys, that the reducers below never touch [itinerary], shows
    in [optimizeBudget] returning [itinerary] from the handler. *)
Definition deepCopy (itinerary : Itinerary) : Itinerary := itinerary.

Definition set_days (ds : list Day) (it : Itinerary) : Itinerary :=
  mkItinerary (destination it) (totalCost it) (duration it) ds (travelTips it).
Definition set_totalCost (c : string) (it : Itinerary) : Itinerary :=
  mkItinerary (destination it) c (duration it) (days it) (travelTips it).

(** The if-chain of optimizeBudget that picks the category to reduce. *)
Definition reduceDominant (days : list Day) (savingsNeeded : Q) (budgetBreakdown : Breakdown)
  : result (list Day) :=
  if Qgt_bool (accommodationTotal budgetBreakdown) (activitiesTotal budgetBreakdown)
     && Qgt_bool (accommodationTotal budgetBreakdown) (transportationTotal budgetBreakdown)
  then Ok (optimizeAccommodation days savingsNeeded (accommodationTotal budgetBreakdown))
  else if Qgt_bool (activitiesTotal budgetBreakdown) (transportationTotal budgetBreakdown)
  then Ok (optimizeActivities days savingsNeeded (activitiesTotal budgetBreakdown))
  else optimizeTransportation days savingsNeeded (transportationTotal budgetBreakdown).

(** The body of the try block of optimizeBudget. *)
Definition optimizeBudget_body (itinerary : Itinerary) (totalBudget : Q) : result Itinerary :=
  let currentCost := parseCurrency (totalCost itinerary) in
  if Qle_bool currentCost totalBudget then Ok itinerary
  else
    let savingsNeeded := currentCost - totalBudget in
    let optimizedItinerary := deepCopy itinerary in
    budgetBreakdown ← analyzeBudgetAllocation optimizedItinerary;
    days1 ← reduceDominant (days optimizedItinerary) savingsNeeded budgetBreakdown;
    newTotalCost ← calculateTotalCost days1;
    Ok (set_days (addBudgetAlternatives days1)
          (set_totalCost (formatCurrency newTotalCost) optimizedItinerary)).

(** export async function optimizeBudget(itinerary, totalBudget) *)
Definition optimizeBudget (itinerary : Itinerary) (totalBudget : Q) : result Itinerary :=
  try_catch (optimizeBudget_body itinerary totalBudget)
    (fun error => Ok itinerary).

End Optimizer.

Import Optimizer.

(* ------------------------------------------------------------------ *)
(** ** Math.random and the weather generator *)

Module Weather.

(** The state of [Math.random]: the values its next calls return, in order
    (each in the interval from 0 to 1, 1 excluded). *)
Definition Draws : Type := nat -> Q.

(** A computation that may call [Math.random]. *)
Definition Rand (A : Type) : Type := Draws -> A * Draws.

#[global] Instance rand_ret : MRet Rand := fun A a g => (a, g).
#[global] Instance rand_bind : MBind Rand :=
  fun A B k m g => let '(a, g') := m g in k a g'.

Definition Math_random : Rand Q := fun g => (g O, fun n => g (S n)).

Definition Math_round (x : Q) : Z := Qfloor (x + (1 # 2)).
Definition Math_floor (x : Q) : Z := Qfloor x.

(** What the generator reads of its [Date] argument. *)
Record JsDate : Type := mkDate {
  getMonth : Z;              (* 0 for January .. 11 for December *)
  getDate : Z;               (* day of the month, 1 .. 31 *)
  isoDate : string           (* date.toISOString().split('T')[0] *)
}.

Inductive Condition : Type :=
| sunny | cloudy | rainy | snowy | stormy | partly_cloudy.

Record Forecast : Type := mkForecast {
  date : string;
  temperature_min : Z;
  temperature_max : Z;
  temperature_current : Z;
  description : option string;     (* [None]: an index outside the table *)
  wind_speed : Z;
  humidity : Z;
  condition : Condition;
  precipitation_chance : Z
}.

(** [toLowerCase] and [charCodeAt(0)] on ASCII text. *)
Definition toLowerCase (c : ascii) : ascii :=
  let n := Chars.code c in
  if ((65 <=? n) && (n <=? 90))%N then ascii_of_N (n + 32) else c.

(** Array.from(location.toLowerCase()).reduce((hash, char) => char.charCodeAt(0) + hash, 0) *)
Definition locationHash (location : string) : Z :=
  fold_left (fun hash char => (Z.of_N (Chars.code char) + hash)%Z)
    (map toLowerCase (Chars.of_string location)) 0%Z.

Definition descriptions (c : Condition) : list string :=
  match c with
  | sunny => ["Clear skies"; "Sunny"; "Bright and sunny"; "Warm and clear"]
  | partly_cloudy => ["Partly cloudy"; "Some clouds"; "Mostly sunny"]
  | cloudy => ["Overcast"; "Cloudy skies"; "Overcast conditions"]
  | rainy => ["Light rain"; "Showers"; "Rainy"; "Precipitation expected"]
  | snowy => ["Light snow"; "Snowfall"; "Snow showers"; "Snowy conditions"]
  | stormy => ["Thunderstorms"; "Stormy conditions"; "Thunder and lightning"]
  end%string.

(** [table[i]]: [undefined] outside the table. *)
Definition at_index (table : list string) (i : Z) : option string :=
  if (i <? 0)%Z then None else table !! Z.to_nat i.

(** The threshold chain on [rainChance], then the snow override. *)
Definition classify (rainChance maxTemp : Z) : Condition :=
  let condition :=
    if (rainChance >? 70)%Z then rainy
    else if (rainChance >? 40)%Z then cloudy
    else if (rainChance >? 20)%Z then partly_cloudy
    else sunny in
  match condition with
  | rainy => if (maxTemp <? 2)%Z then snowy else rainy
  | _ => condition
  end.

Section Generator.

(** [Math.sin] at an integer argument; the generator calls it once, on
    [date.getDate() * locationHash]. *)
Variable Math_sin : Z -> Q.

Definition seasonalTemp (month : Z) : Q :=
  if ((month >=? 5) && (month <=? 8))%Z then 8
  else if ((month >=? 11) || (month <=? 2))%Z then - (8)
  else 0.

Definition maxTempOf (location : string) (date : JsDate) : Z :=
  let locationHash := locationHash location in
  let baseTemp := inject_Z (10 + locationHash mod 25) in
  let dayVariation := (Math_sin (getDate date * locationHash) + 1) * 3 in
  Math_round (baseTemp + seasonalTemp (getMonth date) + dayVariation).

(** function generateMockWeatherData(location: string, date: Date) *)
Definition generateMockWeatherData (location : string) (date : JsDate) : Rand Forecast :=
  let locationHash := locationHash location in
  let rainfall := inject_Z (locationHash mod 10) / 10 in
  let maxTemp := maxTempOf location date in
  r1 ← Math_random;
  let minTemp := Math_round (inject_Z maxTemp - (5 + r1 * 5)) in
  r2 ← Math_random;
  let currentTemp :=
    Math_round (inject_Z minTemp
                + inject_Z (maxTemp - minTemp) * ((3 # 10) + r2 * (4 # 10))) in
  r3 ← Math_random;
  let rainChance := Math_round ((rainfall + r3 * (5 # 10)) * 100) in
  let condition := classify rainChance maxTemp in
  r4 ← Math_random;
  let description :=
    at_index (descriptions condition)
      (Math_floor (r4 * inject_Z (Z.of_nat (length (descriptions condition))))) in
  r5 ← Math_random;
  let windSpeed :=
    match condition with
    | stormy => (30 + Math_round (r5 * 30))%Z
    | rainy | snowy => (10 + Math_round (r5 * 20))%Z
    | _ => (5 + Math_round (r5 * 15))%Z
    end in
  r6 ← Math_random;
  let humidity :=
    match condition with
    | rainy | snowy | stormy => (70 + Math_round (r6 * 25))%Z
    | cloudy => (50 + Math_round (r6 * 30))%Z
    | _ => (30 + Math_round (r6 * 30))%Z
    end in
  mret (mkForecast (isoDate date) minTemp maxTemp currentTemp description
          windSpeed humidity condition rainChance).

End Generator.

End Weather.

(* ------------------------------------------------------------------ *)
(** ** Inventory generators: the exported search functions *)

Module Generators.
Import Chars.

(** ToInt32: a number wrapped to a signed 32-bit integer. *)
Definition wrap32 (z : Z) : Z := ((z + 2 ^ 31) mod 2 ^ 32 - 2 ^ 31)%Z.

(** function hashString(str: string): number
    [hash << 5] and [hash & hash] wrap to 32 bits; the subtraction and the
    addition between them are exact.  A character is its code (ASCII
    text). *)
Definition hashString (str : string) : Z :=
  Z.abs
    (fold_left
       (fun hash char =>
          wrap32 (wrap32 (hash * 32) - hash + Z.of_N (code char)))
       (of_string str) 0%Z).

(** [s.split(',')]: never empty, the empty string splits to one empty
    part. *)
Fixpoint split_comma (s : chars) : list chars :=
  match s with
  | [] => [[]]
  | c :: rest =>
      if (code c =? 44)%N then [] :: split_comma rest
      else
        match split_comma rest with
        | part :: parts => (c :: part) :: parts
        | [] => [[c]]
        end
  end.

(** [destination.split(',')[0].trim()] *)
Definition cityOf (destination : string) : string :=
  to_string (trim (List.hd [] (split_comma (of_string destination)))).

(** [parts.length > 1 ? parts[1].trim() : 'Unknown'] *)
Definition countryOf (destination : string) : string :=
  match split_comma (of_string destination) with
  | _ :: second :: _ => to_string (trim second)
  | _ => "Unknown"%string
  end.

Definition toLowerCase (s : string) : string :=
  to_string (map Weather.toLowerCase (of_string s)).

Definition toUpperCase (c : ascii) : ascii :=
  let n := code c in
  if ((97 <=? n) && (n <=? 122))%N then ascii_of_N (n - 32) else c.

(** [s.charAt(i)]: the empty string when [i] is outside the string. *)
Definition charAt (s : chars) (i : Z) : chars :=
  if (i <? 0)%Z then []
  else match s !! Z.to_nat i with Some c => [c] | None => [] end.

(** function generateAirportCode(city: string): string, for a city written
    in ASCII: [charAt] and [length] count UTF-16 units and [toUpperCase] is
    Unicode's, which are the bytes and the upper case of the letters a to
    z on such a city only. *)
Definition generateAirportCode (city : string) : string :=
  let cityHash := hashString city in
  let cs := of_string city in
  let len := Z.of_nat (length cs) in
  let code3 :=
    map toUpperCase (charAt cs 0)
    ++ map toUpperCase (charAt cs (Z.min 1 (len - 1)))
    ++ map toUpperCase (charAt cs (Z.min 2 (len - 1))) in
  to_string
    (if (len <? 3)%Z then code3 ++ [ascii_of_N (Z.to_N (65 + cityHash mod 26))]
     else code3).

Section Wrappers.

(** The generators behind the exported functions.  What they compute plays
    no part in how the exported functions handle a failure, so each is a
    parameter that returns a value or throws. *)
Variables Flight Hotel ActivityData LocationData Coordinates TravelTimes : Type.

(** [new Date(text)]: a timestamp in milliseconds, [None] for an invalid
    date (whose [getTime()] is NaN); [date.toISOString()] of a valid
    date. *)
Variable newDate : string -> option Z.
Variable isoString : Z -> string.

(** The loop of generateFlights that builds the flights from the seed. *)
Variable buildFlights :
  string -> string -> string -> string -> Z -> Q -> Z -> result (list Flight).

(** function generateFlights(originCity, originAirport, destinationCity,
    destinationAirport, departureDate, passengers): the seed is hashed from
    [departureDate.toISOString()], which throws a RangeError on an invalid
    date. *)
Definition generateFlights (originCity originAirport destinationCity destinationAirport : string)
    (departureDate : option Z) (passengers : Q) : result (list Flight) :=
  match departureDate with
  | None => Throw (RangeError "Invalid time value")
  | Some t =>
      let seed :=
        hashString
          (String.append originCity
             (String.append "-"
                (String.append destinationCity (String.append "-" (isoString t))))) in
      buildFlights originCity originAirport destinationCity destinationAirport
        t passengers seed
  end.

Variable generateHotels :
  string -> string -> option Z -> Q -> string -> Z -> result (list Hotel).
Variable generateActivities :
  string -> list string -> Q -> Z -> result (list ActivityData).
Variable simulateGeocode : string -> result LocationData.
Variable coordinates : LocationData -> Coordinates.
Variable simulateNearbySearch : Coordinates -> string -> result (list LocationData).
Variable calculateTravelTimes : LocationData -> list LocationData -> result TravelTimes.

(** export async function searchFlights(destination, departDate, returnDate, passengers) *)
Definition searchFlights_body (destination departDate returnDate : string) (passengers : Q)
  : result (list Flight) :=
  let originCity := "New York"%string in
  let originAirport := "JFK"%string in
  let destinationCity := cityOf destination in
  let destinationAirport := generateAirportCode destinationCity in
  let departureDate := newDate departDate in
  let returnDepartureDate := newDate returnDate in
  outboundFlights ←
    generateFlights originCity originAirport destinationCity destinationAirport
      departureDate passengers;
  returnFlights ←
    generateFlights destinationCity destinationAirport originCity originAirport
      returnDepartureDate passengers;
  mret (outboundFlights ++ returnFlights).

Definition searchFlights (destination departDate returnDate : string) (passengers : Q)
  : result (list Flight) :=
  try_catch (searchFlights_body destination departDate returnDate passengers)
    (fun error => mret []).

(** Math.ceil((checkOut.getTime() - checkIn.getTime()) / (1000 * 60 * 60 * 24)) *)
Definition nightsBetween (checkIn checkOut : option Z) : option Z :=
  match checkIn, checkOut with
  | Some t_in, Some t_out =>
      Some (Qceiling (inject_Z (t_out - t_in) / inject_Z (1000 * 60 * 60 * 24)))
  | _, _ => None
  end.

(** export async function searchHotels(destination, checkInDate, checkOutDate, guests, accommodationType) *)
Definition searchHotels_body (destination checkInDate checkOutDate : string) (guests : Q)
    (accommodationType : string) : result (list Hotel) :=
  let city := cityOf destination in
  let country := countryOf destination in
  let checkIn := newDate checkInDate in
  let checkOut := newDate checkOutDate in
  let nights := nightsBetween checkIn checkOut in
  let accType := toLowerCase accommodationType in
  let seed :=
    hashString
      (String.append destination
         (String.append "-" (String.append checkInDate (String.append "-" checkOutDate)))) in
  generateHotels city country nights guests accType seed.

Definition searchHotels (destination checkInDate checkOutDate : string) (guests : Q)
    (accommodationType : string) : result (list Hotel) :=
  try_catch (searchHotels_body destination checkInDate checkOutDate guests accommodationType)
    (fun error => mret []).

(** export async function findActivities(destination, interests, tripDuration) *)
Definition findActivities_body (destination : string) (interests : list string)
    (tripDuration : Q) : result (list ActivityData) :=
  let city := cityOf destination in
  let seed := hashString destination in
  generateActivities city interests tripDuration seed.

Definition findActivities (destination : string) (interests : list string)
    (tripDuration : Q) : result (list ActivityData) :=
  try_catch (findActivities_body destination interests tripDuration)
    (fun error => mret []).

Record MapData : Type := mkMapData {
  mainLocation : LocationData;
  nearbyAttractions : list LocationData;
  travelTimes : TravelTimes
}.

(** export async function getMapData(destination) *)
Definition getMapData_body (destination : string) : result MapData :=
  mainLocation ← simulateGeocode destination;
  nearbyAttractions ← simulateNearbySearch (coordinates mainLocation) destination;
  travelTimes ← calculateTravelTimes mainLocation nearbyAttractions;
  mret (mkMapData mainLocation nearbyAttractions travelTimes).

Definition getMapData (destination : string) : result MapData :=
  try_catch (getMapData_body destination)
    (fun error => Throw (Error "Failed to fetch map data for destination")).

End Wrappers.

End Generators.

(* ------------------------------------------------------------------ *)
(** ** Arrays, numbers and template strings of the generators *)

Module JSArray.

(** [array.sort(comparefn)]: the sort is stable, so for a comparator that
    orders the elements consistently the result is the one sorted
    arrangement that keeps equal elements in their original order.
    [gt a b] is [comparefn(a, b) > 0]: [a] has to come after [b]. *)
Fixpoint insertBy {A} (gt : A -> A -> bool) (x : A) (sorted : list A) : list A :=
  match sorted with
  | [] => [x]
  | y :: rest => if gt x y then y :: insertBy gt x rest else x :: sorted
  end.

Definition sort {A} (gt : A -> A -> bool) (l : list A) : list A :=
  foldr (insertBy gt) [] l.

(** [table[i]]: [undefined] outside the table. *)
Definition item {A} (table : list A) (i : Z) : option A :=
  if (i <? 0)%Z then None else table !! Z.to_nat i.

(** The values of [i] in [for (let i = 0; i < n; i++)]. *)
Definition upto (n : Z) : list Z := map Z.of_nat (seq 0 (Z.to_nat n)).

(** [`${n}`] for an integer [n]. *)
Definition showZ (n : Z) : string :=
  let digits := Chars.to_string (Chars.chars_of_uint (N.to_uint (Z.to_N (Z.abs n)))) in
  if (n <? 0)%Z then String "-" digits else digits.

(** A template literal: the concatenation of its parts. *)
Definition cat (parts : list string) : string := foldr String.append EmptyString parts.

End JSArray.

(* ------------------------------------------------------------------ *)
(** ** The flight generator (generateFlights and its helpers) *)

Module Flights.
Import JSArray.

Record Layover : Type := mkLayover {
  airport : option string;       (* [None]: an index outside the table of hubs *)
  layoverDuration : string       (* the property [duration] of a layover *)
}.

Record Flight : Type := mkFlight {
  id : string;
  airline : string;
  flightNumber : string;
  departureAirport : string;
  departureCity : string;
  arrivalAirport : string;
  arrivalCity : string;
  departureTime : string;
  arrivalTime : string;
  duration : string;
  stops : Z;
  price : Z;
  currency : string;
  cabinClass : string;
  layovers : option (list Layover)
}.

Definition airlines : list string :=
  ["Delta Airlines"; "United Airlines"; "American Airlines"; "British Airways";
   "Lufthansa"; "Air France"; "Emirates"; "Singapore Airlines"; "Qatar Airways";
   "Turkish Airlines"]%string.

Definition hubs : list string :=
  ["ATL"; "ORD"; "DFW"; "DEN"; "LAX";
   "LHR"; "CDG"; "AMS"; "FRA"; "MAD";
   "DXB"; "DOH"; "AUH";
   "HKG"; "SIN"; "ICN"; "NRT"; "PEK"]%string.

(** function calculateFlightDuration(origin, destination) *)
Definition calculateFlightDuration (origin destination : string) : Z :=
  let cityPairHash := Generators.hashString (cat [origin; "-"; destination]%string) in
  (Z.rem cityPairHash 12 + 3)%Z.

(** function calculateBaseFlightPrice(origin, destination, duration) *)
Definition calculateBaseFlightPrice (origin destination : string) (duration : Z) : Z :=
  let cityPairHash := Generators.hashString (cat [origin; "-"; destination]%string) in
  let basePrice := (150 + duration * 70)%Z in
  let priceVariability := (Z.rem cityPairHash 60 - 30)%Z in
  (basePrice + priceVariability)%Z.

(** function getLayoverAirports(origin, destination, numStops, seed) *)
Definition getLayoverAirports (origin destination : string) (numStops seed : Z)
  : list (option string) :=
  map (fun i => item hubs (Z.rem (seed + i * 7) 18)) (upto numStops).

(** [airline.substring(0, 2).toUpperCase()] *)
Definition upper2 (airline : string) : string :=
  Chars.to_string (map Generators.toUpperCase (take 2 (Chars.of_string airline))).

(** The largest time value of a Date, in milliseconds: [setTime] and
    [setHours] make the date invalid beyond it. *)
Definition maxTime : Z := 8640000000000000.

Definition timeClip (t : Z) : option Z :=
  if (Z.abs t <=? maxTime)%Z then Some t else None.

(** [date.toISOString()]: a RangeError for an invalid date. *)
Definition toISOString (isoString : Z -> string) (date : option Z) : result string :=
  match date with
  | Some t => Ok (isoString t)
  | None => Throw (RangeError "Invalid time value")
  end.

Section Dates.

(** [date.setHours(h, m, s)] sets the time of day in the local time zone
    of the host; [None] is an invalid date.  [isoString] is
    [toISOString] of a valid date. *)
Variable setHours : Z -> Z -> Z -> Z -> option Z.
Variable isoString : Z -> string.

(** One turn of the loop of generateFlights. *)
Definition flightAt (originCity originAirport destinationCity destinationAirport : string)
    (departureDate : Z) (passengers : Q) (seed i : Z) : result Flight :=
  let airlineIndex := Z.rem (seed + i) 10 in
  match item airlines airlineIndex with
  | None => Throw (TypeError "Cannot read properties of undefined (reading 'substring')")
  | Some airline =>
      let flightNumber := cat [upper2 airline; showZ (100 + Z.rem (seed + i) 900)] in
      let departureHour := (6 + Z.rem (seed + i * 3) 16)%Z in
      let departureMinute := (Z.rem (seed + i * 7) 12 * 5)%Z in
      let departureDateWithTime := setHours departureDate departureHour departureMinute 0 in
      let baseDuration := calculateFlightDuration originCity destinationCity in
      let durationVariance := (Z.rem (seed + i) 5 - 2)%Z in
      let durationHours := Z.max 1 (baseDuration + durationVariance) in
      let durationMinutes := (Z.rem (seed + i * 13) 12 * 5)%Z in
      let arrivalDateWithTime :=
        match departureDateWithTime with
        | Some t =>
            timeClip (t + durationHours * 60 * 60 * 1000 + durationMinutes * 60 * 1000)
        | None => None
        end in
      let durationFormatted :=
        cat [showZ durationHours; "h "; showZ durationMinutes; "m"]%string in
      let basePrice := calculateBaseFlightPrice originCity destinationCity durationHours in
      let priceMultiplier := (85 # 100) + inject_Z (Z.rem (seed + i * 17) 30) / 100 in
      let price := Weather.Math_round (inject_Z basePrice * priceMultiplier * passengers) in
      let stops := if (i =? 0)%Z then 0%Z else Z.min 2 (Z.rem (seed + i) 3) in
      let layovers :=
        if (stops >? 0)%Z then
          let layoverAirports :=
            getLayoverAirports originCity destinationCity stops (seed + i) in
          map (fun j =>
                 let layoverMinutes := (45 + Z.rem (seed + i * j) 135)%Z in
                 mkLayover
                   (match item layoverAirports j with Some a => a | None => None end)
                   (cat [showZ (layoverMinutes / 60); "h ";
                         showZ (Z.rem layoverMinutes 60); "m"]%string))
              (upto stops)
        else [] in
      let cabinClass :=
        if (i =? 0)%Z then "Business"%string
        else if (i =? 1)%Z then "Premium Economy"%string else "Economy"%string in
      departureTime ← toISOString isoString departureDateWithTime;
      arrivalTime ← toISOString isoString arrivalDateWithTime;
      Ok (mkFlight
            (cat ["flight-"; originAirport; "-"; destinationAirport; "-"; showZ i]%string)
            airline flightNumber originAirport originCity destinationAirport destinationCity
            departureTime arrivalTime durationFormatted stops price "USD" cabinClass
            (if (stops >? 0)%Z then Some layovers else None))
  end.

(** [(a, b) => a.price - b.price] *)
Definition dearer (a b : Flight) : bool := (price a - price b >? 0)%Z.

(** The loop of generateFlights and the sort by price. *)
Definition buildFlights (originCity originAirport destinationCity destinationAirport : string)
    (departureDate : Z) (passengers : Q) (seed : Z) : result (list Flight) :=
  let numFlights := (3 + Z.rem seed 5)%Z in
  flights ←
    mapM (flightAt originCity originAirport destinationCity destinationAirport
            departureDate passengers seed)
      (upto numFlights);
  Ok (sort dearer flights).

(** function generateFlights(originCity, originAirport, destinationCity,
    destinationAirport, departureDate, passengers) *)
Definition generateFlights :=
  Generators.generateFlights Flight isoString buildFlights.

(** export async function searchFlights(destination, departDate,
    returnDate, passengers), with [new Date(text)] as [newDate]. *)
Definition searchFlights (newDate : string -> option Z) :=
  Generators.searchFlights Flight newDate isoString buildFlights.

End Dates.

End Flights.

(* ------------------------------------------------------------------ *)
(** ** Strings of the generators *)

Module JSString.
Import Chars.

(** [hay.includes(needle)] *)
Fixpoint includes (hay needle : string) : bool :=
  String.prefix needle hay
  || match hay with
     | EmptyString => false
     | String _ rest => includes rest needle
     end.

(** The characters encodeURIComponent leaves as they are: letters, digits
    and [- _ . ! ~ * ' ( )]. *)
Definition unreserved (c : ascii) : bool :=
  let n := code c in
  (((65 <=? n) && (n <=? 90)) || ((97 <=? n) && (n <=? 122))
   || ((48 <=? n) && (n <=? 57))
   || (n =? 45) || (n =? 95) || (n =? 46) || (n =? 33) || (n =? 126)
   || (n =? 42) || (n =? 39) || (n =? 40) || (n =? 41))%N.

Definition hexDigit (n : N) : ascii :=
  if (n <? 10)%N then ascii_of_N (48 + n) else ascii_of_N (55 + n).

(** [encodeURIComponent(s)] on UTF-8 text: every byte of a character that
    is not unreserved becomes a percent sign and two hexadecimal digits. *)
Definition encodeURIComponent (s : string) : string :=
  to_string
    (concat
       (map (fun c =>
               if unreserved c then [c]
               else ["%"%char; hexDigit (code c / 16); hexDigit (code c mod 16)])
          (of_string s))).

(** [(tenths / 10).toFixed(1)] for an integer number of tenths. *)
Definition toFixed1 (tenths : Z) : string :=
  let digits :=
    JSArray.cat [JSArray.showZ (Z.abs tenths / 10); "."; JSArray.showZ (Z.abs tenths mod 10)]%string in
  if (tenths <? 0)%Z then String "-" digits else digits.

(** [table[i]] inside a template literal: [undefined] is written as the
    word. *)
Definition pick (table : list string) (i : Z) : string :=
  match JSArray.item table i with
  | Some s => s
  | None => "undefined"
  end.

End JSString.

(* ------------------------------------------------------------------ *)
(** ** The activity generator (generateActivities and its helpers)

    The seed of these functions is a hash plus non-negative offsets.  For
    such a seed [%] is [Z.rem] and every index [seed % table.length] is
    inside its table.  For a negative seed JavaScript would read outside
    the tables and put [undefined] into the arrays of strings; [pick]
    writes the word instead, so the embedding is meant for non-negative
    seeds. *)

Module Activities.
Import JSArray.
Import JSString.

Record Activity : Type := mkActivity {
  id : string;
  name : string;
  description : string;
  category : string;
  subcategories : list string;
  location : string;
  address : string;
  city : string;
  price : Z;
  currency : string;
  duration : string;
  rating : Q;
  reviewCount : Z;
  imageUrl : string;
  bookingRequired : bool;
  distanceFromCenter : string;
  suitableFor : list string;
  highlights : list string;
  tags : list string
}.

(** An entry of the table of categories. *)
Record Kind : Type := mkKind {
  kindName : string;                 (* name *)
  kindSubcategories : list string;   (* subcategories *)
  kindInterests : list string        (* interests *)
}.

Definition categories : list Kind :=
  [mkKind "Sightseeing"
     ["Landmarks"; "Architecture"; "City Tours"; "Walking Tours"; "Bus Tours"]
     ["history"; "culture"; "architecture"; "sightseeing"];
   mkKind "Cultural"
     ["Museums"; "Art Galleries"; "Theaters"; "Historical Sites"; "Local Customs"]
     ["history"; "culture"; "art"; "museums"; "education"];
   mkKind "Food & Drink"
     ["Food Tours"; "Cooking Classes"; "Wine Tasting"; "Local Cuisine"; "Cafes"]
     ["food"; "culinary"; "wine"; "local cuisine"; "gastronomy"];
   mkKind "Nature & Outdoors"
     ["Parks"; "Gardens"; "Hiking"; "Wildlife"; "Beaches"]
     ["nature"; "outdoors"; "hiking"; "wildlife"; "adventure"];
   mkKind "Adventure"
     ["Water Sports"; "Zip-lining"; "Rock Climbing"; "Bungee Jumping"; "Skydiving"]
     ["adventure"; "adrenaline"; "sports"; "extreme"; "active"];
   mkKind "Entertainment"
     ["Concerts"; "Live Shows"; "Nightlife"; "Theme Parks"; "Events"]
     ["entertainment"; "nightlife"; "shows"; "fun"; "music"];
   mkKind "Shopping"
     ["Local Markets"; "Shopping Districts"; "Boutiques"; "Souvenir Shops"; "Malls"]
     ["shopping"; "markets"; "local products"; "souvenirs"];
   mkKind "Relaxation"
     ["Spas"; "Wellness"; "Beaches"; "Parks"; "Meditation"]
     ["relaxation"; "wellness"; "spa"; "peaceful"; "mindfulness"]]%string.

(** function getBaseActivityPrice(category, durationHours), for a category
    name that is not a property of Object.prototype. *)
Definition categoryMultiplier (category : string) : Q :=
  if String.eqb category "Sightseeing" then 1
  else if String.eqb category "Cultural" then 12 # 10
  else if String.eqb category "Food & Drink" then 15 # 10
  else if String.eqb category "Nature & Outdoors" then 9 # 10
  else if String.eqb category "Adventure" then 18 # 10
  else if String.eqb category "Entertainment" then 17 # 10
  else if String.eqb category "Shopping" then 5 # 10
  else if String.eqb category "Relaxation" then 14 # 10
  else 1.

Definition getBaseActivityPrice (category : string) (durationHours : Z) : Z :=
  Weather.Math_round (20 * inject_Z durationHours * categoryMultiplier category).

(** function generateActivityName(city, category, subcategory, seed) *)
Definition generateActivityName (city category subcategory : string) (seed : Z) : string :=
  let prefixes :=
    [city;
     cat [city; " Signature"];
     cat [city; " Ultimate"];
     cat [city; " Classic"];
     cat ["Authentic "; city];
     cat ["Historic "; city];
     cat ["Exclusive "; city];
     cat ["Top-Rated "; city];
     cat ["Private "; city];
     cat ["Premium "; city]]%string in
  let suffixes :=
    [cat [subcategory; " Experience"];
     cat [subcategory; " Adventure"];
     cat [subcategory; " Tour"];
     cat [subcategory; " Discovery"];
     cat [subcategory; " Exploration"];
     cat [subcategory; " Journey"];
     cat [category; " Experience"];
     cat ["Best of "; subcategory];
     cat [subcategory; " Highlights"];
     cat [subcategory; " Excursion"]]%string in
  let prefixIndex := Z.rem seed 10 in
  let suffixIndex := Z.rem (seed + 3) 10 in
  cat [pick prefixes prefixIndex; " "; pick suffixes suffixIndex]%string.

(** function generateActivityDescription(name, city, subcategory, duration) *)
Definition generateActivityDescription (name city subcategory duration : string) : string :=
  let sub := Generators.toLowerCase subcategory in
  let introductions :=
    [cat ["Discover the best of "; city; " with this "; sub; " experience."];
     cat ["Immerse yourself in the "; city; " "; sub; " scene with this guided tour."];
     cat ["Experience "; city; "'s world-renowned "; sub; " in this unforgettable activity."];
     cat ["Explore the highlights of "; city; "'s "; sub; " with expert local guides."];
     cat ["Enjoy an authentic "; city; " experience with this top-rated "; sub; " tour."]
    ]%string in
  let midsections :=
    [cat ["This "; duration;
          " adventure takes you through the most iconic spots and hidden gems."];
     cat ["With a duration of "; duration;
          ", you'll have plenty of time to enjoy the experience without rushing."];
     cat ["Over the course of "; duration; ", you'll see why "; city;
          " is famous for its "; sub; "."];
     cat ["This carefully designed "; duration;
          " tour offers the perfect balance of information and enjoyment."];
     cat ["For "; duration;
          ", our experienced guides will share fascinating insights and stories about ";
          city; "."]]%string in
  let conclusions :=
    ["Perfect for first-time visitors and returning travelers alike.";
     cat ["An essential experience for anyone wanting to truly understand "; city; "."];
     "Book early to secure your spot - this is one of our most popular activities!";
     "Suitable for all ages and interests, making it a perfect addition to any itinerary.";
     "By the end, you'll have memories and photos to cherish for years to come."
    ]%string in
  let seed := Generators.hashString name in
  let introIndex := Z.rem seed 5 in
  let midIndex := Z.rem (seed + 7) 5 in
  let conclusionIndex := Z.rem (seed + 13) 5 in
  cat [pick introductions introIndex; " "; pick midsections midIndex; " ";
       pick conclusions conclusionIndex]%string.

Definition highlightOptions (city subcategory : string) : list string :=
  [cat ["Experience the best of "; city; "'s "; Generators.toLowerCase subcategory];
   cat ["Learn about the rich history of "; city; " from expert guides"];
   "Skip-the-line access to popular attractions";
   "Small group sizes for a more personalized experience";
   "Convenient pickup and drop-off at central locations";
   "Discover hidden gems not found in guidebooks";
   "Sample local delicacies and specialties";
   "Take stunning photos at the best viewpoints";
   "Receive insider tips and recommendations for the rest of your stay";
   "Flexible booking options with free cancellation";
   "Environmentally conscious and sustainable tour practices";
   "Authentic interactions with local communities";
   "Access to exclusive locations not open to the general public";
   "All entrance fees and equipment included in the price";
   "Digital souvenir package with professional photos";
   "Support local businesses and artisans"]%string.

(** [highlights.includes(option)] *)
Definition holds (highlights : list string) (option : string) : bool :=
  existsb (String.eqb option) highlights.

(** function generateActivityHighlights(name, city, subcategory, category, count, seed) *)
Definition generateActivityHighlights (name city subcategory category : string)
    (count seed : Z) : list string :=
  fold_left
    (fun highlights i =>
       let optionIndex := Z.rem (seed + i * 17) 16 in
       let option := pick (highlightOptions city subcategory) optionIndex in
       if negb (holds highlights option) then highlights ++ [option]
       else highlights
            ++ [cat ["Enjoy the unique "; Generators.toLowerCase category; " culture of "; city]
               ]%string)
    (upto count) [].

Definition additionalTags : list string :=
  ["top-rated"; "popular"; "must-see"; "authentic"; "local experience";
   "family-friendly"; "educational"; "unique"; "traditional"; "Instagram-worthy"]%string.

Definition suitableForOptions : list string :=
  ["Families"; "Couples"; "Solo travelers"; "Groups"; "Seniors";
   "Children"; "Photography enthusiasts"; "History buffs"; "Art lovers"; "Foodies"]%string.

Definition streetNames : list string :=
  ["Main"; "Park"; "Grand"; "Museum"; "Festival";
   "Cultural"; "Market"; "Historic"; "Art"; "Central"]%string.

(** function generateActivity(city, category, subcategories, seed, interest?) *)
Definition generateActivity (city category : string) (subcategories : list string)
    (seed : Z) (interest : option string) : result Activity :=
  let subcategoryIndex :=
    if Nat.eqb (length subcategories) 0 then None     (* seed % 0 is NaN *)
    else Some (Z.rem seed (Z.of_nat (length subcategories))) in
  match subcategoryIndex ≫= item subcategories with
  | None =>
      (* generateActivityDescription calls subcategory.toLowerCase() *)
      Throw (TypeError "Cannot read properties of undefined (reading 'toLowerCase')")
  | Some subcategory =>
      let name := generateActivityName city category subcategory seed in
      let durationHours := Z.max 1 (Z.rem (Z.rem seed 10) 6) in
      let durationMinutes := (Z.rem (seed + 3) 2 * 30)%Z in
      let duration :=
        if (durationMinutes >? 0)%Z
        then cat [showZ durationHours; " hours "; showZ durationMinutes; " minutes"]%string
        else cat [showZ durationHours; " hours"]%string in
      let basePrice := getBaseActivityPrice category durationHours in
      let priceVariability := (8 # 10) + inject_Z (Z.rem seed 40) / 100 in
      let price := Weather.Math_round (inject_Z basePrice * priceVariability) in
      let rating := (35 # 10) + inject_Z (Z.rem seed 30) / 20 in
      let baseReviewCount := 50%Z in
      let reviewMultiplier := Z.max 1 (Weather.Math_floor (rating - 3) * 3) in
      let reviewCount := (baseReviewCount + Z.rem seed 150 * reviewMultiplier)%Z in
      let description := generateActivityDescription name city subcategory duration in
      let locations :=
        [cat [city; " Downtown"];
         cat [city; " Historical District"];
         cat ["Central "; city];
         cat [subcategory; " District"];
         cat [city; " "; subcategory; " Center"];
         cat [city; " Waterfront"];
         cat [city; " Park Area"];
         cat [city; " Cultural Zone"]]%string in
      let locationIndex := Z.rem seed 8 in
      let location := pick locations locationIndex in
      let streetNumber := (100 + Z.rem seed 900)%Z in
      let streetIndex := Z.rem (seed + 5) 10 in
      let streetName := pick streetNames streetIndex in
      let address := cat [showZ streetNumber; " "; streetName; " Street, "; city]%string in
      let tags0 :=
        [Generators.toLowerCase category; Generators.toLowerCase subcategory]
        ++ match interest with
           | Some text =>
               if String.eqb text "" then [] else [Generators.toLowerCase text]
           | None => []
           end in
      let tags :=
        tags0 ++ map (fun i => pick additionalTags (Z.rem (seed + i * 7) 10)) (upto 3) in
      let numSuitableOptions := (2 + Z.rem seed 3)%Z in
      let suitableFor :=
        map (fun i => pick suitableForOptions (Z.rem (seed + i * 13) 10))
          (upto numSuitableOptions) in
      let numHighlights := (3 + Z.rem seed 2)%Z in
      let highlights :=
        generateActivityHighlights name city subcategory category numHighlights seed in
      let imageQuery :=
        cat [encodeURIComponent subcategory; ","; encodeURIComponent city]%string in
      let imageUrl := cat ["https://source.unsplash.com/600x400/?"; imageQuery]%string in
      let distance := toFixed1 (Z.rem seed 30) in
      Ok (mkActivity
            (cat ["activity-"; showZ seed]%string)
            name description category [subcategory] location address city price "USD"
            duration rating reviewCount imageUrl
            (negb (Z.rem seed 3 =? 0)%Z)
            (cat [distance; " km"]%string)
            suitableFor highlights tags)
  end.

(** [category.interests.some(catInterest => catInterest.includes(interest)
    || interest.includes(catInterest))] *)
Definition matches (interest : string) (kind : Kind) : bool :=
  existsb (fun catInterest => includes catInterest interest || includes interest catInterest)
    (kindInterests kind).

(** The comparator of the final sort: the rating, highest first, then the
    price, lowest first.  [after a b] is [comparefn(a, b) > 0]. *)
Definition after (a b : Activity) : bool :=
  if negb (Qeq_bool (rating b) (rating a))
  then negb (Qle_bool (rating b - rating a) 0)
  else (price a - price b >? 0)%Z.

(** The first loop of generateActivities: one activity for each of the
    first eight interests that matches a category. *)
Definition interestActivities (city : string) (userInterests : list string) (seed : Z)
  : result (list Activity) :=
  forEach
    (fun activities entry =>
       let '(i, text) := entry in
       let interest := Generators.toLowerCase text in
       let matchingCategories := List.filter (matches interest) categories in
       if (0 <? length matchingCategories)%nat then
         let categoryIndex := Z.rem (seed + i) (Z.of_nat (length matchingCategories)) in
         match item matchingCategories categoryIndex with
         | None => Throw (TypeError "Cannot read properties of undefined (reading 'name')")
         | Some kind =>
             activity ←
               generateActivity city (kindName kind) (kindSubcategories kind)
                 (seed + i * 100) (Some interest);
             Ok (activities ++ [activity])
         end
       else Ok activities)
    (zip (upto 8) userInterests) [].

(** The second loop: the remaining activities, by category in turn;
    [activities.length] grows with the loop. *)
Definition fillActivities (city : string) (remainingActivities : Q) (seed : Z)
    (activities : list Activity) : result (list Activity) :=
  forEach
    (fun activities i =>
       let categoryIndex := Z.rem (seed + i + Z.of_nat (length activities)) 8 in
       match item categories categoryIndex with
       | None => Throw (TypeError "Cannot read properties of undefined (reading 'name')")
       | Some kind =>
           activity ←
             generateActivity city (kindName kind) (kindSubcategories kind)
               (seed + (i + Z.of_nat (length activities)) * 100) None;
           Ok (activities ++ [activity])
       end)
    (upto (Qceiling remainingActivities)) activities.

(** function generateActivities(city, interests, tripDuration, seed) *)
Definition generateActivities (city : string) (interests : list string) (tripDuration : Q)
    (seed : Z) : result (list Activity) :=
  let numActivities := Qmin 50 (tripDuration * 4 + 10) in
  let userInterests :=
    if (0 <? length interests)%nat then interests
    else ["history"; "food"; "culture"; "nature"]%string in
  activities ← interestActivities city userInterests seed;
  let remainingActivities := numActivities - inject_Z (Z.of_nat (length activities)) in
  activities ← fillActivities city remainingActivities seed activities;
  Ok (sort after activities).

(** export async function findActivities(destination, interests, tripDuration) *)
Definition findActivities :=
  Generators.findActivities Activity generateActivities.

End Activities.

(* ------------------------------------------------------------------ *)
(** ** The hotel generator (generateHotels and its helpers)

    As for the activities, the seed is a hash plus non-negative offsets
    and the embedding is meant for non-negative seeds. *)

Module Hotels.
Import JSArray.
Import JSString.

Record Hotel : Type := mkHotel {
  id : string;
  name : string;
  description : string;
  address : string;
  city : string;
  country : string;
  price : option Z;              (* [None]: NaN *)
  currency : string;
  pricePerNight : option Z;      (* [None]: NaN *)
  rating : Q;
  reviewCount : Z;
  amenities : list string;
  roomType : option string;      (* [None]: undefined *)
  imageUrl : string;
  distanceFromCenter : string;
  cancellationPolicy : string;
  checkIn : string;
  checkOut : string;
  numberOfGuests : Q;
  numberOfRooms : Z
}.

(** The names that every object inherits from Object.prototype: looking
    one of them up in an object literal finds a function (or the
    prototype), not [undefined]. *)
Definition prototypeKeys : list string :=
  ["constructor"; "__defineGetter__"; "__defineSetter__"; "hasOwnProperty";
   "__lookupGetter__"; "__lookupSetter__"; "isPrototypeOf"; "propertyIsEnumerable";
   "toString"; "valueOf"; "__proto__"; "toLocaleString"]%string.

Definition inherited (key : string) : bool := existsb (String.eqb key) prototypeKeys.

(** function getNamePrefix(accommodationType) *)
Definition getNamePrefix (accommodationType : string) : list string :=
  if String.eqb accommodationType "hotel" then
    ["Grand"; "Royal"; "Imperial"; "Palace"; "Luxury"; "Comfort"; "Central"; "Premier"]%string
  else if String.eqb accommodationType "hostel" then
    ["Backpacker's"; "Traveler's"; "City"; "Budget"; "Friendly"; "Adventure"; "Urban"]%string
  else if String.eqb accommodationType "apartment" then
    ["Modern"; "Luxury"; "Central"; "Cozy"; "Elegant"; "Urban"; "Executive"; "Premium"]%string
  else if String.eqb accommodationType "resort" then
    ["Paradise"; "Tropical"; "Oceanview"; "Beachfront"; "Luxury"; "Island"; "Exclusive"]%string
  else ["Grand"; "Central"; "Comfort"; "City"; "Urban"]%string.

(** function getNameSuffix(accommodationType) *)
Definition getNameSuffix (accommodationType : string) : list string :=
  if String.eqb accommodationType "hotel" then
    ["Hotel"; "Suites"; "Inn"; "Plaza"; "Grand Hotel"; "Residency"; "Hotel & Spa"]%string
  else if String.eqb accommodationType "hostel" then
    ["Hostel"; "Backpackers"; "House"; "Lodge"; "Hub"; "Zone"; "Nest"]%string
  else if String.eqb accommodationType "apartment" then
    ["Apartments"; "Suites"; "Residences"; "Studios"; "Lofts"; "Flats"]%string
  else if String.eqb accommodationType "resort" then
    ["Resort"; "Resort & Spa"; "Beach Resort"; "Villas"; "Island Resort"; "Retreat"]%string
  else ["Hotel"; "Inn"; "Suites"; "Lodge"]%string.

(** The table of getBasePrice: [None] where the lookup finds an
    inherited property, which multiplies to NaN. *)
Definition typeMultiplier (accommodationType : string) : option Q :=
  if String.eqb accommodationType "hotel" then Some 1
  else if String.eqb accommodationType "hostel" then Some (4 # 10)
  else if String.eqb accommodationType "apartment" then Some (12 # 10)
  else if String.eqb accommodationType "resort" then Some (18 # 10)
  else if String.eqb accommodationType "villa" then Some (25 # 10)
  else if String.eqb accommodationType "guesthouse" then Some (7 # 10)
  else if inherited accommodationType then None
  else Some 1.

(** function getRoomType(accommodationType, seed): [None] is [undefined],
    for an inherited property, which has no elements. *)
Definition getRoomType (accommodationType : string) (seed : Z) : option string :=
  let hotel :=
    ["Standard Room"; "Deluxe Room"; "Superior Room"; "Junior Suite"; "Executive Suite"
    ]%string in
  let types :=
    if String.eqb accommodationType "hotel" then Some hotel
    else if String.eqb accommodationType "hostel" then
      Some ["Shared Dormitory"; "Private Room"; "Family Room"; "Deluxe Dormitory";
            "Ensuite Room"]%string
    else if String.eqb accommodationType "apartment" then
      Some ["Studio Apartment"; "One-Bedroom Apartment"; "Two-Bedroom Apartment";
            "Penthouse"; "Loft"]%string
    else if String.eqb accommodationType "resort" then
      Some ["Deluxe Room"; "Garden View Suite"; "Ocean View Room"; "Villa"; "Bungalow"]%string
    else if String.eqb accommodationType "villa" then
      Some ["Luxury Villa"; "Private Pool Villa"; "Garden Villa"; "Beachfront Villa";
            "Family Villa"]%string
    else if String.eqb accommodationType "guesthouse" then
      Some ["Standard Room"; "Double Room"; "Family Room"; "Deluxe Room"; "Suite"]%string
    else if inherited accommodationType then None
    else Some hotel in
  match types with
  | Some types => item types (Z.rem seed (Z.of_nat (length types)))
  | None => None
  end.

(** function getStreetName(seed) *)
Definition getStreetName (seed : Z) : string :=
  let streetNames :=
    ["Main"; "Park"; "Oak"; "Pine"; "Maple"; "Cedar"; "Elm"; "Market";
     "Broadway"; "Hill"; "Lake"; "River"; "Church"; "High"; "Center"]%string in
  pick streetNames (Z.rem seed (Z.of_nat (length streetNames))).

(** function getCancellationPolicy(seed) *)
Definition getCancellationPolicy (seed : Z) : string :=
  let policies :=
    ["Free cancellation up to 24 hours before check-in";
     "Free cancellation up to 48 hours before check-in";
     "Free cancellation up to 7 days before check-in";
     "Non-refundable";
     "Partially refundable (70% refund up to 48 hours before check-in)"]%string in
  pick policies (Z.rem seed (Z.of_nat (length policies))).

(** function generateDescription(hotelName, city, rating, type), with the
    rating in tenths. *)
Definition generateDescription (hotelName city : string) (ratingTenths : Z) (type : string)
  : string :=
  let qualityAdjectives :=
    ["excellent"; "fantastic"; "wonderful"; "great"; "superb"; "exceptional"]%string in
  let locationAdjectives :=
    ["centrally located"; "conveniently situated"; "ideally located";
     "perfectly positioned"]%string in
  let cityDescriptions :=
    ["vibrant"; "historic"; "beautiful"; "charming"; "exciting"; "picturesque"]%string in
  let seedForThis := Generators.hashString (cat [hotelName; "-"; city]%string) in
  let qualityAdj := pick qualityAdjectives (Z.rem seedForThis 6) in
  let locationAdj := pick locationAdjectives (Z.rem (seedForThis + 1) 4) in
  let cityDesc := pick cityDescriptions (Z.rem (seedForThis + 2) 6) in
  let description :=
    cat [hotelName; " offers "; qualityAdj; " accommodations in "; city; ". This ";
         toFixed1 ratingTenths; "-star "; type; " is "; locationAdj; " in the "; cityDesc;
         " city center."]%string in
  if (ratingTenths >=? 45)%Z then
    cat [description;
         " Guests consistently rate the property highly for its exceptional service and amenities."
        ]%string
  else if (ratingTenths >=? 40)%Z then
    cat [description;
         " The property is well-regarded for its comfort and convenient location."]%string
  else
    cat [description;
         " The property offers good value for money in a convenient setting."]%string.

Definition commonAmenities : list string :=
  ["Free WiFi"; "Air conditioning"; "TV"; "Private bathroom"; "Breakfast included"]%string.

Definition luxuryAmenities : list string :=
  ["Swimming pool"; "Spa"; "Fitness center"; "Room service"; "Restaurant"; "Bar";
   "Concierge service"; "Airport shuttle"; "Business center"; "Parking"]%string.

Section Pow.

(** [Math.pow]; the generator calls it on 1.3 and the rating minus 3. *)
Variable Math_pow : Q -> Q -> Q.

(** function getBasePrice(accommodationType, rating) *)
Definition getBasePrice (accommodationType : string) (rating : Q) : option Z :=
  match typeMultiplier accommodationType with
  | Some typeMultiplier =>
      let ratingMultiplier := Math_pow (13 # 10) (rating - 3) in
      Some (Weather.Math_round (100 * typeMultiplier * ratingMultiplier))
  | None => None
  end.

(** One turn of the loop of generateHotels. *)
Definition hotelAt (city country : string) (nights : option Z) (guests : Q)
    (accommodationType : string) (seed i : Z) : Hotel :=
  let namePrefix := getNamePrefix accommodationType in
  let nameSuffix := getNameSuffix accommodationType in
  let hotelSeed := (seed + i * 100)%Z in
  let nameIndex := Z.rem hotelSeed (Z.of_nat (length namePrefix)) in
  let suffixIndex := Z.rem (hotelSeed + 7) (Z.of_nat (length nameSuffix)) in
  let hotelName := cat [pick namePrefix nameIndex; " "; city; " "; pick nameSuffix suffixIndex]%string in
  let ratingTenths := (30 + Z.rem hotelSeed 20)%Z in
  let rating := 3 + inject_Z (Z.rem hotelSeed 20) / 10 in
  let reviewCount := (50 + Z.rem hotelSeed 1000)%Z in
  let basePrice := getBasePrice accommodationType rating in
  let priceVariability := (85 # 100) + inject_Z (Z.rem hotelSeed 30) / 100 in
  let pricePerNight :=
    option_map (fun basePrice => Weather.Math_round (inject_Z basePrice * priceVariability))
      basePrice in
  let rooms := Qceiling (guests / 2) in
  let totalPrice :=
    match pricePerNight, nights with
    | Some perNight, Some nights => Some (perNight * nights * rooms)%Z
    | _, _ => None
    end in
  let numLuxuryAmenities :=
    Z.min (Weather.Math_floor (rating - 2)) (Z.of_nat (length luxuryAmenities)) in
  let amenities :=
    commonAmenities
    ++ map (fun j => pick luxuryAmenities
                       (Z.rem (hotelSeed + j * 11) (Z.of_nat (length luxuryAmenities))))
         (upto numLuxuryAmenities) in
  let roomType := getRoomType accommodationType hotelSeed in
  let description := generateDescription hotelName city ratingTenths accommodationType in
  let address :=
    cat [showZ (100 + Z.rem hotelSeed 900); " "; getStreetName hotelSeed; " St, "; city]%string in
  let distance := toFixed1 (1 + Z.rem hotelSeed 49) in
  let checkInHour := (14 + Z.rem hotelSeed 4)%Z in
  let checkOutHour := (10 + Z.rem hotelSeed 3)%Z in
  let imageUrl :=
    cat ["https://source.unsplash.com/600x400/?"; accommodationType; ",";
         encodeURIComponent city]%string in
  mkHotel (cat ["hotel-"; showZ hotelSeed]%string) hotelName description address city country
    totalPrice "USD" pricePerNight rating reviewCount amenities roomType imageUrl
    (cat [distance; " km"]%string) (getCancellationPolicy hotelSeed)
    (cat [showZ checkInHour; ":00"]%string) (cat [showZ checkOutHour; ":00"]%string)
    guests rooms.

(** [(a, b) => a.price - b.price]: a NaN difference counts as 0. *)
Definition dearer (a b : Hotel) : bool :=
  match price a, price b with
  | Some x, Some y => (x - y >? 0)%Z
  | _, _ => false
  end.

(** function generateHotels(city, country, nights, guests, accommodationType, seed) *)
Definition generateHotels (city country : string) (nights : option Z) (guests : Q)
    (accommodationType : string) (seed : Z) : result (list Hotel) :=
  let numHotels := (8 + Z.rem seed 8)%Z in
  Ok (sort dearer
        (map (hotelAt city country nights guests accommodationType seed) (upto numHotels))).

(** export async function searchHotels(destination, checkInDate,
    checkOutDate, guests, accommodationType), with [new Date(text)] as
    [newDate]. *)
Definition searchHotels (newDate : string -> option Z) :=
  Generators.searchHotels Hotel newDate generateHotels.

End Pow.

End Hotels.

(* ------------------------------------------------------------------ *)
(** ** Matching the names of an itinerary with the generated data *)

Module Matching.
Import JSString.

Section Items.

(** The hotels or the activities, with their [name]. *)
Variable Item : Type.
Variable name : Item -> string.

(** [item.name.toLowerCase().includes(query.toLowerCase())
     || query.toLowerCase().includes(item.name.toLowerCase())] *)
Definition similar (query : string) (item : Item) : bool :=
  includes (Generators.toLowerCase (name item)) (Generators.toLowerCase query)
  || includes (Generators.toLowerCase query) (Generators.toLowerCase (name item)).

(** The body shared by findMatchingHotel and findMatchingActivity;
    [None] is [undefined], for the name, the array and the result. *)
Definition findMatching (query : option string) (items : option (list Item)) : option Item :=
  match query, items with
  | Some query, Some items =>
      if String.eqb query "" || (length items =? 0)%nat then None
      else List.find (similar query) items
  | _, _ => None
  end.

End Items.

(** function findMatchingHotel(hotelName, hotels) *)
Definition findMatchingHotel : option string -> option (list Hotels.Hotel) -> option Hotels.Hotel :=
  findMatching Hotels.Hotel Hotels.name.

(** function findMatchingActivity(activityName, activities) *)
Definition findMatchingActivity
  : option string -> option (list Activities.Activity) -> option Activities.Activity :=
  findMatching Activities.Activity Activities.name.

End Matching.

(* ------------------------------------------------------------------ *)
(** ** Sample inputs *)

Module Examples.
Import Weather.

Definition activity (name cost : string) : Activity.t :=
  Activity.mk name "A guided visit" cost "Sightseeing" "Old town" "2 hours" None.

Definition day (date accommodationCost transportationCost : string)
    (acts : list Activity.t) : Day :=
  mkDay date acts
    (Accommodation.mk "Hotel Central" "City centre" accommodationCost None)
    (Some (Transportation.mk "Metro" "Day pass" transportationCost))
    None.

(** Two days of $120 + $10 + $25 + $15: $340 in all, accommodation the
    largest category. *)
Definition scenario : Itinerary :=
  mkItinerary "Lisbon, Portugal" "$340.00" "2 days"
    [day "2024-06-01" "$120.00" "$10.00" [activity "Tram tour" "$25.00"; activity "Fado night" "$15.00"];
     day "2024-06-02" "$120.00" "$10.00" [activity "Tram tour" "$25.00"; activity "Fado night" "$15.00"]]
    ["Carry cash for small shops."%string].

(** A stated total of $100 over costs that add up to $50. *)
Definition mislabelled : Itinerary :=
  mkItinerary "Porto, Portugal" "$100.00" "1 days"
    [day "2024-06-01" "$50.00" "$0.00" []] [].

(** One activity of $100 and nothing else. *)
Definition oneActivity : Itinerary :=
  mkItinerary "Porto, Portugal" "$100.00" "1 days"
    [day "2024-06-01" "$0.00" "$0.00" [activity "Wine cellar tour" "$100.00"]] [].


(** A day that came without its transportation object. *)
Definition noTransport : Itinerary :=
  mkItinerary "Porto, Portugal" "$500.00" "1 days"
    [mkDay "2024-06-01" [activity "Wine cellar tour" "$100.00"]
       (Accommodation.mk "Hotel Central" "City centre" "$400.00" None) None None] [].

(** Two activities of one name. *)
Definition twins : list Activity.t :=
  [activity "City tour" "$25.00"; activity "City tour" "$150.00"].

(** Two more, the dearer one first, and a day of them. *)
Definition tours : list Activity.t :=
  [activity "Tour" "$100.00"; activity "Tour" "$50.00"].

Definition toursDay : Day := day "2024-06-01" "$0.00" "$0.00" tours.

(** 15 June, and [Math.sin] at the one argument the weather generator
    evaluates it at for Rome on that day (sin 6525, to four decimals). *)
Definition june15 : JsDate := mkDate 5 15 "2024-06-15".

Definition sine (z : Z) : Q := if (z =? 6525)%Z then 878 # 10000 else 0.

(** Draws of [Math.random]: always 0.4, always 0.9, and 0.4 six times
    then 0. *)
Definition draws04 : Draws := fun _ => 4 # 10.
Definition draws09 : Draws := fun _ => 9 # 10.
Definition draws04_then_0 : Draws := fun n => if Nat.ltb n 6 then 4 # 10 else 0.

End Examples.

(* ------------------------------------------------------------------ *)
(** ** Notions used to state and prove the facts below *)

Module CurrencyShapes.
Import Chars.

Definition head_not_digit (s : chars) : Prop :=
  match s with
  | [] => True
  | c :: _ => digit_of_char c = None
  end.

(** Digits and separators: what the integer part of a formatted amount
    is made of. *)
Definition digit_or_comma (c : ascii) : bool :=
  is_digit c || (code c =? 44)%N.

Definition not_comma (c : ascii) : bool := negb (code c =? 44)%N.

Definition head_not_space (s : chars) : Prop :=
  match s with
  | [] => True
  | c :: _ => is_space c = false
  end.

(** Everything the round trip needs of the two fraction digits of
    [f] cents, checked for each [f] below 100. *)
Definition fraction_ok (f : Z) : bool :=
  let d1 := digit_char (f / 10) in
  let d2 := digit_char (f mod 10) in
  match read_digits [d1; d2] with
  | (fp, []) =>
      (Z.of_N (N.of_uint fp) =? f)%Z && Nat.eqb (uint_length fp) 2
      && negb (no_digits fp)
      && is_digit d1 && is_digit d2 && negb (is_space d1) && negb (is_space d2)
  | _ => false
  end.

(** The characters of a formatted amount once the dollar sign and the
    separators are gone: digits, a point and two digits. *)
Definition plain_chars (ip : uint) (f : Z) : chars :=
  chars_of_uint ip ++ "."%char :: [digit_char (f / 10); digit_char (f mod 10)].

Definition signum (sign : chars) : Q :=
  match sign with [] => 1 | _ => - (1) end.

(** The value of a decimal digit. *)
Definition digit_value (c : ascii) : Z := (Z.of_N (code c) - 48)%Z.

(** Thousands separators: counted from the right, every fourth character
    is a comma and the others are digits, and the first character is a
    digit. *)
Definition grouped (g : chars) : Prop :=
  (forall i c, rev g !! i = Some c ->
     if Nat.eqb (Nat.modulo i 4) 3 then c = ","%char else is_digit c = true)
  /\ exists d rest, g = d :: rest /\ is_digit d = true.

(** The two fraction digits of [f] cents have the value [f]. *)
Definition digits_ok (f : Z) : bool :=
  (10 * digit_value (digit_char (f / 10)) + digit_value (digit_char (f mod 10)) =? f)%Z.

(** Written from the specification's words, [round(x, 2)]: the amount
    rounded to two decimal places, a half going away from zero. *)
Definition round2 (x : Q) : Q :=
  if Qlt_le_dec x 0
  then - (inject_Z (Qfloor (- x * 100 + (1 # 2))) / 100)
  else inject_Z (Qfloor (x * 100 + (1 # 2))) / 100.

End CurrencyShapes.

Module OptimizerNotions.


(** Every day has its transportation object. *)
Definition complete (ds : list Day) : Prop :=
  Forall (fun day => is_Some (transportation day)) ds.

Ltac unfold_bind := unfold mbind, mret, result_bind, result_ret, JS.bind in *.

(** The rate applied to an activity: the day's first in the sorted order
    gets a fifth more. *)
Definition adjusted (reductionPercentage : Q) (first : bool) : Q :=
  reductionPercentage * (1 + (if first then 2 # 10 else 0)).

(** The activity [a] with its cost reduced at that rate. *)
Definition reduced (reductionPercentage : Q) (first : bool) (a : Activity.t) : Activity.t :=
  Activity.set_cost
    (formatCurrency
       (parseCurrency (Activity.cost a) * (1 - adjusted reductionPercentage first))) a.

(** The position of [i] in the sorted order. *)
Fixpoint rankOf (i : nat) (sorted : list nat) : option nat :=
  match sorted with
  | [] => None
  | j :: rest => if Nat.eqb j i then Some O else option_map S (rankOf i rest)
  end.

(** [top] is the first position of the largest cost. *)
Definition dearest (acts : list Activity.t) (top : nat) : Prop :=
  (top < length acts)%nat
  /\ (forall j, (j < length acts)%nat -> costAt acts j <= costAt acts top)
  /\ (forall j, (j < top)%nat -> costAt acts j < costAt acts top).

(** An amount that is a whole number of cents. *)
Definition wholeCents (q : Q) : Prop := exists k : Z, q == inject_Z k / 100.

Definition centsActivities (acts : list Activity.t) : Prop :=
  Forall (fun a => wholeCents (parseCurrency (Activity.cost a))) acts.

(** Every cost of the day is a whole number of cents. *)
Definition centsDay (day : Day) : Prop :=
  wholeCents (parseCurrency (Accommodation.cost (accommodation day)))
  /\ (forall tr, transportation day = Some tr ->
        wholeCents (parseCurrency (Transportation.cost tr)))
  /\ centsActivities (activities day).

End OptimizerNotions.

Module BudgetNotions.

Definition Qsum (l : list Q) : Q := foldr Qplus 0 l.

(** The parsed costs of the days, category by category, in the order the
    loops of analyzeBudgetAllocation and calculateTotalCost read them. *)
Definition accommodationCosts (ds : list Day) : list Q :=
  map (fun day => parseCurrency (Accommodation.cost (accommodation day))) ds.

Definition transportationCost (day : Day) : Q :=
  match transportation day with
  | Some tr => parseCurrency (Transportation.cost tr)
  | None => 0
  end.

Definition transportationCosts (ds : list Day) : list Q := map transportationCost ds.

Definition activityCosts (acts : list Activity.t) : list Q :=
  map (fun a => parseCurrency (Activity.cost a)) acts.

Definition activitiesCosts (ds : list Day) : list Q :=
  concat (map (fun day => activityCosts (activities day)) ds).

(** No cost of the day is negative. *)
Definition nonnegDay (day : Day) : Prop :=
  0 <= parseCurrency (Accommodation.cost (accommodation day))
  /\ 0 <= transportationCost day
  /\ Forall (fun c => 0 <= c) (activityCosts (activities day)).

(** The activities of the day have pairwise distinct names. *)
Definition distinctNames (day : Day) : Prop :=
  NoDup (map Activity.name (activities day)).

(** The category the if-chain of optimizeBudget reduces, its total and its
    cap. *)
Inductive Category : Type := Lodging | Outings | Transport.



Definition cap (c : Category) : Q :=
  match c with
  | Lodging => 5 # 10
  | Outings => 4 # 10
  | Transport => 45 # 100
  end.





(** The sum of all the costs of the days. *)
Definition sumOfCosts (ds : list Day) : Q :=
  Qsum (accommodationCosts ds) + Qsum (activitiesCosts ds) + Qsum (transportationCosts ds).


End BudgetNotions.

Module ParsingNotions.
Import Chars.

(** A letter of the Latin alphabet. *)
Definition is_letter (c : ascii) : bool :=
  let n := code c in
  (((65 <=? n) && (n <=? 90)) || ((97 <=? n) && (n <=? 122)))%N.

(** Neither a decimal digit nor the capital I (of the literal
    Infinity, which parseFloat reads as a number). *)
Definition no_digit_no_I (c : ascii) : bool :=
  negb (is_digit c) && negb (code c =? 73)%N.

End ParsingNotions.

Module FlightNotions.
Import Flights.

(** The day of the departure is one the host's calendar can set a time of
    day in, with room for the longest flight (under 17 hours) before the
    largest time value. *)
Definition validDay (setHours : Z -> Z -> Z -> Z -> option Z) (t : Z) : Prop :=
  forall h m, (6 <= h <= 21)%Z -> (0 <= m <= 55)%Z ->
    exists t', setHours t h m 0%Z = Some t'
               /\ (Z.abs t' <= maxTime - 17 * 3600000)%Z.

(** The cabin class of the flight generated at index [i]. *)
Definition cabinAt (i : Z) : string :=
  if (i =? 0)%Z then "Business" else if (i =? 1)%Z then "Premium Economy" else "Economy".

(** What every generated flight satisfies. *)
Definition wellFormed (f : Flight) : Prop :=
  (0 <= stops f <= 2)%Z
  /\ (stops f = 0%Z <-> layovers f = None)
  /\ (forall ls, layovers f = Some ls ->
        Z.of_nat (length ls) = stops f
        /\ Forall (fun l => exists hub, airport l = Some hub /\ hub ∈ hubs) ls)
  /\ (cabinClass f = "Business"%string -> stops f = 0%Z)
  /\ airline f ∈ airlines
  /\ currency f = "USD"%string.

(** A string written in ASCII. *)
Definition ascii_only (s : string) : Prop :=
  Forall (fun c => (Chars.code c < 128)%N) (Chars.of_string s).

(** Midnight UTC of 1 June 2024, a calendar that sets the time of day in
    UTC, and a stand-in for toISOString that is right at that instant. *)
Definition june1 : Z := 1717200000000.

Definition utcSetHours (t h m s : Z) : option Z :=
  timeClip (t - t mod 86400000 + h * 3600000 + m * 60000 + s * 1000 + t mod 1000).

Definition sampleIso (t : Z) : string :=
  if (t =? june1)%Z then "2024-06-01T00:00:00.000Z" else JSArray.showZ t.

End FlightNotions.

Module ActivityNotions.
Import JSArray.
Import Activities.

(** The duration that generateActivity writes for a seed. *)
Definition durationFor (seed : Z) : string :=
  let durationHours := Z.max 1 (Z.rem (Z.rem seed 10) 6) in
  let durationMinutes := (Z.rem (seed + 3) 2 * 30)%Z in
  if (durationMinutes >? 0)%Z
  then cat [showZ durationHours; " hours "; showZ durationMinutes; " minutes"]%string
  else cat [showZ durationHours; " hours"]%string.

(** What holds of the activity generated for a city, a category of the
    table and a seed. *)
Definition madeFrom (city : string) (kind : Kind) (seed : Z) (a : Activity) : Prop :=
  Activities.city a = city
  /\ category a = kindName kind
  /\ id a = cat ["activity-"; showZ seed]%string
  /\ duration a = durationFor seed
  /\ currency a = "USD"%string
  /\ (35 # 10 <= rating a /\ rating a <= 495 # 100)
  /\ (8 <= price a <= 214)%Z
  /\ (50 <= reviewCount a <= 497)%Z
  /\ (5 <= length (tags a) <= 6)%nat
  /\ (2 <= length (suitableFor a) <= 4)%nat
  /\ (3 <= length (highlights a) <= 4)%nat
  /\ NoDup (highlights a)
  /\ exists subcategory,
       subcategory ∈ kindSubcategories kind
       /\ subcategories a = [subcategory]
       /\ Forall (fun h => h ∈ highlightOptions city subcategory) (highlights a).

(** An activity of the search for a city with a seed: generated for a
    category of the table, with the seed plus a multiple of 100. *)
Definition generated (city : string) (seed : Z) (a : Activity) : Prop :=
  exists k kind, (0 <= k)%Z /\ kind ∈ categories /\ madeFrom city kind (seed + k * 100) a.

(** The order of the result: a higher rating first, and for equal ratings
    a lower price first. *)
Definition inOrder (a b : Activity) : Prop :=
  rating b < rating a \/ (rating a == rating b /\ (price a <= price b)%Z).

(** The categories at the even and at the odd positions of the table. *)
Definition kindsOfParity (p : Z) : list string :=
  if (p =? 0)%Z then ["Sightseeing"; "Food & Drink"; "Adventure"; "Shopping"]%string
  else ["Cultural"; "Nature & Outdoors"; "Entertainment"; "Relaxation"]%string.

(** The first three characters of a string, as a number. *)
Definition key3 (s : string) : N :=
  match s with
  | String a (String b (String c _)) =>
      (N_of_ascii a * 65536 + N_of_ascii b * 256 + N_of_ascii c)%N
  | _ => 0%N
  end.

End ActivityNotions.

Module HotelNotions.
Import Hotels.

(** The comparator of the sort by price on hotels that all have a price:
    a missing price counts as 0. *)
Definition priceOr0 (h : Hotel) : Z :=
  match price h with Some x => x | None => 0%Z end.

Definition dearer0 (a b : Hotel) : bool := (priceOr0 a - priceOr0 b >? 0)%Z.

(** The character codes of a string, to tell amenities apart. *)
Definition codes (s : string) : list N := map N_of_ascii (list_ascii_of_string s).

(** A stand-in for [Math.pow] and one for [new Date], to run a search. *)
Definition linearPow (x y : Q) : Q := 1 + (x - 1) * y.

Definition sampleDate (text : string) : option Z :=
  if String.eqb text "2024-06-01" then Some 1717200000000%Z
  else if String.eqb text "2024-06-04" then Some 1717459200000%Z
  else None.

(** What holds of every hotel generated for a number of guests. *)
Definition wellFormedHotel (guests : Q) (h : Hotel) : Prop :=
  (3 <= rating h /\ rating h <= 49 # 10)
  /\ (50 <= reviewCount h <= 1049)%Z
  /\ (6 <= length (amenities h) <= 7)%nat
  /\ NoDup (amenities h)
  /\ Forall (fun a => a ∈ commonAmenities ++ luxuryAmenities) (amenities h)
  /\ currency h = "USD"%string
  /\ numberOfGuests h = guests
  /\ numberOfRooms h = Qceiling (guests / 2).

End HotelNotions.

Module MatchingNotions.

(** [b] occurs in [a]. *)
Definition contains (a b : string) : Prop :=
  exists pre post, a = String.append pre (String.append b post).

(** One name occurs in the other, letter case apart. *)
Definition related {Item : Type} (name : Item -> string) (query : string) (item : Item)
  : Prop :=
  contains (Generators.toLowerCase (name item)) (Generators.toLowerCase query)
  \/ contains (Generators.toLowerCase query) (Generators.toLowerCase (name item)).

End MatchingNotions.

(* ------------------------------------------------------------------ *)
(** ** Facts about the currency utility *)

Module CurrencyFacts.
Import Chars.
Import CurrencyShapes.

Lemma read_digits_chars_of_uint (d : uint) (rest : chars) :
  head_not_digit rest ->
  read_digits (chars_of_uint d ++ rest) = (d, rest).
Proof.
  intros Hrest.
  induction d as [| d IH | d IH | d IH | d IH | d IH | d IH | d IH | d IH | d IH | d IH];
    cbn [chars_of_uint app read_digits];
    try (change (digit_of_char _) with (Some D0) || change (digit_of_char _) with (Some D1)
         || change (digit_of_char _) with (Some D2) || change (digit_of_char _) with (Some D3)
         || change (digit_of_char _) with (Some D4) || change (digit_of_char _) with (Some D5)
         || change (digit_of_char _) with (Some D6) || change (digit_of_char _) with (Some D7)
         || change (digit_of_char _) with (Some D8) || change (digit_of_char _) with (Some D9));
    try (cbv beta iota; rewrite IH; reflexivity).
  destruct rest as [| c rest]; [reflexivity |].
  cbn [read_digits]. cbn in Hrest. rewrite Hrest. reflexivity.
Qed.

Lemma chars_of_uint_digits (d : uint) : forallb is_digit (chars_of_uint d) = true.
Proof. induction d; cbn [chars_of_uint forallb]; try rewrite IHd; reflexivity. Qed.

Lemma strip_symbols_digit_or_comma (c : ascii) (rest : chars) :
  digit_or_comma c = true ->
  strip_symbols (c :: rest) =
    (if not_comma c then c :: strip_symbols rest else strip_symbols rest).
Proof.
  destruct c as [[] [] [] [] [] [] [] []]; intros H; try discriminate H; reflexivity.
Qed.

Lemma strip_symbols_group_app (g rest : chars) :
  forallb digit_or_comma g = true ->
  strip_symbols (g ++ rest) = List.filter not_comma g ++ strip_symbols rest.
Proof.
  induction g as [| c g IH]; intros H; [reflexivity |].
  cbn [forallb] in H. apply andb_prop in H as [Hc Hg].
  cbn [app List.filter]. rewrite strip_symbols_digit_or_comma by exact Hc.
  destruct (not_comma c); cbn [app]; rewrite IH by exact Hg; reflexivity.
Qed.

Lemma group_rev_spec (k : nat) (ds : chars) :
  forallb is_digit ds = true ->
  forallb digit_or_comma (group_rev k ds) = true
  /\ List.filter not_comma (group_rev k ds) = ds.
Proof.
  revert k. induction ds as [| d ds IH]; intros k H; [split; reflexivity |].
  cbn [forallb] in H. apply andb_prop in H as [Hd Hds].
  assert (Hdc : digit_or_comma d = true) by (unfold digit_or_comma; rewrite Hd; reflexivity).
  assert (Hnc : not_comma d = true)
    by (clear -Hd; destruct d as [[] [] [] [] [] [] [] []]; try discriminate Hd; reflexivity).
  cbn [group_rev]. destruct (Nat.eqb k 3).
  - destruct (IH 1%nat Hds) as [IH1 IH2]. split.
    + cbn [forallb]. rewrite Hdc, IH1. reflexivity.
    + cbn [List.filter]. change (not_comma ","%char) with false. cbv iota.
      rewrite Hnc, IH2. reflexivity.
  - destruct (IH (S k) Hds) as [IH1 IH2]. split.
    + cbn [forallb]. rewrite Hdc, IH1. reflexivity.
    + cbn [List.filter]. rewrite Hnc, IH2. reflexivity.
Qed.

Lemma forallb_rev {A} (p : A -> bool) (l : list A) :
  forallb p (rev l) = forallb p l.
Proof.
  induction l as [| x l IH]; [reflexivity |].
  cbn [rev forallb]. rewrite forallb_app, IH. cbn [forallb].
  rewrite andb_true_r. apply andb_comm.
Qed.

Lemma group_spec (ds : chars) :
  forallb is_digit ds = true ->
  forallb digit_or_comma (group ds) = true
  /\ List.filter not_comma (group ds) = ds.
Proof.
  intros H. unfold group.
  destruct (group_rev_spec 0 (rev ds)) as [H1 H2].
  { rewrite forallb_rev. exact H. }
  split.
  - rewrite forallb_rev. exact H1.
  - rewrite List.filter_rev, H2. apply rev_involutive.
Qed.

Lemma skip_spaces_id (s : chars) : head_not_space s -> skip_spaces s = s.
Proof. destruct s as [| c s]; [reflexivity |]. cbn. intros ->. reflexivity. Qed.

Lemma trim_id (body : chars) (last : ascii) :
  head_not_space (body ++ [last]) -> is_space last = false ->
  trim (body ++ [last]) = body ++ [last].
Proof.
  intros Hhead Hlast. unfold trim.
  rewrite (skip_spaces_id (body ++ [last])) by exact Hhead.
  rewrite rev_unit. rewrite skip_spaces_id by exact Hlast.
  change (last :: rev body) with ([last] ++ rev body).
  rewrite rev_app_distr, rev_involutive. reflexivity.
Qed.

Lemma fraction_ok_all (f : Z) : (0 <= f < 100)%Z -> fraction_ok f = true.
Proof.
  intros Hf.
  assert (Hall : forallb fraction_ok (map Z.of_nat (seq 0 100)) = true)
    by (vm_compute; reflexivity).
  rewrite forallb_forall in Hall. apply Hall.
  apply in_map_iff. exists (Z.to_nat f). split; [lia |].
  apply in_seq. lia.
Qed.

Lemma fraction_digits (f : Z) :
  (0 <= f < 100)%Z ->
  let d1 := digit_char (f / 10) in
  let d2 := digit_char (f mod 10) in
  exists fp,
    read_digits [d1; d2] = (fp, [])
    /\ Z.of_N (N.of_uint fp) = f /\ uint_length fp = 2%nat /\ no_digits fp = false
    /\ is_digit d1 = true /\ is_digit d2 = true
    /\ is_space d1 = false /\ is_space d2 = false.
Proof.
  intros Hf d1 d2. pose proof (fraction_ok_all f Hf) as Hok.
  unfold fraction_ok in Hok. fold d1 d2 in Hok. cbv zeta in Hok.
  destruct (read_digits [d1; d2]) as [fp [| ? ?]]; [| discriminate Hok].
  apply andb_prop in Hok as [Hok H7]. apply andb_prop in Hok as [Hok H6].
  apply andb_prop in Hok as [Hok H5]. apply andb_prop in Hok as [Hok H4].
  apply andb_prop in Hok as [Hok H3]. apply andb_prop in Hok as [H1 H2].
  exists fp. repeat split; try assumption.
  - apply Z.eqb_eq, H1.
  - apply Nat.eqb_eq, H2.
  - destruct (no_digits fp); [discriminate H3 | reflexivity].
  - destruct (is_space d1); [discriminate H6 | reflexivity].
  - destruct (is_space d2); [discriminate H7 | reflexivity].
Qed.

Lemma is_digit_plain (c : ascii) :
  is_digit c = true -> digit_or_comma c = true /\ not_comma c = true.
Proof.
  intros Hc. split.
  - unfold digit_or_comma. rewrite Hc. reflexivity.
  - destruct c as [[] [] [] [] [] [] [] []]; try discriminate Hc; reflexivity.
Qed.

Lemma strip_symbols_body (ip : uint) (f : Z) :
  (0 <= f < 100)%Z ->
  strip_symbols
    ("$"%char :: group (chars_of_uint ip)
       ++ "."%char :: [digit_char (f / 10); digit_char (f mod 10)])
  = plain_chars ip f.
Proof.
  intros Hf.
  destruct (fraction_digits f Hf) as (fp & _ & _ & _ & _ & Hd1 & Hd2 & _ & _).
  destruct (group_spec (chars_of_uint ip) (chars_of_uint_digits ip)) as [Hg1 Hg2].
  change (strip_symbols ("$"%char :: ?l)) with (strip_symbols l).
  rewrite strip_symbols_group_app by exact Hg1. rewrite Hg2.
  unfold plain_chars. f_equal.
  change (strip_symbols ("."%char :: ?l)) with ("."%char :: strip_symbols l). f_equal.
  rewrite strip_symbols_digit_or_comma by (apply is_digit_plain; assumption).
  destruct (is_digit_plain _ Hd1) as [_ ->].
  rewrite strip_symbols_digit_or_comma by (apply is_digit_plain; assumption).
  destruct (is_digit_plain _ Hd2) as [_ ->].
  reflexivity.
Qed.

Lemma plain_chars_head (ip : uint) (f : Z) (sign : chars) :
  sign = [] \/ sign = ["-"%char] ->
  head_not_space (sign ++ plain_chars ip f).
Proof.
  intros [-> | ->]; [| reflexivity].
  unfold plain_chars. destruct ip; reflexivity.
Qed.

Lemma trim_plain_chars (ip : uint) (f : Z) (sign : chars) :
  (0 <= f < 100)%Z -> sign = [] \/ sign = ["-"%char] ->
  trim (sign ++ plain_chars ip f) = sign ++ plain_chars ip f.
Proof.
  intros Hf Hs.
  destruct (fraction_digits f Hf) as (fp & _ & _ & _ & _ & _ & _ & _ & Hsp).
  pose proof (plain_chars_head ip f sign Hs) as Hhead.
  unfold plain_chars in *.
  replace (sign ++ chars_of_uint ip ++ "."%char :: [digit_char (f / 10); digit_char (f mod 10)])
    with ((sign ++ chars_of_uint ip ++ ["."%char; digit_char (f / 10)]) ++ [digit_char (f mod 10)])
    in *
    by (rewrite <- !app_assoc; reflexivity).
  apply trim_id; assumption.
Qed.

Lemma parseFloat_plain_chars (ip : uint) (f : Z) (sign : chars) :
  (0 <= f < 100)%Z -> sign = [] \/ sign = ["-"%char] ->
  exists v,
    parseFloat (sign ++ plain_chars ip f) = Some v
    /\ v == signum sign * (inject_Z (Z.of_N (N.of_uint ip)) + inject_Z f / 100).
Proof.
  intros Hf Hs.
  destruct (fraction_digits f Hf) as (fp & Hfp & Hval & Hlen & Hnd & _).
  unfold parseFloat.
  rewrite skip_spaces_id by (apply plain_chars_head; exact Hs).
  assert (Hsplit : read_sign (sign ++ plain_chars ip f)
                   = (match sign with [] => false | _ => true end, plain_chars ip f)).
  { destruct Hs as [-> | ->]; [| reflexivity].
    unfold plain_chars. destruct ip; reflexivity. }
  rewrite Hsplit. unfold plain_chars at 1.
  rewrite read_digits_chars_of_uint by reflexivity.
  change (code "."%char =? 46)%N with true. cbv iota.
  rewrite Hfp, Hnd, andb_false_r, Hlen, Hval.
  eexists. split; [reflexivity |].
  change (read_exponent []) with 0%Z.
  change (inject_Z (10 ^ Z.of_nat 2)) with 100.
  change ((10 # 1) ^ 0) with 1.
  destruct Hs as [-> | ->]; cbn [signum]; ring.
Qed.

Lemma cents_nonneg (x : Q) : (0 <= cents x)%Z.
Proof.
  unfold cents. change 0%Z with (Qfloor 0). apply Qfloor_resp_le.
  pose proof (Qabs_nonneg x). lra.
Qed.

Lemma parseCurrency_to_string (l : chars) :
  l <> [] ->
  parseCurrency (to_string l)
  = match parseFloat (trim (strip_symbols l)) with Some v => v | None => 0 end.
Proof.
  intros Hl. unfold parseCurrency.
  replace (of_string (to_string l)) with l
    by (symmetry; apply list_ascii_of_string_of_list_ascii).
  destruct l as [| c l]; [contradiction | reflexivity].
Qed.

Lemma inject_Z_cents (c : Z) :
  inject_Z (c / 100) + inject_Z (c mod 100) / 100 == inject_Z c / 100.
Proof.
  rewrite (Z.div_mod c 100) at 3 by discriminate.
  rewrite inject_Z_plus, inject_Z_mult. change (inject_Z 100) with 100. field.
Qed.

Lemma round2_cents_form (x : Q) :
  round2 x == signum (if Qlt_le_dec x 0 then ["-"%char] else []) * (inject_Z (cents x) / 100).
Proof.
  unfold round2, cents. destruct (Qlt_le_dec x 0) as [Hneg | Hpos]; cbn [signum].
  - rewrite (Qfloor_comp (Qabs x * 100 + (1 # 2)) (- x * 100 + (1 # 2)))
      by (rewrite Qabs_neg by lra; reflexivity).
    ring.
  - rewrite (Qfloor_comp (Qabs x * 100 + (1 # 2)) (x * 100 + (1 # 2)))
      by (rewrite Qabs_pos by lra; reflexivity).
    ring.
Qed.

(** Parsing a formatted amount gives the amount rounded to cents. *)
Lemma parseCurrency_formatCurrency (x : Q) :
  parseCurrency (formatCurrency x) == round2 x.
Proof.
  rewrite round2_cents_form. unfold formatCurrency, format_chars. cbv zeta.
  pose proof (cents_nonneg x) as Hc. set (c := cents x) in *.
  assert (Hf : (0 <= c mod 100 < 100)%Z) by (apply Z.mod_pos_bound; lia).
  replace (c mod 10)%Z with ((c mod 100) mod 10)%Z
    by (apply Z.mod_mod_divide; exists 10%Z; reflexivity).
  set (ip := N.to_uint (Z.to_N (c / 100))).
  set (sign := if Qlt_le_dec x 0 then ["-"%char] else []).
  assert (Hs : sign = [] \/ sign = ["-"%char])
    by (unfold sign; destruct (Qlt_le_dec x 0); auto).
  rewrite parseCurrency_to_string by (destruct Hs as [-> | ->]; discriminate).
  assert (Hstrip :
    strip_symbols
      (sign ++ "$"%char :: group (chars_of_uint ip)
         ++ "."%char :: [digit_char (c mod 100 / 10); digit_char ((c mod 100) mod 10)])
    = sign ++ plain_chars ip (c mod 100)).
  { destruct Hs as [-> | ->]; cbn [app].
    - apply strip_symbols_body, Hf.
    - change (strip_symbols ("-"%char :: ?l)) with ("-"%char :: strip_symbols l).
      f_equal. apply strip_symbols_body, Hf. }
  rewrite Hstrip, trim_plain_chars by assumption.
  destruct (parseFloat_plain_chars ip (c mod 100) sign Hf Hs) as (v & -> & Hv).
  rewrite Hv. unfold ip. rewrite DecimalN.Unsigned.of_to.
  rewrite Z2N.id by (apply Z.div_pos; lia).
  rewrite inject_Z_cents. reflexivity.
Qed.

(** [round2 x] is a whole number of cents, the one nearest to [x]. *)
Lemma round2_cents (x : Q) : exists k : Z, round2 x == inject_Z k / 100.
Proof.
  unfold round2. destruct (Qlt_le_dec x 0).
  - exists (- Qfloor (- x * 100 + (1 # 2)))%Z. rewrite inject_Z_opp. field.
  - exists (Qfloor (x * 100 + (1 # 2))). reflexivity.
Qed.

Lemma round2_near (x : Q) : Qabs (round2 x - x) <= 1 # 200.
Proof.
  unfold round2. apply Qabs_Qle_condition.
  destruct (Qlt_le_dec x 0) as [Hneg | Hpos].
  - pose proof (Qfloor_le (- x * 100 + (1 # 2))) as Hlo.
    pose proof (Qlt_floor (- x * 100 + (1 # 2))) as Hhi.
    rewrite inject_Z_plus in Hhi. change (inject_Z 1) with 1 in Hhi.
    unfold Qdiv. change (/ 100) with (1 # 100). split; lra.
  - pose proof (Qfloor_le (x * 100 + (1 # 2))) as Hlo.
    pose proof (Qlt_floor (x * 100 + (1 # 2))) as Hhi.
    rewrite inject_Z_plus in Hhi. change (inject_Z 1) with 1 in Hhi.
    unfold Qdiv. change (/ 100) with (1 # 100). split; lra.
Qed.

Lemma Qfloor_plus_half (k : Z) : Qfloor (inject_Z k + (1 # 2)) = k.
Proof.
  apply Z.le_antisymm.
  - apply Z.lt_succ_r. rewrite Zlt_Qlt.
    eapply Qle_lt_trans; [apply Qfloor_le |].
    unfold Z.succ. rewrite inject_Z_plus. change (inject_Z 1) with 1. lra.
  - rewrite <- (Qfloor_Z k) at 1. apply Qfloor_resp_le. lra.
Qed.

(** An amount that is already a whole number of cents is its own
    rounding. *)
Lemma round2_of_cents (k : Z) : round2 (inject_Z k / 100) == inject_Z k / 100.
Proof.
  unfold round2. set (x := inject_Z k / 100).
  destruct (Qlt_le_dec x 0) as [Hneg | Hpos].
  - rewrite (Qfloor_comp (- x * 100 + (1 # 2)) (inject_Z (- k) + (1 # 2)))
      by (unfold x; rewrite inject_Z_opp; field).
    rewrite Qfloor_plus_half. unfold x. rewrite inject_Z_opp. field.
  - rewrite (Qfloor_comp (x * 100 + (1 # 2)) (inject_Z k + (1 # 2)))
      by (unfold x; field).
    rewrite Qfloor_plus_half. reflexivity.
Qed.

(** *** The rendering *)

Lemma group_rev_positions (ds : chars) :
  forallb is_digit ds = true ->
  forall k i c, (k <= 3)%nat -> group_rev k ds !! i = Some c ->
    if Nat.eqb (Nat.modulo (i + k) 4) 3 then c = ","%char else is_digit c = true.
Proof.
  induction ds as [| d ds IH]; intros H k i c Hk Hi; [discriminate Hi |].
  cbn [forallb] in H. apply andb_prop in H as [Hd Hds].
  cbn [group_rev] in Hi. destruct (Nat.eqb_spec k 3) as [-> | Hk3].
  - destruct i as [| [| i]]; cbn in Hi.
    + injection Hi as <-. reflexivity.
    + injection Hi as <-. exact Hd.
    + specialize (IH Hds 1%nat i c ltac:(lia) Hi).
      replace (S (S i) + 3)%nat with (i + 1 + 1 * 4)%nat by lia.
      rewrite Nat.Div0.mod_add. exact IH.
  - destruct i as [| i]; cbn in Hi.
    + injection Hi as <-. cbn [Nat.add]. rewrite Nat.mod_small by lia.
      destruct (Nat.eqb_spec k 3); [lia | exact Hd].
    + specialize (IH Hds (S k) i c ltac:(lia) Hi).
      replace (S i + k)%nat with (i + S k)%nat by lia. exact IH.
Qed.

Lemma group_rev_last (ds : chars) :
  ds <> [] -> forallb is_digit ds = true ->
  forall k, exists body d, group_rev k ds = body ++ [d] /\ is_digit d = true.
Proof.
  induction ds as [| d ds IH]; intros Hne H k; [contradiction |].
  cbn [forallb] in H. apply andb_prop in H as [Hd Hds].
  destruct ds as [| e ds].
  - cbn [group_rev]. destruct (Nat.eqb k 3).
    + exists [","%char], d. split; [reflexivity | exact Hd].
    + exists [], d. split; [reflexivity | exact Hd].
  - cbn [group_rev]. destruct (Nat.eqb k 3).
    + destruct (IH ltac:(discriminate) Hds 1%nat) as (body & l & E & Hl).
      exists (","%char :: d :: body), l. split; [| exact Hl].
      cbn [app]. f_equal. f_equal. exact E.
    + destruct (IH ltac:(discriminate) Hds (S k)) as (body & l & E & Hl).
      exists (d :: body), l. split; [| exact Hl].
      cbn [app]. f_equal. exact E.
Qed.

Lemma group_grouped (ds : chars) :
  ds <> [] -> forallb is_digit ds = true -> grouped (group ds).
Proof.
  intros Hne H. unfold grouped, group. rewrite rev_involutive.
  assert (Hr : forallb is_digit (rev ds) = true)
    by (rewrite forallb_rev; exact H).
  split.
  - intros i c Hi.
    pose proof (group_rev_positions (rev ds) Hr 0%nat i c ltac:(lia) Hi) as P.
    rewrite Nat.add_0_r in P. exact P.
  - destruct (group_rev_last (rev ds)) with (k := 0%nat) as (body & d & E & Hd).
    + intros E. apply Hne. rewrite <- (rev_involutive ds), E. reflexivity.
    + exact Hr.
    + exists d, (rev body). split; [| exact Hd]. rewrite E, rev_unit. reflexivity.
Qed.

Lemma chars_of_uint_nonnil (d : uint) : d <> Nil -> chars_of_uint d <> [].
Proof. destruct d; intros H; [contradiction | discriminate ..]. Qed.

Lemma to_uint_nonnil (n : N) : N.to_uint n <> Nil.
Proof.
  destruct n; [discriminate | apply DecimalPos.Unsigned.to_uint_nonnil].
Qed.

Lemma digits_ok_all (f : Z) : (0 <= f < 100)%Z -> digits_ok f = true.
Proof.
  intros Hf.
  assert (Hall : forallb digits_ok (map Z.of_nat (seq 0 100)) = true)
    by (vm_compute; reflexivity).
  rewrite forallb_forall in Hall. apply Hall.
  apply in_map_iff. exists (Z.to_nat f). split; [lia |].
  apply in_seq. lia.
Qed.

Lemma Qfloor_cents (c : Z) : Qfloor (inject_Z c / 100) = (c / 100)%Z.
Proof.
  unfold Qdiv, Qmult, Qinv, inject_Z. cbn [Qnum Qden Qfloor].
  rewrite Z.mul_1_r. reflexivity.
Qed.

Lemma formatCurrency_shape (x : Q) :
  0 <= x ->
  exists whole d1 d2,
    formatCurrency x = to_string ("$"%char :: whole ++ "."%char :: [d1; d2])
    /\ grouped whole
    /\ List.filter not_comma whole
       = chars_of_uint (N.to_uint (Z.to_N (Qfloor (round2 x))))
    /\ is_digit d1 = true /\ is_digit d2 = true
    /\ round2 x
       == inject_Z (Qfloor (round2 x))
          + inject_Z (10 * digit_value d1 + digit_value d2) / 100.
Proof.
  intros Hx.
  pose proof (cents_nonneg x) as Hc.
  assert (Hr : round2 x == inject_Z (cents x) / 100).
  { rewrite round2_cents_form.
    destruct (Qlt_le_dec x 0); [lra |]. cbn [signum]. ring. }
  assert (Hfl : Qfloor (round2 x) = (cents x / 100)%Z).
  { rewrite (Qfloor_comp _ _ Hr). apply Qfloor_cents. }
  set (c := cents x) in *.
  assert (Hf : (0 <= c mod 100 < 100)%Z) by (apply Z.mod_pos_bound; lia).
  destruct (fraction_digits (c mod 100) Hf)
    as (fp & _ & _ & _ & _ & Hd1 & Hd2 & _ & _).
  pose proof (digits_ok_all (c mod 100) Hf) as Hv.
  unfold digits_ok in Hv. apply Z.eqb_eq in Hv.
  exists (group (chars_of_uint (N.to_uint (Z.to_N (c / 100))))),
    (digit_char (c mod 100 / 10)), (digit_char ((c mod 100) mod 10)).
  split.
  { unfold formatCurrency, format_chars. cbv zeta. fold c.
    destruct (Qlt_le_dec x 0); [lra |]. cbn [app].
    replace (c mod 10)%Z with ((c mod 100) mod 10)%Z
      by (apply Z.mod_mod_divide; exists 10%Z; reflexivity).
    reflexivity. }
  split.
  { apply group_grouped; [| apply chars_of_uint_digits].
    apply chars_of_uint_nonnil, to_uint_nonnil. }
  split.
  { rewrite Hfl.
    apply (group_spec _ (chars_of_uint_digits _)). }
  split; [exact Hd1 |]. split; [exact Hd2 |].
  rewrite Hv, Hfl, Hr. symmetry. apply inject_Z_cents.
Qed.

End CurrencyFacts.

(* ------------------------------------------------------------------ *)
(** ** Facts about the optimizer *)

Module OptimizerFacts.
Import CurrencyShapes.
Import OptimizerNotions.

Lemma transportation_of_Ok (day : Day) :
  is_Some (transportation day) -> exists tr, transportation day = Some tr /\ transportation_of day = Ok tr.
Proof. intros [tr Htr]. exists tr. unfold transportation_of. rewrite Htr. auto. Qed.

Lemma transportation_of_Throw (day : Day) (e : exn) :
  transportation_of day = Throw e -> transportation day = None.
Proof. unfold transportation_of. destruct (transportation day); [discriminate | reflexivity]. Qed.

(** A loop whose body throws only on a day without transportation runs to
    the end on complete days, and throws on the others. *)
Lemma forEach_complete {S} (body : S -> Day -> result S) (ds : list Day) (acc : S) :
  (forall a day, is_Some (transportation day) -> exists a', body a day = Ok a') ->
  complete ds -> exists r, forEach body ds acc = Ok r.
Proof.
  intros Hbody Hds. revert acc.
  induction Hds as [| day ds Hday _ IH]; intros acc; [exists acc; reflexivity |].
  destruct (Hbody acc day Hday) as [a' Ha']. cbn [forEach]. rewrite Ha'. cbn [JS.bind]. apply IH.
Qed.

Lemma forEach_incomplete {S} (body : S -> Day -> result S) (ds : list Day) (acc : S) (e : exn) :
  (forall a day e', body a day = Throw e' -> transportation day = None) ->
  forEach body ds acc = Throw e -> ~ complete ds.
Proof.
  intros Hbody. revert acc.
  induction ds as [| day ds IH]; intros acc H Hc; [discriminate H |].
  apply Forall_cons in Hc as [Hday Hc]. cbn [forEach] in H.
  destruct (body acc day) as [a' | e'] eqn:E; cbn [JS.bind] in H.
  - exact (IH a' H Hc).
  - apply Hbody in E. rewrite E in Hday. destruct Hday as [? ?]. discriminate.
Qed.

Lemma analyzeBudgetAllocation_complete (it : Itinerary) :
  complete (days it) -> exists b, analyzeBudgetAllocation it = Ok b.
Proof.
  intros Hc. unfold analyzeBudgetAllocation. apply forEach_complete; [| exact Hc].
  intros a day Hday. destruct (transportation_of_Ok day Hday) as (tr & _ & ->).
  unfold_bind. eexists. reflexivity.
Qed.

Lemma analyzeBudgetAllocation_incomplete (it : Itinerary) (e : exn) :
  analyzeBudgetAllocation it = Throw e -> ~ complete (days it).
Proof.
  unfold analyzeBudgetAllocation. apply forEach_incomplete.
  intros a day e'. unfold_bind.
  destruct (transportation_of day) eqn:E; [discriminate |].
  intros _. eapply transportation_of_Throw, E.
Qed.

Lemma calculateTotalCost_complete (ds : list Day) :
  complete ds -> exists total, calculateTotalCost ds = Ok total.
Proof.
  intros Hc. unfold calculateTotalCost. apply forEach_complete; [| exact Hc].
  intros a day Hday. destruct (transportation_of_Ok day Hday) as (tr & _ & ->).
  unfold_bind. eexists. reflexivity.
Qed.

Lemma optimizeAccommodation_complete (ds : list Day) (s t : Q) :
  complete ds -> complete (optimizeAccommodation ds s t).
Proof.
  unfold complete, optimizeAccommodation. intros H.
  apply Forall_map. eapply Forall_impl; [exact H |]. intros day Hd. exact Hd.
Qed.

Lemma optimizeActivities_complete (ds : list Day) (s t : Q) :
  complete ds -> complete (optimizeActivities ds s t).
Proof.
  unfold complete, optimizeActivities. intros H.
  apply Forall_map. eapply Forall_impl; [exact H |]. intros day Hd. exact Hd.
Qed.

Lemma optimizeTransportation_complete (ds : list Day) (s t : Q) :
  complete ds ->
  exists ds', optimizeTransportation ds s t = Ok ds' /\ complete ds'.
Proof.
  unfold optimizeTransportation. cbv zeta.
  induction 1 as [| day ds Hday _ (ds' & IH & Hc')].
  - exists []. split; [reflexivity | constructor].
  - destruct (transportation_of_Ok day Hday) as (tr & _ & E).
    cbn [mapM]. rewrite E. unfold_bind. rewrite IH.
    eexists. split; [reflexivity |]. constructor; [| exact Hc'].
    cbn. eexists. reflexivity.
Qed.

Lemma addBudgetAlternatives_complete (ds : list Day) :
  complete ds -> complete (addBudgetAlternatives ds).
Proof.
  unfold complete, addBudgetAlternatives. intros H.
  apply Forall_map. eapply Forall_impl; [exact H |]. intros day Hd. exact Hd.
Qed.

Lemma reduceDominant_complete (ds : list Day) (s : Q) (b : Breakdown) :
  complete ds -> exists ds', reduceDominant ds s b = Ok ds' /\ complete ds'.
Proof.
  intros Hc. unfold reduceDominant.
  destruct (_ && _).
  - eexists. split; [reflexivity |]. apply optimizeAccommodation_complete, Hc.
  - destruct (Qgt_bool _ _).
    + eexists. split; [reflexivity |]. apply optimizeActivities_complete, Hc.
    + apply optimizeTransportation_complete, Hc.
Qed.

(** On an itinerary over budget whose days are complete, the try block
    runs to its end. *)
Lemma optimizeBudget_body_over (it : Itinerary) (totalBudget : Q) :
  totalBudget < parseCurrency (totalCost it) -> complete (days it) ->
  exists b ds1 total,
    analyzeBudgetAllocation it = Ok b
    /\ reduceDominant (days it) (parseCurrency (totalCost it) - totalBudget) b = Ok ds1
    /\ complete ds1
    /\ calculateTotalCost ds1 = Ok total
    /\ optimizeBudget_body it totalBudget
       = Ok (set_days (addBudgetAlternatives ds1) (set_totalCost (formatCurrency total) it)).
Proof.
  intros Hover Hc.
  destruct (analyzeBudgetAllocation_complete it Hc) as [b Hb].
  destruct (reduceDominant_complete (days it) (parseCurrency (totalCost it) - totalBudget) b Hc)
    as (ds1 & Hds1 & Hc1).
  destruct (calculateTotalCost_complete ds1 Hc1) as [total Htotal].
  exists b, ds1, total. repeat split; try assumption.
  unfold optimizeBudget_body. cbv zeta.
  destruct (Qle_bool _ _) eqn:E.
  - apply Qle_bool_iff in E. lra.
  - unfold deepCopy. rewrite Hb. unfold_bind. rewrite Hds1, Htotal. reflexivity.
Qed.

(** The try block throws exactly when the itinerary is over budget and a
    day has no transportation. *)
Lemma optimizeBudget_body_Throw (it : Itinerary) (totalBudget : Q) :
  (exists e, optimizeBudget_body it totalBudget = Throw e)
  <-> totalBudget < parseCurrency (totalCost it) /\ ~ complete (days it).
Proof.
  split.
  - intros [e H]. unfold optimizeBudget_body in H. cbv zeta in H.
    destruct (Qle_bool _ _) eqn:E; [discriminate H |].
    assert (Hover : totalBudget < parseCurrency (totalCost it)).
    { apply Qnot_le_lt. intros Hle. apply Qle_bool_iff in Hle. congruence. }
    split; [exact Hover |]. intros Hc.
    destruct (optimizeBudget_body_over it totalBudget Hover Hc) as (b & ds1 & t & _ & _ & _ & _ & Hok).
    unfold optimizeBudget_body in Hok. cbv zeta in Hok. rewrite E in Hok. congruence.
  - intros [Hover Hnc]. unfold optimizeBudget_body. cbv zeta.
    destruct (Qle_bool _ _) eqn:E; [apply Qle_bool_iff in E; lra |].
    unfold deepCopy.
    destruct (analyzeBudgetAllocation it) as [b | e] eqn:Hb.
    + exfalso. apply Hnc. clear -Hb. unfold analyzeBudgetAllocation in Hb.
      revert Hb. generalize (mkBreakdown 0 0 0). unfold complete.
      induction (days it) as [| day ds IH]; intros acc Hb; [constructor |].
      cbn [forEach] in Hb. unfold_bind.
      destruct (transportation_of day) as [tr |] eqn:Htr; [| discriminate Hb].
      constructor; [| eapply IH, Hb].
      unfold transportation_of in Htr. destruct (transportation day); [eexists; reflexivity | discriminate].
    + exists e. reflexivity.
Qed.


(** The total is the sum of the parsed costs, taken day by day in the
    order of the loop: accommodation, transportation, then the
    activities. *)
Lemma calculateTotalCost_fold (ds : list Day) (total0 total : Q) :
  forEach
    (fun total day =>
       let total1 := total + parseCurrency (Accommodation.cost (accommodation day)) in
       tr ← transportation_of day;
       let total2 := total1 + parseCurrency (Transportation.cost tr) in
       Ok (sumActivities (activities day) total2))
    ds total0 = Ok total ->
  total
  = fold_left
      (fun total day =>
         sumActivities (activities day)
           (total + parseCurrency (Accommodation.cost (accommodation day))
            + BudgetNotions.transportationCost day))
      ds total0.
Proof.
  revert total0. induction ds as [| day ds IH]; intros total0 H.
  - injection H as <-. reflexivity.
  - cbn [forEach] in H. unfold_bind.
    unfold transportation_of in H.
    destruct (transportation day) as [tr |] eqn:Htr; [| discriminate H].
    cbv zeta in H. apply IH in H.
    cbn [fold_left]. unfold BudgetNotions.transportationCost at 2. rewrite Htr. exact H.
Qed.

(** *** The activities pass *)

Lemma Qgt_bool_true (a b : Q) : Qgt_bool a b = true <-> b < a.
Proof.
  unfold Qgt_bool. rewrite negb_true_iff. split.
  - intros H. apply Qnot_le_lt. intros Hle. apply Qle_bool_iff in Hle. congruence.
  - intros H. destruct (Qle_bool a b) eqn:E; [| reflexivity].
    apply Qle_bool_iff in E. lra.
Qed.

Lemma Qgt_bool_false (a b : Q) : Qgt_bool a b = false <-> a <= b.
Proof.
  unfold Qgt_bool. rewrite negb_false_iff. apply Qle_bool_iff.
Qed.

Lemma findIndex_distinct (acts : list Activity.t) (i : nat) (a : Activity.t) :
  NoDup (map Activity.name acts) -> acts !! i = Some a ->
  findIndex (Activity.name a) acts = Some i.
Proof.
  revert i. induction acts as [| x rest IH]; intros i Hnd Hi; [discriminate Hi |].
  cbn [map] in Hnd. apply NoDup_cons in Hnd as [Hx Hnd].
  destruct i as [| i]; cbn in Hi; cbn [findIndex].
  - injection Hi as ->. rewrite String.eqb_refl. reflexivity.
  - destruct (String.eqb_spec (Activity.name x) (Activity.name a)) as [E | _].
    + exfalso. apply Hx. rewrite E.
      apply (list_elem_of_fmap_2 Activity.name). eapply list_elem_of_lookup_2, Hi.
    + rewrite (IH i Hnd Hi). reflexivity.
Qed.

Lemma names_insert_set_cost (acts : list Activity.t) (i : nat) (a : Activity.t) (c : string) :
  acts !! i = Some a ->
  map Activity.name (<[i := Activity.set_cost c a]> acts) = map Activity.name acts.
Proof.
  intros Hi. change (map Activity.name ?l) with (Activity.name <$> l).
  rewrite list_fmap_insert. apply list_insert_id.
  rewrite list_lookup_fmap, Hi. reflexivity.
Qed.

Lemma reduceActivity_distinct (r : Q) (index ref : nat) (acts : list Activity.t)
    (a : Activity.t) :
  NoDup (map Activity.name acts) -> acts !! ref = Some a ->
  reduceActivity r index ref acts = <[ref := reduced r (Nat.eqb index 0) a]> acts.
Proof.
  intros Hnd Hi. unfold reduceActivity. rewrite Hi. cbv zeta.
  rewrite (findIndex_distinct acts ref a Hnd Hi), Hi. reflexivity.
Qed.

(** Whatever the names, a turn of the loop keeps the names and the
    length of the array. *)
Lemma reduceActivity_names (r : Q) (index ref : nat) (acts : list Activity.t) :
  map Activity.name (reduceActivity r index ref acts) = map Activity.name acts.
Proof.
  unfold reduceActivity. destruct (acts !! ref) as [a |]; [| reflexivity]. cbv zeta.
  destruct (findIndex _ _) as [k |]; [| reflexivity].
  destruct (acts !! k) as [original |] eqn:Hk; [| reflexivity].
  apply names_insert_set_cost, Hk.
Qed.

Lemma rankOf_None (i : nat) (sorted : list nat) : i ∉ sorted -> rankOf i sorted = None.
Proof.
  induction sorted as [| j rest IH]; intros Hi; [reflexivity |].
  apply not_elem_of_cons in Hi as [Hij Hi]. cbn [rankOf].
  destruct (Nat.eqb_spec j i) as [E | _]; [congruence |].
  rewrite (IH Hi). reflexivity.
Qed.

Lemma rankOf_Some (i : nat) (sorted : list nat) :
  i ∈ sorted -> exists k, rankOf i sorted = Some k /\ (k = O <-> head sorted = Some i).
Proof.
  induction sorted as [| j rest IH]; intros Hi; [inversion Hi |].
  cbn [rankOf head]. destruct (Nat.eqb_spec j i) as [E | NE].
  - exists O. subst. split; [reflexivity | split; reflexivity].
  - apply elem_of_cons in Hi as [-> | Hi]; [contradiction |].
    destruct (IH Hi) as (k & -> & _). exists (S k). split; [reflexivity |].
    split; [discriminate | intros [= ?]; contradiction].
Qed.

(** The loop over the sorted positions, when the names are distinct:
    every position listed is rewritten once, from its original cost. *)
Lemma reduceSorted_distinct (r : Q) (sorted : list nat) :
  forall (index : nat) (acts : list Activity.t),
    NoDup (map Activity.name acts) -> NoDup sorted ->
    (forall ref, ref ∈ sorted -> (ref < length acts)%nat) ->
    forall i a, acts !! i = Some a ->
      reduceSorted r index sorted acts !! i
      = Some (match rankOf i sorted with
              | Some k => reduced r (Nat.eqb (index + k) 0) a
              | None => a
              end).
Proof.
  induction sorted as [| ref rest IH]; intros index acts Hnd Hs Hlt i a Hi; [exact Hi |].
  apply NoDup_cons in Hs as [Href Hs].
  destruct (lookup_lt_is_Some_2 acts ref) as [aref Haref]; [apply Hlt; left |].
  cbn [reduceSorted rankOf].
  rewrite (reduceActivity_distinct r index ref acts aref Hnd Haref).
  set (acts1 := <[ref := reduced r (Nat.eqb index 0) aref]> acts).
  assert (Hnd1 : NoDup (map Activity.name acts1))
    by (unfold acts1, reduced; rewrite names_insert_set_cost by exact Haref; exact Hnd).
  assert (Hlt1 : forall ref', ref' ∈ rest -> (ref' < length acts1)%nat).
  { intros ref' Hin. unfold acts1. rewrite length_insert. apply Hlt. right. exact Hin. }
  destruct (Nat.eqb_spec ref i) as [-> | NE].
  - assert (a = aref) by congruence. subst aref.
    rewrite (IH (S index) acts1 Hnd1 Hs Hlt1 i (reduced r (Nat.eqb index 0) a)).
    + rewrite (rankOf_None i rest Href), Nat.add_0_r. reflexivity.
    + unfold acts1. apply list_lookup_insert_eq. eapply lookup_lt_Some, Hi.
  - rewrite (IH (S index) acts1 Hnd1 Hs Hlt1 i a).
    + destruct (rankOf i rest) as [k |]; cbn [option_map]; [| reflexivity].
      rewrite Nat.add_succ_r. reflexivity.
    + unfold acts1. rewrite list_lookup_insert_ne by exact NE. exact Hi.
Qed.

Lemma reduceSorted_names (r : Q) (sorted : list nat) :
  forall (index : nat) (acts : list Activity.t),
    map Activity.name (reduceSorted r index sorted acts) = map Activity.name acts.
Proof.
  induction sorted as [| ref rest IH]; intros index acts; [reflexivity |].
  cbn [reduceSorted]. rewrite IH. apply reduceActivity_names.
Qed.

(** The sorted order holds every position once. *)
Lemma insert_desc_Permutation (key : nat -> Q) (i : nat) (sorted : list nat) :
  insert_desc key i sorted ≡ₚ i :: sorted.
Proof.
  induction sorted as [| j rest IH]; [reflexivity |].
  cbn [insert_desc]. destruct (Qgt_bool _ _); [| reflexivity].
  rewrite IH. apply Permutation_swap.
Qed.

Lemma sortedActivities_Permutation (acts : list Activity.t) :
  sortedActivities acts ≡ₚ seq 0 (length acts).
Proof.
  unfold sortedActivities. generalize (costAt acts) as key. intros key.
  induction (seq 0 (length acts)) as [| i l IH]; [reflexivity |].
  cbn [foldr]. rewrite insert_desc_Permutation, IH. reflexivity.
Qed.

Lemma head_insert_desc (key : nat -> Q) (i : nat) (sorted : list nat) :
  head (insert_desc key i sorted)
  = Some (match head sorted with
          | Some j => if Qgt_bool (key j) (key i) then j else i
          | None => i
          end).
Proof.
  destruct sorted as [| j rest]; [reflexivity |].
  cbn [insert_desc head]. destruct (Qgt_bool _ _); reflexivity.
Qed.

(** The head of the sorted order is the first position of the largest
    key. *)
Lemma head_sorted_from (key : nat -> Q) (len : nat) :
  forall s, exists top,
    head (foldr (insert_desc key) [] (seq s (S len))) = Some top
    /\ (s <= top < s + S len)%nat
    /\ (forall j, (s <= j < s + S len)%nat -> key j <= key top)
    /\ (forall j, (s <= j < top)%nat -> key j < key top).
Proof.
  induction len as [| len IH]; intros s.
  - exists s. cbn. repeat split; try lia.
    + intros j Hj. replace j with s by lia. lra.
  - destruct (IH (S s)) as (top' & Hhead & Hrange & Hmax & Hfirst).
    change (seq s (S (S len))) with (s :: seq (S s) (S len)). cbn [foldr].
    rewrite head_insert_desc, Hhead.
    destruct (Qgt_bool (key top') (key s)) eqn:E.
    + apply Qgt_bool_true in E. exists top'. repeat split; try lia.
      * intros j Hj. destruct (Nat.eq_dec j s) as [-> | NE]; [lra | apply Hmax; lia].
      * intros j Hj. destruct (Nat.eq_dec j s) as [-> | NE]; [lra | apply Hfirst; lia].
    + apply Qgt_bool_false in E. exists s. repeat split; try lia.
      intros j Hj. destruct (Nat.eq_dec j s) as [-> | NE]; [lra |].
      eapply Qle_trans; [apply Hmax; lia | exact E].
Qed.

Lemma head_sortedActivities (acts : list Activity.t) :
  acts <> [] ->
  exists top, head (sortedActivities acts) = Some top /\ dearest acts top.
Proof.
  intros Hne. destruct acts as [| a0 rest]; [contradiction |].
  destruct (head_sorted_from (costAt (a0 :: rest)) (length rest) 0)
    as (top & Hhead & Hrange & Hmax & Hfirst).
  exists top. split; [exact Hhead |]. unfold dearest. cbn [length]. repeat split.
  - lia.
  - intros j Hj. apply Hmax. lia.
  - intros j Hj. apply Hfirst. lia.
Qed.

(** One day of the activities pass, names distinct. *)
Lemma reduce_day_distinct (r : Q) (acts : list Activity.t) (i : nat) (a : Activity.t) :
  NoDup (map Activity.name acts) -> acts !! i = Some a ->
  exists top,
    head (sortedActivities acts) = Some top /\ dearest acts top
    /\ reduceSorted r 0 (sortedActivities acts) acts !! i
       = Some (reduced r (Nat.eqb i top) a).
Proof.
  intros Hnd Hi.
  destruct (head_sortedActivities acts) as (top & Hhead & Htop);
    [intros ->; discriminate Hi |].
  exists top. split; [exact Hhead |]. split; [exact Htop |].
  pose proof (sortedActivities_Permutation acts) as Hperm.
  assert (Hin : forall k, k ∈ sortedActivities acts <-> (k < length acts)%nat).
  { intros k. rewrite Hperm, elem_of_seq. lia. }
  rewrite (reduceSorted_distinct r (sortedActivities acts) 0 acts Hnd) with (a := a).
  - destruct (rankOf_Some i (sortedActivities acts)) as (k & -> & Hk).
    { apply Hin. eapply lookup_lt_Some, Hi. }
    cbn [Nat.add]. f_equal. f_equal.
    destruct (Nat.eqb_spec k 0) as [-> | NE]; destruct (Nat.eqb_spec i top) as [-> | NE'];
      try reflexivity.
    + exfalso. apply NE'. destruct Hk as [Hk _]. specialize (Hk eq_refl). congruence.
    + exfalso. apply NE. apply Hk. exact Hhead.
  - rewrite Hperm. apply NoDup_seq.
  - intros ref Href. apply Hin, Href.
  - exact Hi.
Qed.

(** *** What the other passes write, and what they leave alone *)

Lemma optimizeAccommodation_lookup (ds : list Day) (s t : Q) (k : nat) (day : Day) :
  ds !! k = Some day ->
  optimizeAccommodation ds s t !! k
  = Some (set_accommodation
            (Accommodation.set_cost
               (formatCurrency
                  (parseCurrency (Accommodation.cost (accommodation day))
                   * (1 - reductionPercentage s t (5 # 10))))
               (accommodation day)) day).
Proof.
  intros Hk. unfold optimizeAccommodation. cbv zeta.
  change (map ?f ds) with (f <$> ds). rewrite list_lookup_fmap, Hk. reflexivity.
Qed.

Lemma optimizeTransportation_lookup (ds ds' : list Day) (s t : Q) :
  optimizeTransportation ds s t = Ok ds' ->
  forall k day, ds !! k = Some day ->
    exists tr,
      transportation day = Some tr
      /\ ds' !! k
         = Some (set_transportation
                   (Transportation.set_cost
                      (formatCurrency
                         (parseCurrency (Transportation.cost tr)
                          * (1 - reductionPercentage s t (45 # 100)))) tr) day).
Proof.
  unfold optimizeTransportation. cbv zeta. revert ds'.
  induction ds as [| d ds IH]; intros ds' H k day Hk; [discriminate Hk |].
  cbn [mapM] in H. unfold_bind.
  destruct (transportation_of d) as [tr |] eqn:Htr; [| discriminate H].
  destruct (mapM _ ds) as [rest |] eqn:Hrest; [| discriminate H].
  injection H as <-.
  destruct k as [| k]; cbn in Hk |- *.
  - injection Hk as <-. exists tr. split; [| reflexivity].
    unfold transportation_of in Htr. destruct (transportation d); [congruence | discriminate].
  - exact (IH rest eq_refl k day Hk).
Qed.

Lemma optimizeAccommodation_frame (ds : list Day) (s t : Q) :
  map activities (optimizeAccommodation ds s t) = map activities ds
  /\ map transportation (optimizeAccommodation ds s t) = map transportation ds.
Proof.
  unfold optimizeAccommodation. cbv zeta. rewrite !map_map. split; reflexivity.
Qed.

Lemma optimizeActivities_frame (ds : list Day) (s t : Q) :
  map accommodation (optimizeActivities ds s t) = map accommodation ds
  /\ map transportation (optimizeActivities ds s t) = map transportation ds.
Proof.
  unfold optimizeActivities. cbv zeta. rewrite !map_map. split; reflexivity.
Qed.

Lemma optimizeTransportation_frame (ds ds' : list Day) (s t : Q) :
  optimizeTransportation ds s t = Ok ds' ->
  map accommodation ds' = map accommodation ds
  /\ map activities ds' = map activities ds.
Proof.
  unfold optimizeTransportation. cbv zeta. revert ds'.
  induction ds as [| d ds IH]; intros ds' H.
  - injection H as <-. split; reflexivity.
  - cbn [mapM] in H. unfold_bind.
    destruct (transportation_of d) as [tr |]; [| discriminate H].
    destruct (mapM _ ds) as [rest |]; [| discriminate H].
    injection H as <-. destruct (IH rest eq_refl) as [IH1 IH2].
    cbn [map]. rewrite IH1, IH2. split; reflexivity.
Qed.

(** *** Caps *)

Lemma reductionPercentage_le_cap (s t cap : Q) : reductionPercentage s t cap <= cap.
Proof.
  unfold reductionPercentage. destruct (Qeq_bool t 0); [lra | apply Q.le_min_r].
Qed.

Lemma reduced_value_bound (c r cap : Q) :
  0 <= c -> r <= cap -> c * (1 - cap) <= c * (1 - r).
Proof.
  intros Hc Hr.
  assert (H : 0 <= c * (cap - r)) by (apply Qmult_le_0_compat; lra).
  lra.
Qed.

Lemma adjusted_bound (r : Q) (first : bool) :
  r <= 4 # 10 ->
  adjusted r first <= 48 # 100 /\ (first = false -> adjusted r first <= 4 # 10).
Proof.
  intros Hr. unfold adjusted. destruct first; split; intros; try discriminate; lra.
Qed.

Lemma findIndex_found (acts : list Activity.t) (ref : nat) (a : Activity.t) :
  acts !! ref = Some a ->
  exists k original,
    findIndex (Activity.name a) acts = Some k
    /\ (k <= ref)%nat /\ acts !! k = Some original
    /\ Activity.name original = Activity.name a.
Proof.
  revert ref. induction acts as [| x rest IH]; intros ref Href; [discriminate Href |].
  cbn [findIndex]. destruct (String.eqb_spec (Activity.name x) (Activity.name a)) as [E | NE].
  - exists O, x. repeat split; [lia | exact E].
  - destruct ref as [| ref]; cbn in Href; [congruence |].
    destruct (IH ref Href) as (k & original & -> & Hle & Hk & Hn).
    exists (S k), original. repeat split; [lia | exact Hk | exact Hn].
Qed.

(** A turn of the loop always writes: the reduced cost of the activity it
    visits goes to the first activity of that name. *)
Lemma reduceActivity_write (r : Q) (index ref : nat) (acts : list Activity.t) (a : Activity.t) :
  acts !! ref = Some a ->
  exists k original,
    findIndex (Activity.name a) acts = Some k
    /\ (k <= ref)%nat /\ acts !! k = Some original
    /\ Activity.name original = Activity.name a
    /\ reduceActivity r index ref acts
       = <[k := Activity.set_cost
                  (formatCurrency
                     (parseCurrency (Activity.cost a)
                      * (1 - adjusted r (Nat.eqb index 0)))) original]> acts.
Proof.
  intros Href. destruct (findIndex_found acts ref a Href) as (k & original & Hf & Hle & Hk & Hn).
  exists k, original. repeat split; try assumption.
  unfold reduceActivity. rewrite Href. cbv zeta. rewrite Hf, Hk. reflexivity.
Qed.

(** *** The total *)

Lemma forEach_map {A S} (body : S -> A -> result S) (f : A -> A) (l : list A) :
  (forall acc x, body acc (f x) = body acc x) ->
  forall acc, forEach body (map f l) acc = forEach body l acc.
Proof.
  intros Hf. induction l as [| x l IH]; intros acc; [reflexivity |].
  cbn [map forEach]. rewrite Hf. destruct (body acc x); cbn [JS.bind]; [apply IH | reflexivity].
Qed.

Lemma calculateTotalCost_addBudgetAlternatives (ds : list Day) :
  calculateTotalCost (addBudgetAlternatives ds) = calculateTotalCost ds.
Proof.
  unfold calculateTotalCost, addBudgetAlternatives. apply forEach_map.
  intros acc day. reflexivity.
Qed.

(** *** Whole cents *)

Lemma wholeCents_formatCurrency (x : Q) : wholeCents (parseCurrency (formatCurrency x)).
Proof.
  destruct (CurrencyFacts.round2_cents x) as [k Hk]. exists k.
  rewrite CurrencyFacts.parseCurrency_formatCurrency. exact Hk.
Qed.

Lemma wholeCents_plus (a b : Q) : wholeCents a -> wholeCents b -> wholeCents (a + b).
Proof.
  intros [k Hk] [m Hm]. exists (k + m)%Z. rewrite Hk, Hm, inject_Z_plus. field.
Qed.

Lemma wholeCents_round2 (x : Q) : wholeCents x -> round2 x == x.
Proof.
  intros [k Hk]. destruct (CurrencyFacts.round2_cents x) as [k' Hk'].
  pose proof (CurrencyFacts.round2_near x) as Hnear.
  apply Qabs_Qle_condition in Hnear. rewrite Hk' in Hnear |- *. rewrite Hk in Hnear |- *.
  unfold Qdiv in Hnear. change (/ 100) with (1 # 100) in Hnear.
  assert (H1 : inject_Z k' < inject_Z (k + 1)) by (rewrite inject_Z_plus; change (inject_Z 1) with 1; lra).
  assert (H2 : inject_Z k < inject_Z (k' + 1)) by (rewrite inject_Z_plus; change (inject_Z 1) with 1; lra).
  rewrite <- Zlt_Qlt in H1, H2. replace k' with k by lia. reflexivity.
Qed.

Lemma sumActivities_cents (acts : list Activity.t) (start : Q) :
  centsActivities acts -> wholeCents start -> wholeCents (sumActivities acts start).
Proof.
  unfold sumActivities. intros Hacts. revert start.
  induction Hacts as [| a acts Ha _ IH]; intros start Hstart; [exact Hstart |].
  cbn [fold_left]. apply IH, wholeCents_plus; assumption.
Qed.

Lemma calculateTotalCost_cents (ds : list Day) (total : Q) :
  Forall centsDay ds -> calculateTotalCost ds = Ok total -> wholeCents total.
Proof.
  unfold calculateTotalCost.
  assert (H0 : wholeCents 0) by (exists 0%Z; reflexivity).
  revert H0. generalize 0 as acc. intros acc Hacc Hds. revert acc Hacc.
  induction Hds as [| day ds (Hacc' & Htr & Hacts) _ IH]; intros acc Hacc H.
  - injection H as <-. exact Hacc.
  - cbn [forEach] in H. unfold_bind. unfold transportation_of in H.
    destruct (transportation day) as [tr |] eqn:E; [| discriminate H].
    apply IH in H; [exact H |].
    apply sumActivities_cents; [exact Hacts |].
    repeat apply wholeCents_plus; try assumption. apply Htr. reflexivity.
Qed.

Lemma reduceActivity_cents (r : Q) (index ref : nat) (acts : list Activity.t) :
  centsActivities acts -> centsActivities (reduceActivity r index ref acts).
Proof.
  intros H. destruct (acts !! ref) as [a |] eqn:Href.
  - destruct (reduceActivity_write r index ref acts a Href) as (k & original & _ & _ & _ & _ & ->).
    apply Forall_insert; [exact H |]. apply wholeCents_formatCurrency.
  - unfold reduceActivity. rewrite Href. exact H.
Qed.

Lemma reduceSorted_cents (r : Q) (sorted : list nat) :
  forall index acts, centsActivities acts -> centsActivities (reduceSorted r index sorted acts).
Proof.
  induction sorted as [| ref rest IH]; intros index acts H; [exact H |].
  cbn [reduceSorted]. apply IH, reduceActivity_cents, H.
Qed.

Lemma optimizeAccommodation_cents (ds : list Day) (s t : Q) :
  Forall centsDay ds -> Forall centsDay (optimizeAccommodation ds s t).
Proof.
  intros H. unfold optimizeAccommodation. cbv zeta. apply Forall_map.
  eapply Forall_impl; [exact H |]. intros day (_ & Htr & Hacts).
  split; [apply wholeCents_formatCurrency | split; assumption].
Qed.

Lemma optimizeActivities_cents (ds : list Day) (s t : Q) :
  Forall centsDay ds -> Forall centsDay (optimizeActivities ds s t).
Proof.
  intros H. unfold optimizeActivities. cbv zeta. apply Forall_map.
  eapply Forall_impl; [exact H |]. intros day (Hacc & Htr & Hacts).
  split; [exact Hacc | split; [exact Htr |]]. apply reduceSorted_cents, Hacts.
Qed.

Lemma optimizeTransportation_cents (ds ds' : list Day) (s t : Q) :
  Forall centsDay ds -> optimizeTransportation ds s t = Ok ds' -> Forall centsDay ds'.
Proof.
  unfold optimizeTransportation. cbv zeta. intros H. revert ds'.
  induction H as [| day ds (Hacc & Htr & Hacts) _ IH]; intros ds' Hok.
  - injection Hok as <-. constructor.
  - cbn [mapM] in Hok. unfold_bind.
    destruct (transportation_of day) as [tr |]; [| discriminate Hok].
    destruct (mapM _ ds) as [rest |]; [| discriminate Hok].
    injection Hok as <-. constructor; [| apply IH; reflexivity].
    split; [exact Hacc | split; [| exact Hacts]].
    intros tr' [= <-]. apply wholeCents_formatCurrency.
Qed.

Lemma reduceDominant_cents (ds ds' : list Day) (s : Q) (b : Breakdown) :
  Forall centsDay ds -> reduceDominant ds s b = Ok ds' -> Forall centsDay ds'.
Proof.
  intros H. unfold reduceDominant. destruct (_ && _).
  - intros [= <-]. apply optimizeAccommodation_cents, H.
  - destruct (Qgt_bool _ _).
    + intros [= <-]. apply optimizeActivities_cents, H.
    + apply optimizeTransportation_cents, H.
Qed.

(** *** Equal numbers, equal results *)

(** Two rationals that are equal as numbers format to the same string. *)
Lemma formatCurrency_Qeq (x y : Q) : x == y -> formatCurrency x = formatCurrency y.
Proof.
  intros E. unfold formatCurrency, format_chars, cents. cbv zeta.
  assert (Hc : Qfloor (Qabs x * 100 + (1 # 2)) = Qfloor (Qabs y * 100 + (1 # 2)))
    by (apply Qfloor_comp; rewrite E; reflexivity).
  rewrite Hc.
  destruct (Qlt_le_dec x 0) as [Hx | Hx], (Qlt_le_dec y 0) as [Hy | Hy];
    try reflexivity; rewrite E in Hx; lra.
Qed.

Lemma reductionPercentage_Qeq (s1 s2 t cap : Q) :
  s1 == s2 -> reductionPercentage s1 t cap == reductionPercentage s2 t cap.
Proof.
  intros E. unfold reductionPercentage. destruct (Qeq_bool t 0); [reflexivity |].
  rewrite E. reflexivity.
Qed.

Lemma optimizeAccommodation_Qeq (ds : list Day) (s1 s2 t : Q) :
  s1 == s2 -> optimizeAccommodation ds s1 t = optimizeAccommodation ds s2 t.
Proof.
  intros E. unfold optimizeAccommodation. cbv zeta. apply map_ext. intros day.
  f_equal. f_equal. apply formatCurrency_Qeq.
  rewrite (reductionPercentage_Qeq s1 s2 t (5 # 10) E). reflexivity.
Qed.

Lemma reduceActivity_Qeq (r1 r2 : Q) (index ref : nat) (acts : list Activity.t) :
  r1 == r2 -> reduceActivity r1 index ref acts = reduceActivity r2 index ref acts.
Proof.
  intros E. unfold reduceActivity. destruct (acts !! ref) as [a |]; [| reflexivity].
  cbv zeta. destruct (findIndex _ _) as [k |]; [| reflexivity].
  destruct (acts !! k) as [original |]; [| reflexivity].
  f_equal. f_equal. apply formatCurrency_Qeq. rewrite E. reflexivity.
Qed.

Lemma reduceSorted_Qeq (r1 r2 : Q) (sorted : list nat) :
  r1 == r2 ->
  forall index acts, reduceSorted r1 index sorted acts = reduceSorted r2 index sorted acts.
Proof.
  intros E. induction sorted as [| ref rest IH]; intros index acts; [reflexivity |].
  cbn [reduceSorted]. rewrite (reduceActivity_Qeq r1 r2 index ref acts E). apply IH.
Qed.

Lemma optimizeActivities_Qeq (ds : list Day) (s1 s2 t : Q) :
  s1 == s2 -> optimizeActivities ds s1 t = optimizeActivities ds s2 t.
Proof.
  intros E. unfold optimizeActivities. cbv zeta. apply map_ext. intros day.
  f_equal. apply reduceSorted_Qeq, reductionPercentage_Qeq, E.
Qed.

Lemma mapM_ext {A B} (f g : A -> result B) (l : list A) :
  (forall x, f x = g x) -> mapM f l = mapM g l.
Proof.
  intros Hfg. induction l as [| x l IH]; [reflexivity |].
  cbn [mapM]. rewrite Hfg, IH. reflexivity.
Qed.

Lemma optimizeTransportation_Qeq (ds : list Day) (s1 s2 t : Q) :
  s1 == s2 -> optimizeTransportation ds s1 t = optimizeTransportation ds s2 t.
Proof.
  intros E. unfold optimizeTransportation. cbv zeta. apply mapM_ext. intros day.
  unfold_bind. destruct (transportation_of day) as [tr |]; [| reflexivity].
  f_equal. f_equal. f_equal. apply formatCurrency_Qeq.
  rewrite (reductionPercentage_Qeq s1 s2 t (45 # 100) E). reflexivity.
Qed.

Lemma optimizeBudget_Qeq (it : Itinerary) (b1 b2 : Q) :
  b1 == b2 -> optimizeBudget it b1 = optimizeBudget it b2.
Proof.
  intros E. unfold optimizeBudget. f_equal. unfold optimizeBudget_body. cbv zeta.
  rewrite <- (Qleb_comp _ _ (Qeq_refl (parseCurrency (totalCost it))) _ _ E).
  destruct (Qle_bool _ b1); [reflexivity |].
  destruct (analyzeBudgetAllocation (deepCopy it)) as [b |]; [| reflexivity].
  unfold_bind.
  assert (Es : parseCurrency (totalCost it) - b1 == parseCurrency (totalCost it) - b2)
    by (rewrite E; reflexivity).
  assert (Er : reduceDominant (days (deepCopy it)) (parseCurrency (totalCost it) - b1) b
               = reduceDominant (days (deepCopy it)) (parseCurrency (totalCost it) - b2) b).
  { unfold reduceDominant. destruct (_ && _); [| destruct (Qgt_bool _ _)].
    - f_equal. apply optimizeAccommodation_Qeq, Es.
    - f_equal. apply optimizeActivities_Qeq, Es.
    - apply optimizeTransportation_Qeq, Es. }
  rewrite Er. reflexivity.
Qed.

End OptimizerFacts.


(* ------------------------------------------------------------------ *)
(** ** Facts about the weather generator *)

Module WeatherFacts.
Import Weather.

Lemma seasonalTemp_bounds (month : Z) : - (8) <= seasonalTemp month <= 8.
Proof.
  unfold seasonalTemp.
  destruct ((month >=? 5) && (month <=? 8))%Z; [lra |].
  destruct ((month >=? 11) || (month <=? 2))%Z; lra.
Qed.

(** With a sine of at least -1 the maximum temperature is never below 2:
    the base is at least 10, the season takes at most 8 and the daily
    variation is not negative.  So the snow override never fires. *)
Lemma maxTempOf_ge_2 (Math_sin : Z -> Q) (location : string) (date : JsDate) :
  (forall z, - (1) <= Math_sin z) -> (2 <= maxTempOf Math_sin location date)%Z.
Proof.
  intros Hsin. unfold maxTempOf, Math_round. cbv zeta.
  rewrite <- (Qfloor_Z 2). apply Qfloor_resp_le.
  pose proof (seasonalTemp_bounds (getMonth date)) as Hseason.
  pose proof (Hsin (getDate date * locationHash location)%Z) as Hs.
  assert (Hbase : 10 <= inject_Z (10 + locationHash location mod 25)).
  { change 10 with (inject_Z 10) at 1. rewrite <- Zle_Qle.
    pose proof (Z.mod_pos_bound (locationHash location) 25). lia. }
  change (inject_Z 2) with 2. lra.
Qed.

Lemma never_snowy (Math_sin : Z -> Q) (location : string) (date : JsDate) (g : Draws) :
  (forall z, - (1) <= Math_sin z) ->
  condition (fst (generateMockWeatherData Math_sin location date g)) <> snowy.
Proof.
  intros Hsin.
  change (condition (fst (generateMockWeatherData Math_sin location date g)))
    with (classify
            (precipitation_chance (fst (generateMockWeatherData Math_sin location date g)))
            (maxTempOf Math_sin location date)).
  pose proof (maxTempOf_ge_2 Math_sin location date Hsin) as Hmax.
  unfold classify. cbv zeta.
  destruct (_ >? 70)%Z.
  - destruct (Z.ltb_spec (maxTempOf Math_sin location date) 2); [lia | discriminate].
  - destruct (_ >? 40)%Z; [discriminate |]. destruct (_ >? 20)%Z; discriminate.
Qed.

End WeatherFacts.

(* ------------------------------------------------------------------ *)
(** ** Facts about the arguments of the generators *)

Module GeneratorsFacts.

Lemma Qmin_Qeq (c a b : Q) : a == b -> Qmin c a == Qmin c b.
Proof.
  intros E. destruct (Qlt_le_dec a c) as [H | H].
  - rewrite (Q.min_r c a), (Q.min_r c b) by lra. exact E.
  - rewrite (Q.min_l c a), (Q.min_l c b) by lra. reflexivity.
Qed.

Lemma generateActivities_Qeq (city : string) (interests : list string) (t1 t2 : Q) (seed : Z) :
  t1 == t2 ->
  Activities.generateActivities city interests t1 seed
  = Activities.generateActivities city interests t2 seed.
Proof.
  intros E. unfold Activities.generateActivities. cbv zeta.
  destruct (Activities.interestActivities city _ seed) as [acts | e]; [| reflexivity].
  unfold mbind, result_bind, JS.bind. unfold Activities.fillActivities.
  rewrite (Qceiling_comp (Qmin 50 (t1 * 4 + 10) - inject_Z (Z.of_nat (length acts)))
             (Qmin 50 (t2 * 4 + 10) - inject_Z (Z.of_nat (length acts)))).
  - reflexivity.
  - rewrite (Qmin_Qeq 50 (t1 * 4 + 10) (t2 * 4 + 10)) by (rewrite E; reflexivity).
    reflexivity.
Qed.

End GeneratorsFacts.

(* ------------------------------------------------------------------ *)
(** ** The properties of the specification *)

Import CurrencyShapes.
Import OptimizerNotions.

(** C1, as the code has it.  optimizeBudget recomputes the total on the
    over-budget path only.  There, when the try block runs to its end
    (every day has its transportation object), the returned total is
    formatCurrency of the sum that calculateTotalCost takes over the
    returned days: parsed back, it is that sum rounded to cents, within
    half a cent of it.  On the pass-through path, and when the try block
    fails (a day without its transportation object), the itinerary comes
    back as it was given, with the total it came with. *)
Theorem total_cost_recomputed (itinerary : Itinerary) (totalBudget : Q) :
  exists out,
    optimizeBudget itinerary totalBudget = Ok out
    /\ (totalBudget < parseCurrency (totalCost itinerary) ->
        complete (days itinerary) ->
        exists total,
          calculateTotalCost (days out) = Ok total
          /\ total
             = fold_left
                 (fun total day =>
                    sumActivities (activities day)
                      (total + parseCurrency (Accommodation.cost (accommodation day))
                       + BudgetNotions.transportationCost day))
                 (days out) 0
          /\ totalCost out = formatCurrency total
          /\ parseCurrency (totalCost out) == round2 total
          /\ Qabs (parseCurrency (totalCost out) - total) <= 1 # 200)
    /\ (parseCurrency (totalCost itinerary) <= totalBudget -> out = itinerary)
    /\ (~ complete (days itinerary) -> out = itinerary).
Proof.
  assert (Hwithin : forall out,
            optimizeBudget_body itinerary totalBudget = Ok out ->
            parseCurrency (totalCost itinerary) <= totalBudget -> out = itinerary).
  { intros out Hbody Hle. unfold optimizeBudget_body in Hbody. cbv zeta in Hbody.
    apply Qle_bool_iff in Hle. rewrite Hle in Hbody. congruence. }
  unfold optimizeBudget.
  destruct (optimizeBudget_body itinerary totalBudget) as [out | e] eqn:Hbody.
  - exists out. split; [reflexivity |]. split; [| split].
    + intros Hover Hc.
      destruct (OptimizerFacts.optimizeBudget_body_over itinerary totalBudget Hover Hc)
        as (b & ds1 & total & _ & _ & _ & Htotal & Hbody').
      rewrite Hbody' in Hbody. injection Hbody as <-.
      exists total. cbn [days totalCost set_days set_totalCost].
      assert (Hsum : calculateTotalCost (addBudgetAlternatives ds1) = Ok total)
        by (rewrite OptimizerFacts.calculateTotalCost_addBudgetAlternatives; exact Htotal).
      split; [exact Hsum |].
      split; [apply (OptimizerFacts.calculateTotalCost_fold _ 0 total Hsum) |].
      split; [reflexivity |].
      split; [apply CurrencyFacts.parseCurrency_formatCurrency |].
      rewrite CurrencyFacts.parseCurrency_formatCurrency. apply CurrencyFacts.round2_near.
    + apply Hwithin. reflexivity.
    + intros Hnc. destruct (Qlt_le_dec totalBudget (parseCurrency (totalCost itinerary)))
        as [Hover | Hle]; [| apply Hwithin; [reflexivity | exact Hle]].
      destruct (proj2 (OptimizerFacts.optimizeBudget_body_Throw itinerary totalBudget)
                  (conj Hover Hnc)) as [e He].
      congruence.
  - exists itinerary. split; [reflexivity |]. split; [| split; reflexivity].
    intros Hover Hc.
    destruct (OptimizerFacts.optimizeBudget_body_over itinerary totalBudget Hover Hc)
      as (b & ds1 & total & _ & _ & _ & _ & Hbody').
    congruence.
Qed.

Lemma total_cost_recomputed_witness :
  exists out total,
    optimizeBudget Examples.scenario 300 = Ok out
    /\ calculateTotalCost (days out) = Ok total
    /\ total
       = fold_left
           (fun total day =>
              sumActivities (activities day)
                (total + parseCurrency (Accommodation.cost (accommodation day))
                 + BudgetNotions.transportationCost day))
           (days out) 0
    /\ totalCost out = formatCurrency total
    /\ parseCurrency (totalCost out) == round2 total
    /\ Qabs (parseCurrency (totalCost out) - total) <= 1 # 200.
Proof.
  destruct (total_cost_recomputed Examples.scenario 300) as (out & Hout & Hover & _).
  destruct Hover as (total & H).
  - vm_compute. reflexivity.
  - repeat constructor; eexists; reflexivity.
  - exists out, total. split; [exact Hout | exact H].
Defined.

(** C1, as stated, fails on the pass-through path: an itinerary within
    budget is returned with the total it came with, whatever its costs add
    up to. *)
Lemma cost_conservation_fails_within_budget :
  optimizeBudget Examples.mislabelled 200 = Ok Examples.mislabelled
  /\ (exists total,
        calculateTotalCost (days Examples.mislabelled) = Ok total /\ total == 50)
  /\ parseCurrency (totalCost Examples.mislabelled) == 100.
Proof.
  split; [vm_compute; reflexivity |].
  split; [eexists; split; [vm_compute; reflexivity | reflexivity] | reflexivity].
Qed.

(** The worked example of the specification: two days of $120 + $10 +
    $25 + $15 against a budget of $300.  Accommodation is reduced by a
    sixth to $100 a day, the total becomes $300.00, and each day gets its
    alternatives at $15.00 and $9.00. *)
Example scenario_optimized :
  exists out,
    optimizeBudget Examples.scenario 300 = Ok out
    /\ totalCost out = "$300.00"%string
    /\ map (fun day => Accommodation.cost (accommodation day)) (days out)
       = ["$100.00"%string; "$100.00"%string]
    /\ map (fun day => map Activity.cost (activities day)) (days out)
       = [["$25.00"%string; "$15.00"%string]; ["$25.00"%string; "$15.00"%string]]
    /\ map (fun day => option_map (map Activity.cost) (alternativeActivities day)) (days out)
       = [Some ["$15.00"%string; "$9.00"%string]; Some ["$15.00"%string; "$9.00"%string]].
Proof. eexists. split; [vm_compute; reflexivity |]. repeat split. Qed.

(** C2, as the code has it.  For the positive savings optimizeBudget asks
    for, the reduction percentage never exceeds the cap of its category
    (0.5, 0.45, 0.4).  The accommodation and the transportation pass
    return every cost c as formatCurrency(c * (1 - r)) with that r, so a
    non-negative c keeps at least c * (1 - cap) before the rounding.  The
    activities pass returns every activity of a day of distinct names with
    its cost c as formatCurrency(c * (1 - rate)), where rate is r for all
    but the day's dearest activity and r * 1.2 for the dearest: at most
    0.4 for the others, at most 0.48 (not 0.4) for the dearest, which
    keeps at least c * 0.52.  Without distinct names no such bound holds:
    of a Tour at $100 and a Tour at $50 with the cap reached, the first is
    returned at $30 and the second at its $50. *)
Theorem reduction_rates_bounded (ds : list Day) (savingsNeeded total : Q) :
  0 < savingsNeeded ->
  let ra := reductionPercentage savingsNeeded total (5 # 10) in
  let rt := reductionPercentage savingsNeeded total (45 # 100) in
  let rv := reductionPercentage savingsNeeded total (4 # 10) in
  (ra <= 5 # 10 /\ rt <= 45 # 100 /\ rv <= 4 # 10)
  /\ (forall k day, ds !! k = Some day ->
        let c := parseCurrency (Accommodation.cost (accommodation day)) in
        exists day',
          optimizeAccommodation ds savingsNeeded total !! k = Some day'
          /\ Accommodation.cost (accommodation day') = formatCurrency (c * (1 - ra))
          /\ (0 <= c -> c * (1 - (5 # 10)) <= c * (1 - ra)))
  /\ (forall ds' k day,
        optimizeTransportation ds savingsNeeded total = Ok ds' -> ds !! k = Some day ->
        exists tr day' tr',
          transportation day = Some tr /\ ds' !! k = Some day'
          /\ transportation day' = Some tr'
          /\ let c := parseCurrency (Transportation.cost tr) in
             Transportation.cost tr' = formatCurrency (c * (1 - rt))
             /\ (0 <= c -> c * (1 - (45 # 100)) <= c * (1 - rt)))
  /\ (forall k day, ds !! k = Some day ->
        NoDup (map Activity.name (activities day)) ->
        exists day',
          optimizeActivities ds savingsNeeded total !! k = Some day'
          /\ length (activities day') = length (activities day)
          /\ forall i a, activities day !! i = Some a ->
               exists top a',
                 dearest (activities day) top
                 /\ activities day' !! i = Some a'
                 /\ let c := parseCurrency (Activity.cost a) in
                    let rate := rv * (1 + (if Nat.eqb i top then 2 # 10 else 0)) in
                    Activity.cost a' = formatCurrency (c * (1 - rate))
                    /\ rate <= 48 # 100
                    /\ (i <> top -> rate <= 4 # 10)
                    /\ (0 <= c -> c * (1 - (48 # 100)) <= c * (1 - rate))
                    /\ (0 <= c -> i <> top -> c * (1 - (4 # 10)) <= c * (1 - rate)))
  /\ map (fun day => map Activity.cost (activities day))
       (optimizeActivities [Examples.toursDay] 60 150)
     = [["$30.00"%string; "$50.00"%string]].
Proof.
  intros _ ra rt rv.
  pose proof (OptimizerFacts.reductionPercentage_le_cap savingsNeeded total (5 # 10)) as Hra.
  pose proof (OptimizerFacts.reductionPercentage_le_cap savingsNeeded total (45 # 100)) as Hrt.
  pose proof (OptimizerFacts.reductionPercentage_le_cap savingsNeeded total (4 # 10)) as Hrv.
  fold ra in Hra. fold rt in Hrt. fold rv in Hrv.
  split; [auto |]. split; [| split; [| split]].
  - intros k day Hk c.
    eexists. split; [apply OptimizerFacts.optimizeAccommodation_lookup, Hk |].
    split; [reflexivity |]. intros Hc. apply OptimizerFacts.reduced_value_bound; assumption.
  - intros ds' k day Hok Hk.
    destruct (OptimizerFacts.optimizeTransportation_lookup ds ds' savingsNeeded total Hok k day Hk)
      as (tr & Htr & Hlook).
    exists tr. eexists. eexists. split; [exact Htr |]. split; [exact Hlook |].
    split; [reflexivity |]. cbv zeta. split; [reflexivity |].
    intros Hc. apply OptimizerFacts.reduced_value_bound; assumption.
  - intros k day Hk Hnd.
    exists (set_activities
              (reduceSorted rv 0 (sortedActivities (activities day)) (activities day)) day).
    split.
    { unfold optimizeActivities. cbv zeta. fold rv.
      change (map ?f ds) with (f <$> ds). rewrite list_lookup_fmap, Hk. reflexivity. }
    cbn [activities set_activities].
    split.
    { rewrite <- (length_map Activity.name), OptimizerFacts.reduceSorted_names.
      apply length_map. }
    intros i a Hi.
    destruct (OptimizerFacts.reduce_day_distinct rv (activities day) i a Hnd Hi)
      as (top & _ & Htop & Hlook).
    exists top, (reduced rv (Nat.eqb i top) a).
    split; [exact Htop |]. split; [exact Hlook |].
    destruct (OptimizerFacts.adjusted_bound rv (Nat.eqb i top) Hrv) as [H48 H40].
    unfold adjusted in H48, H40. cbv zeta.
    assert (Hother : i <> top ->
                     rv * (1 + (if Nat.eqb i top then 2 # 10 else 0)) <= 4 # 10).
    { intros Hi'. apply H40. apply Nat.eqb_neq, Hi'. }
    split; [reflexivity |]. split; [exact H48 |]. split; [exact Hother |].
    split.
    + intros Hc. apply OptimizerFacts.reduced_value_bound; assumption.
    + intros Hc Hi'. apply OptimizerFacts.reduced_value_bound; [assumption | apply Hother, Hi'].
  - vm_compute. reflexivity.
Qed.

Lemma reduction_rates_bounded_witness :
  exists day',
    optimizeAccommodation (days Examples.scenario) 40 240 !! O = Some day'
    /\ Accommodation.cost (accommodation day') = "$100.00"%string.
Proof.
  destruct (reduction_rates_bounded (days Examples.scenario) 40 240) as (_ & Hacc & _).
  - reflexivity.
  - destruct (Hacc O
                (Examples.day "2024-06-01" "$120.00" "$10.00"
                   [Examples.activity "Tram tour" "$25.00";
                    Examples.activity "Fado night" "$15.00"])
                eq_refl) as (day' & Hday' & Hcost & _).
    exists day'. split; [exact Hday' |]. rewrite Hcost. vm_compute. reflexivity.
Defined.

(** C2, as stated, fails for the dearest activity of a day: with the cap
    reached, a $100 activity is cut at the rate 0.48, to $52, below the
    $60 that a cap of 0.4 would leave. *)
Lemma activity_cap_exceeded :
  exists out day a,
    optimizeBudget Examples.oneActivity 40 = Ok out
    /\ days out = [day] /\ activities day = [a]
    /\ Activity.cost a = "$52.00"%string
    /\ reductionPercentage (100 - 40) 100 (4 # 10) == 4 # 10
    /\ adjusted (reductionPercentage (100 - 40) 100 (4 # 10)) true == 48 # 100
    /\ 100 * (1 - adjusted (reductionPercentage (100 - 40) 100 (4 # 10)) true)
       < 100 * (1 - (4 # 10)).
Proof.
  do 3 eexists. split; [vm_compute; reflexivity |].
  split; [reflexivity |]. split; [reflexivity |].
  split; [reflexivity |]. repeat split; vm_compute; reflexivity.
Qed.

(** C3.  An itinerary whose stated total is within the budget is returned
    as it is: same total, same days and costs, no alternative activities
    added. *)
Theorem optimizeBudget_within_budget (itinerary : Itinerary) (totalBudget : Q) :
  parseCurrency (totalCost itinerary) <= totalBudget ->
  optimizeBudget itinerary totalBudget = Ok itinerary.
Proof.
  intros Hle. unfold optimizeBudget, optimizeBudget_body. cbv zeta.
  apply Qle_bool_iff in Hle. rewrite Hle. reflexivity.
Qed.

Lemma optimizeBudget_within_budget_witness :
  optimizeBudget Examples.scenario 400 = Ok Examples.scenario.
Proof.
  apply (optimizeBudget_within_budget Examples.scenario 400).
  vm_compute. discriminate.
Defined.




(** C5.  optimizeBudget never throws: it always returns an itinerary, and
    when its try block fails it returns the itinerary it was given.  (For
    the itineraries of this model the try block fails exactly when the
    itinerary is over budget and a day has no transportation object.) *)
Theorem optimizeBudget_fail_safe (itinerary : Itinerary) (totalBudget : Q) :
  exists out,
    optimizeBudget itinerary totalBudget = Ok out
    /\ (forall e, optimizeBudget_body itinerary totalBudget = Throw e -> out = itinerary)
    /\ ((exists e, optimizeBudget_body itinerary totalBudget = Throw e)
        <-> totalBudget < parseCurrency (totalCost itinerary)
            /\ ~ complete (days itinerary)).
Proof.
  unfold optimizeBudget.
  destruct (optimizeBudget_body itinerary totalBudget) as [out | e] eqn:Hbody.
  - exists out. split; [reflexivity |]. split; [discriminate |].
    rewrite <- Hbody. apply OptimizerFacts.optimizeBudget_body_Throw.
  - exists itinerary. split; [reflexivity |]. split; [reflexivity |].
    rewrite <- Hbody. apply OptimizerFacts.optimizeBudget_body_Throw.
Qed.

Lemma optimizeBudget_fail_safe_witness :
  optimizeBudget Examples.noTransport 100 = Ok Examples.noTransport
  /\ exists e, optimizeBudget_body Examples.noTransport 100 = Throw e.
Proof.
  destruct (optimizeBudget_fail_safe Examples.noTransport 100) as (out & Hout & Hsame & _).
  split.
  - rewrite Hout. f_equal. eapply Hsame. vm_compute. reflexivity.
  - eexists. vm_compute. reflexivity.
Defined.

(** C6, as the code has it.  The flight, hotel and activity searches fail
    soft: whatever their helpers do, they return a list, and the empty list
    when anything inside throws (so the flight search returns the empty
    list for a date that does not parse).  getMapData does not: when
    geocoding, the nearby search or the travel times throw, it throws an
    Error of its own to its caller. *)
Theorem generators_failure_policy
    (Flight Hotel ActivityData LocationData Coordinates TravelTimes : Type)
    (newDate : string -> option Z)
    (isoString : Z -> string)
    (buildFlights :
       string -> string -> string -> string -> Z -> Q -> Z -> result (list Flight))
    (generateHotels :
       string -> string -> option Z -> Q -> string -> Z -> result (list Hotel))
    (generateActivities : string -> list string -> Q -> Z -> result (list ActivityData))
    (simulateGeocode : string -> result LocationData)
    (coordinates : LocationData -> Coordinates)
    (simulateNearbySearch : Coordinates -> string -> result (list LocationData))
    (calculateTravelTimes : LocationData -> list LocationData -> result TravelTimes)
    (destination date1 date2 accommodationType : string) (interests : list string)
    (count : Q) :
  let flights :=
    Generators.searchFlights Flight newDate isoString buildFlights
      destination date1 date2 count in
  let flights_body :=
    Generators.searchFlights_body Flight newDate isoString buildFlights
      destination date1 date2 count in
  let hotels :=
    Generators.searchHotels Hotel newDate generateHotels
      destination date1 date2 count accommodationType in
  let hotels_body :=
    Generators.searchHotels_body Hotel newDate generateHotels
      destination date1 date2 count accommodationType in
  let found :=
    Generators.findActivities ActivityData generateActivities destination interests count in
  let found_body :=
    Generators.findActivities_body ActivityData generateActivities
      destination interests count in
  let mapData :=
    Generators.getMapData LocationData Coordinates TravelTimes simulateGeocode coordinates
      simulateNearbySearch calculateTravelTimes destination in
  let mapData_body :=
    Generators.getMapData_body LocationData Coordinates TravelTimes simulateGeocode
      coordinates simulateNearbySearch calculateTravelTimes destination in
  (exists l, flights = Ok l /\ (forall e, flights_body = Throw e -> l = []))
  /\ (exists l, hotels = Ok l /\ (forall e, hotels_body = Throw e -> l = []))
  /\ (exists l, found = Ok l /\ (forall e, found_body = Throw e -> l = []))
  /\ (forall e,
        generateHotels (Generators.cityOf destination) (Generators.countryOf destination)
          (Generators.nightsBetween (newDate date1) (newDate date2)) count
          (Generators.toLowerCase accommodationType)
          (Generators.hashString
             (String.append destination
                (String.append "-" (String.append date1 (String.append "-" date2)))))
        = Throw e ->
        hotels = Ok [])
  /\ (forall e,
        generateActivities (Generators.cityOf destination) interests count
          (Generators.hashString destination) = Throw e ->
        found = Ok [])
  /\ (newDate date1 = None \/ newDate date2 = None -> flights = Ok [])
  /\ (forall e, mapData_body = Throw e ->
        mapData = Throw (Error "Failed to fetch map data for destination"))
  /\ (forall e, simulateGeocode destination = Throw e ->
        mapData = Throw (Error "Failed to fetch map data for destination"))
  /\ (forall v, mapData_body = Ok v -> mapData = Ok v).
Proof.
  intros flights flights_body hotels hotels_body found found_body mapData mapData_body.
  assert (Hsoft : forall (A : Type) (body : result (list A)),
            exists l, try_catch body (fun _ => mret []) = Ok l
                      /\ (forall e, body = Throw e -> l = [])).
  { intros A [l | e].
    - exists l. split; [reflexivity | discriminate].
    - exists []. split; reflexivity. }
  split; [apply Hsoft | split; [apply Hsoft | split; [apply Hsoft |]]].
  split; [| split; [| split; [| split; [| split]]]].
  - intros e He. unfold hotels, Generators.searchHotels, Generators.searchHotels_body.
    cbv zeta. rewrite He. reflexivity.
  - intros e He. unfold found, Generators.findActivities, Generators.findActivities_body.
    cbv zeta. rewrite He. reflexivity.
  - intros Hdate.
    unfold flights, Generators.searchFlights, Generators.searchFlights_body,
      Generators.generateFlights.
    cbv zeta.
    destruct (newDate date1) as [t1 |]; [| reflexivity].
    destruct Hdate as [Hdate | Hdate]; [discriminate Hdate |]. rewrite Hdate.
    unfold mbind, result_bind.
    match goal with
    | |- context [buildFlights ?a ?b ?c ?d ?e ?f ?g] =>
        destruct (buildFlights a b c d e f g)
    end; reflexivity.
  - intros e He. unfold mapData, Generators.getMapData. fold mapData_body.
    rewrite He. reflexivity.
  - intros e He. unfold mapData, Generators.getMapData, Generators.getMapData_body.
    rewrite He. reflexivity.
  - intros v Hv. unfold mapData, Generators.getMapData. fold mapData_body.
    rewrite Hv. reflexivity.
Qed.

Lemma generators_failure_policy_witness :
  Generators.searchFlights unit (fun _ => None) (fun _ => "2024-06-01T00:00:00.000Z"%string)
    (fun _ _ _ _ _ _ _ => Ok [tt]) "Paris, France" "next week" "2024-06-08" 2
  = Ok []
  /\ Generators.getMapData unit unit unit
       (fun _ => Throw (URIError "URI malformed"))
       (fun _ => tt) (fun _ _ => Ok []) (fun _ _ => Ok tt) "Paris, France"
     = Throw (Error "Failed to fetch map data for destination").
Proof.
  pose proof
    (generators_failure_policy unit unit unit unit unit unit
       (fun _ => None) (fun _ => "2024-06-01T00:00:00.000Z"%string)
       (fun _ _ _ _ _ _ _ => Ok [tt])
       (fun _ _ _ _ _ _ => Throw (RangeError "Invalid time value"))
       (fun _ _ _ _ => Ok [])
       (fun _ => Throw (URIError "URI malformed"))
       (fun _ => tt) (fun _ _ => Ok []) (fun _ _ => Ok tt)
       "Paris, France" "next week" "2024-06-08" "hotel" [] 2) as H.
  cbv zeta in H.
  destruct H as (_ & _ & _ & _ & _ & Hflights & _ & Hmap & _).
  split.
  - apply Hflights. left. reflexivity.
  - eapply Hmap. reflexivity.
Defined.

(** C6, as stated, fails for getMapData: with a geocoding step that
    throws (as its encodeURIComponent does on a malformed string), the
    call ends in an exception, where the hotel search with a generator
    that throws returns the empty list. *)
Lemma getMapData_propagates :
  Generators.getMapData unit unit unit
    (fun _ => Throw (URIError "URI malformed"))
    (fun _ => tt) (fun _ _ => Ok []) (fun _ _ => Ok tt) "Paris, France"
  = Throw (Error "Failed to fetch map data for destination")
  /\ Generators.searchHotels unit (fun _ => None)
       (fun _ _ _ _ _ _ => Throw (RangeError "Invalid time value"))
       "Paris, France" "2024-06-01" "2024-06-08" 2 "hotel"
     = Ok [].
Proof. split; reflexivity. Qed.

(** C7, as the code has it.  Two runs of the flight, hotel and activity
    searches and of the optimizer on the same arguments return the same
    result: they read no random source and no clock.  What they ask of the
    host is the parsing of the two date strings, the time of day and the
    ISO text of a date (flights) and Math.pow on the base 1.3 (hotels), so
    two hosts that answer these alike give the same result; trip durations
    and budgets need only be equal as numbers.  getMapData adds nothing of
    its own to what its three helpers return.  The weather generator is
    not deterministic: it draws six values from Math.random, and two runs
    on one (location, date) give the same forecast when their draws agree,
    and the same date and maximum temperature whatever the draws. *)
Theorem generators_two_runs :
  (forall (Math_sin : Z -> Q) (location : string) (date : Weather.JsDate)
          (g1 g2 : Weather.Draws),
     ((forall n, (n < 6)%nat -> g1 n = g2 n) ->
      fst (Weather.generateMockWeatherData Math_sin location date g1)
      = fst (Weather.generateMockWeatherData Math_sin location date g2))
     /\ Weather.date (fst (Weather.generateMockWeatherData Math_sin location date g1))
        = Weather.date (fst (Weather.generateMockWeatherData Math_sin location date g2))
     /\ Weather.temperature_max
          (fst (Weather.generateMockWeatherData Math_sin location date g1))
        = Weather.temperature_max
            (fst (Weather.generateMockWeatherData Math_sin location date g2)))
  /\ (forall (setHours : Z -> Z -> Z -> Z -> option Z) (isoString : Z -> string)
             (newDate1 newDate2 : string -> option Z)
             (destination departDate returnDate : string) (passengers : Q),
        newDate1 departDate = newDate2 departDate ->
        newDate1 returnDate = newDate2 returnDate ->
        Flights.searchFlights setHours isoString newDate1 destination departDate returnDate
          passengers
        = Flights.searchFlights setHours isoString newDate2 destination departDate returnDate
            passengers)
  /\ (forall (Math_pow1 Math_pow2 : Q -> Q -> Q) (newDate1 newDate2 : string -> option Z)
             (destination checkInDate checkOutDate : string) (guests : Q)
             (accommodationType : string),
        (forall y, Math_pow1 (13 # 10) y = Math_pow2 (13 # 10) y) ->
        newDate1 checkInDate = newDate2 checkInDate ->
        newDate1 checkOutDate = newDate2 checkOutDate ->
        Hotels.searchHotels Math_pow1 newDate1 destination checkInDate checkOutDate guests
          accommodationType
        = Hotels.searchHotels Math_pow2 newDate2 destination checkInDate checkOutDate guests
            accommodationType)
  /\ (forall (destination : string) (interests : list string) (tripDuration1 tripDuration2 : Q),
        tripDuration1 == tripDuration2 ->
        Activities.findActivities destination interests tripDuration1
        = Activities.findActivities destination interests tripDuration2)
  /\ (forall (LocationData Coordinates TravelTimes : Type)
             (simulateGeocode1 simulateGeocode2 : string -> result LocationData)
             (coordinates : LocationData -> Coordinates)
             (simulateNearbySearch1 simulateNearbySearch2 :
                Coordinates -> string -> result (list LocationData))
             (calculateTravelTimes1 calculateTravelTimes2 :
                LocationData -> list LocationData -> result TravelTimes)
             (destination : string),
        simulateGeocode1 destination = simulateGeocode2 destination ->
        (forall place,
           simulateNearbySearch1 place destination = simulateNearbySearch2 place destination) ->
        (forall main places,
           calculateTravelTimes1 main places = calculateTravelTimes2 main places) ->
        Generators.getMapData LocationData Coordinates TravelTimes simulateGeocode1
          coordinates simulateNearbySearch1 calculateTravelTimes1 destination
        = Generators.getMapData LocationData Coordinates TravelTimes simulateGeocode2
            coordinates simulateNearbySearch2 calculateTravelTimes2 destination)
  /\ (forall itinerary budget1 budget2,
        budget1 == budget2 ->
        optimizeBudget itinerary budget1 = optimizeBudget itinerary budget2).
Proof.
  split; [| split; [| split; [| split; [| split]]]].
  - intros Math_sin location date g1 g2.
    split; [| split; reflexivity].
    intros H.
    unfold Weather.generateMockWeatherData, mbind, mret, Weather.rand_bind, Weather.rand_ret,
      Weather.Math_random.
    cbn [fst].
    rewrite <- (H 0%nat), <- (H 1%nat), <- (H 2%nat), <- (H 3%nat), <- (H 4%nat), <- (H 5%nat)
      by lia.
    reflexivity.
  - intros setHours isoString newDate1 newDate2 destination departDate returnDate passengers
      H1 H2.
    unfold Flights.searchFlights, Generators.searchFlights, Generators.searchFlights_body.
    cbv zeta. rewrite H1, H2. reflexivity.
  - intros Math_pow1 Math_pow2 newDate1 newDate2 destination checkInDate checkOutDate guests
      accommodationType Hpow H1 H2.
    unfold Hotels.searchHotels, Generators.searchHotels, Generators.searchHotels_body,
      Hotels.generateHotels.
    cbv zeta. rewrite H1, H2. do 3 f_equal.
    apply map_ext. intros i. unfold Hotels.hotelAt, Hotels.getBasePrice.
    rewrite Hpow. reflexivity.
  - intros destination interests t1 t2 E.
    unfold Activities.findActivities, Generators.findActivities,
      Generators.findActivities_body.
    cbv zeta. rewrite (GeneratorsFacts.generateActivities_Qeq _ _ t1 t2 _ E). reflexivity.
  - intros LocationData Coordinates TravelTimes simulateGeocode1 simulateGeocode2 coordinates
      simulateNearbySearch1 simulateNearbySearch2 calculateTravelTimes1 calculateTravelTimes2
      destination Hgeo Hnear Htimes.
    unfold Generators.getMapData, Generators.getMapData_body. rewrite Hgeo.
    destruct (simulateGeocode2 destination) as [main | e]; [| reflexivity].
    unfold mbind, result_bind, JS.bind. rewrite Hnear.
    destruct (simulateNearbySearch2 (coordinates main) destination) as [places | e];
      [| reflexivity].
    rewrite Htimes. reflexivity.
  - intros itinerary budget1 budget2. apply OptimizerFacts.optimizeBudget_Qeq.
Qed.

Lemma generators_two_runs_witness :
  fst (Weather.generateMockWeatherData Examples.sine "Rome" Examples.june15 Examples.draws04)
  = fst (Weather.generateMockWeatherData Examples.sine "Rome" Examples.june15
           Examples.draws04_then_0).
Proof.
  destruct generators_two_runs as (Hweather & _).
  apply (Hweather Examples.sine "Rome"%string Examples.june15 Examples.draws04
           Examples.draws04_then_0).
  intros n Hn. do 6 (destruct n as [| n]; [reflexivity |]). lia.
Defined.

(** C7, as stated, fails for the weather generator: two runs for Rome on
    15 June, one with draws of 0.4 and one with draws of 0.9, give chances
    of precipitation of 70 and 95. *)
Lemma weather_runs_differ :
  Weather.precipitation_chance
    (fst (Weather.generateMockWeatherData Examples.sine "Rome" Examples.june15 Examples.draws04))
  = 70%Z
  /\ Weather.precipitation_chance
       (fst (Weather.generateMockWeatherData Examples.sine "Rome" Examples.june15 Examples.draws09))
     = 95%Z.
Proof. split; vm_compute; reflexivity. Qed.

(** C8.  For a non-negative amount, formatCurrency writes a dollar sign,
    the whole dollars in decimal digits with a comma before every group of
    three digits counted from the right, a point and exactly two digits,
    which together denote the amount rounded to two decimal places (a
    whole number of cents within half a cent of the amount); parseCurrency
    reads that rounded amount back. *)
Theorem currency_round_trip (x : Q) :
  0 <= x ->
  parseCurrency (formatCurrency x) == round2 x
  /\ (exists k : Z, round2 x == inject_Z k / 100)
  /\ Qabs (round2 x - x) <= 1 # 200
  /\ exists whole d1 d2,
       formatCurrency x = Chars.to_string ("$"%char :: whole ++ "."%char :: [d1; d2])
       /\ grouped whole
       /\ List.filter not_comma whole
          = Chars.chars_of_uint (N.to_uint (Z.to_N (Qfloor (round2 x))))
       /\ Chars.is_digit d1 = true /\ Chars.is_digit d2 = true
       /\ round2 x
          == inject_Z (Qfloor (round2 x))
             + inject_Z (10 * digit_value d1 + digit_value d2) / 100.
Proof.
  intros Hx. split; [apply CurrencyFacts.parseCurrency_formatCurrency |].
  split; [apply CurrencyFacts.round2_cents |].
  split; [apply CurrencyFacts.round2_near |].
  apply CurrencyFacts.formatCurrency_shape, Hx.
Qed.

Lemma currency_round_trip_witness :
  parseCurrency (formatCurrency (12345 # 10)) == round2 (12345 # 10)
  /\ (exists k : Z, round2 (12345 # 10) == inject_Z k / 100)
  /\ Qabs (round2 (12345 # 10) - (12345 # 10)) <= 1 # 200
  /\ exists whole d1 d2,
       formatCurrency (12345 # 10)
       = Chars.to_string ("$"%char :: whole ++ "."%char :: [d1; d2])
       /\ grouped whole
       /\ List.filter not_comma whole
          = Chars.chars_of_uint (N.to_uint (Z.to_N (Qfloor (round2 (12345 # 10)))))
       /\ Chars.is_digit d1 = true /\ Chars.is_digit d2 = true
       /\ round2 (12345 # 10)
          == inject_Z (Qfloor (round2 (12345 # 10)))
             + inject_Z (10 * digit_value d1 + digit_value d2) / 100.
Proof.
  apply (currency_round_trip (12345 # 10)). vm_compute. discriminate.
Defined.

(** The amounts the specification lists for the round trip, and the
    rendering with separators and two decimals. *)
Example currency_round_trip_samples :
  formatCurrency (12345 # 10) = "$1,234.50"%string
  /\ parseCurrency (formatCurrency 0) == 0
  /\ parseCurrency (formatCurrency (1 # 100)) == 1 # 100
  /\ parseCurrency (formatCurrency (12345 # 10)) == 12345 # 10
  /\ parseCurrency (formatCurrency (99999999 # 100)) == 99999999 # 100.
Proof. repeat split; vm_compute; reflexivity. Qed.

(** C9, as the code has it.  The bands are strict: a chance above 70 is
    rainy (snowy when the maximum temperature is below 2), above 40 and up
    to 70 cloudy, above 20 and up to 40 partly cloudy, up to 20 sunny.  A
    chance of exactly 70 is cloudy. *)
Theorem rain_threshold_strict
    (Math_sin : Z -> Q) (location : string) (date : Weather.JsDate) (g : Weather.Draws) :
  let f := fst (Weather.generateMockWeatherData Math_sin location date g) in
  let chance := Weather.precipitation_chance f in
  (chance = 70%Z -> Weather.condition f = Weather.cloudy)
  /\ (Weather.condition f = Weather.rainy
      <-> (70 < chance)%Z /\ (2 <= Weather.temperature_max f)%Z)
  /\ (Weather.condition f = Weather.snowy
      <-> (70 < chance)%Z /\ (Weather.temperature_max f < 2)%Z)
  /\ (Weather.condition f = Weather.cloudy <-> (40 < chance <= 70)%Z)
  /\ (Weather.condition f = Weather.partly_cloudy <-> (20 < chance <= 40)%Z)
  /\ (Weather.condition f = Weather.sunny <-> (chance <= 20)%Z)
  /\ Weather.condition f <> Weather.stormy.
Proof.
  intros f chance.
  assert (Hcond : Weather.condition f
                  = Weather.classify chance (Weather.temperature_max f)) by reflexivity.
  rewrite Hcond. clear Hcond. generalize (Weather.temperature_max f) as maxTemp.
  generalize chance as c. clear. intros c maxTemp. unfold Weather.classify. cbv zeta.
  destruct (Z.gtb_spec c 70); [destruct (Z.ltb_spec maxTemp 2) |
    destruct (Z.gtb_spec c 40); [| destruct (Z.gtb_spec c 20)]];
    repeat match goal with
           | |- _ /\ _ => split
           | |- _ <-> _ => split
           | |- _ -> _ => intro
           | |- _ <> _ => intro
           | H : _ /\ _ |- _ => destruct H
           end;
    try discriminate; try reflexivity; lia.
Qed.

Lemma rain_threshold_strict_witness :
  Weather.condition
    (fst (Weather.generateMockWeatherData Examples.sine "Rome" Examples.june15 Examples.draws04))
  = Weather.cloudy.
Proof.
  pose proof (rain_threshold_strict Examples.sine "Rome" Examples.june15 Examples.draws04)
    as H.
  cbv zeta in H. destruct H as [H _]. apply H. vm_compute. reflexivity.
Defined.

(** C9, as stated, fails: for Rome on 15 June with draws of 0.4 the chance
    of precipitation is exactly 70 and the condition is cloudy. *)
Lemma chance_70_is_cloudy :
  Weather.precipitation_chance
    (fst (Weather.generateMockWeatherData Examples.sine "Rome" Examples.june15 Examples.draws04))
  = 70%Z
  /\ Weather.condition
       (fst (Weather.generateMockWeatherData Examples.sine "Rome" Examples.june15 Examples.draws04))
     = Weather.cloudy.
Proof. split; vm_compute; reflexivity. Qed.

(** C10.  For a day whose activities have pairwise distinct names, the
    activities pass rewrites the cost of every activity to
    formatCurrency(oldCost * (1 - rate)), where rate is the reduction
    percentage times 1.2 for the day's dearest activity (the first of the
    largest cost) and the reduction percentage itself for the others;
    nothing else of the day changes.  The hypothesis is needed: of two
    activities of one name, the second is never rewritten. *)
Theorem activities_reduction_distinct_names
    (ds : list Day) (savingsNeeded total : Q) (k : nat) (day : Day) :
  ds !! k = Some day ->
  NoDup (map Activity.name (activities day)) ->
  let r := reductionPercentage savingsNeeded total (4 # 10) in
  (exists acts',
     optimizeActivities ds savingsNeeded total !! k = Some (set_activities acts' day)
     /\ map Activity.name acts' = map Activity.name (activities day)
     /\ forall i a, activities day !! i = Some a ->
          exists top,
            head (sortedActivities (activities day)) = Some top
            /\ dearest (activities day) top
            /\ acts' !! i
               = Some (Activity.set_cost
                         (formatCurrency
                            (parseCurrency (Activity.cost a)
                             * (1 - r * (1 + (if Nat.eqb i top then 2 # 10 else 0)))))
                         a))
  /\ reduceSorted (4 # 10) 0 (sortedActivities Examples.twins) Examples.twins
     = [Examples.activity "City tour" "$46.80"; Examples.activity "City tour" "$150.00"].
Proof.
  intros Hk Hnd r. split; [| vm_compute; reflexivity].
  exists (reduceSorted r 0 (sortedActivities (activities day)) (activities day)).
  split.
  { unfold optimizeActivities. cbv zeta. fold r.
    change (map ?f ds) with (f <$> ds). rewrite list_lookup_fmap, Hk. reflexivity. }
  split; [apply OptimizerFacts.reduceSorted_names |].
  intros i a Hi.
  destruct (OptimizerFacts.reduce_day_distinct r (activities day) i a Hnd Hi)
    as (top & Hhead & Htop & Hlook).
  exists top. split; [exact Hhead |]. split; [exact Htop |]. exact Hlook.
Qed.

Lemma activities_reduction_distinct_names_witness :
  exists acts',
    optimizeActivities (days Examples.scenario) 40 80 !! O
    = Some (set_activities acts'
              (Examples.day "2024-06-01" "$120.00" "$10.00"
                 [Examples.activity "Tram tour" "$25.00";
                  Examples.activity "Fado night" "$15.00"]))
    /\ map Activity.cost acts' = ["$13.00"%string; "$9.00"%string].
Proof.
  destruct (activities_reduction_distinct_names (days Examples.scenario) 40 80 O
              (Examples.day "2024-06-01" "$120.00" "$10.00"
                 [Examples.activity "Tram tour" "$25.00";
                  Examples.activity "Fado night" "$15.00"]) eq_refl)
    as [(acts' & Hlook & _ & _) _].
  - cbn. repeat constructor; rewrite ?list_elem_of_In; cbn; intuition discriminate.
  - exists acts'. split; [exact Hlook |].
    assert (E : Some (set_activities acts'
                        (Examples.day "2024-06-01" "$120.00" "$10.00"
                           [Examples.activity "Tram tour" "$25.00";
                            Examples.activity "Fado night" "$15.00"]))
                = optimizeActivities (days Examples.scenario) 40 80 !! O)
      by (symmetry; exact Hlook).
    vm_compute in E. injection E as ->. reflexivity.
Defined.

(* ------------------------------------------------------------------ *)
(** ** Facts about the totals and the savings of the optimizer *)

Module BudgetFacts.
Import CurrencyShapes.
Import OptimizerNotions.
Import BudgetNotions.

Lemma Qsum_app (l1 l2 : list Q) : Qsum (l1 ++ l2) == Qsum l1 + Qsum l2.
Proof.
  induction l1 as [| x l1 IH]; simpl.
  - ring.
  - rewrite IH. ring.
Qed.

Lemma sumActivities_Qsum (acts : list Activity.t) :
  forall start, sumActivities acts start == start + Qsum (activityCosts acts).
Proof.
  unfold sumActivities.
  induction acts as [| a acts IH]; intro start; simpl.
  - ring.
  - rewrite IH. ring.
Qed.

(** The two loops over the days read the same fields: they end together,
    and the total is the sum of the three category totals. *)
Lemma loops_agree (ds : list Day) :
  forall (b0 : Breakdown) (t0 : Q),
    t0 == accommodationTotal b0 + activitiesTotal b0 + transportationTotal b0 ->
    match
      forEach
        (fun b day =>
           let accommodationTotal' :=
             accommodationTotal b + parseCurrency (Accommodation.cost (accommodation day)) in
           tr ← transportation_of day;
           let transportationTotal' :=
             transportationTotal b + parseCurrency (Transportation.cost tr) in
           Ok (mkBreakdown accommodationTotal'
                 (sumActivities (activities day) (activitiesTotal b))
                 transportationTotal'))
        ds b0,
      forEach
        (fun total day =>
           let total1 := total + parseCurrency (Accommodation.cost (accommodation day)) in
           tr ← transportation_of day;
           let total2 := total1 + parseCurrency (Transportation.cost tr) in
           Ok (sumActivities (activities day) total2))
        ds t0
    with
    | Ok b, Ok total =>
        total == accommodationTotal b + activitiesTotal b + transportationTotal b
    | Throw e1, Throw e2 => e1 = e2
    | _, _ => False
    end.
Proof.
  induction ds as [| day ds IH]; intros b0 t0 H0; simpl.
  - exact H0.
  - unfold transportation_of. destruct (transportation day) as [tr |]; unfold_bind.
    + apply IH. simpl. rewrite !sumActivities_Qsum, H0. ring.
    + reflexivity.
Qed.

(** The category totals of analyzeBudgetAllocation as sums. *)
Lemma analyze_loop (ds : list Day) :
  forall b0 b : Breakdown,
    forEach
      (fun b day =>
         let accommodationTotal' :=
           accommodationTotal b + parseCurrency (Accommodation.cost (accommodation day)) in
         tr ← transportation_of day;
         let transportationTotal' :=
           transportationTotal b + parseCurrency (Transportation.cost tr) in
         Ok (mkBreakdown accommodationTotal'
               (sumActivities (activities day) (activitiesTotal b))
               transportationTotal'))
      ds b0 = Ok b ->
    complete ds
    /\ accommodationTotal b == accommodationTotal b0 + Qsum (accommodationCosts ds)
    /\ activitiesTotal b == activitiesTotal b0 + Qsum (activitiesCosts ds)
    /\ transportationTotal b == transportationTotal b0 + Qsum (transportationCosts ds).
Proof.
  induction ds as [| day ds IH]; intros b0 b; simpl.
  - intros [= <-]. split; [constructor |]. repeat split; ring.
  - unfold transportation_of. destruct (transportation day) as [tr |] eqn:Htr;
      unfold_bind; [| discriminate].
    intro Hb. destruct (IH _ _ Hb) as (Hc & Ha & Hv & Ht).
    split; [constructor; [rewrite Htr; eexists; reflexivity | exact Hc] |].
    simpl in Ha, Hv, Ht.
    unfold activitiesCosts, transportationCosts, transportationCost. simpl.
    rewrite Htr. fold (activitiesCosts ds). fold transportationCost.
    fold (transportationCosts ds).
    repeat split.
    + rewrite Ha. ring.
    + rewrite Hv, Qsum_app, sumActivities_Qsum. ring.
    + rewrite Ht. ring.
Qed.

Lemma analyzeBudgetAllocation_sums (it : Itinerary) (b : Breakdown) :
  analyzeBudgetAllocation it = Ok b ->
  complete (days it)
  /\ accommodationTotal b == Qsum (accommodationCosts (days it))
  /\ activitiesTotal b == Qsum (activitiesCosts (days it))
  /\ transportationTotal b == Qsum (transportationCosts (days it)).
Proof.
  intro Hb. destruct (analyze_loop _ _ _ Hb) as (Hc & Ha & Hv & Ht).
  simpl in Ha, Hv, Ht. split; [exact Hc |].
  repeat split; [rewrite Ha | rewrite Hv | rewrite Ht]; ring.
Qed.

Lemma calculateTotalCost_sums (ds : list Day) (total : Q) :
  calculateTotalCost ds = Ok total ->
  total == Qsum (accommodationCosts ds) + Qsum (activitiesCosts ds)
           + Qsum (transportationCosts ds).
Proof.
  intro Ht.
  pose proof (loops_agree ds (mkBreakdown 0 0 0) 0) as H.
  unfold calculateTotalCost in Ht. cbv zeta in H, Ht. rewrite Ht in H.
  match type of H with
  | _ -> match ?m with _ => _ end => destruct m as [b | e] eqn:Hb
  end.
  - destruct (analyze_loop _ _ _ Hb) as (_ & Ha & Hv & Hr). simpl in Ha, Hv, Hr.
    rewrite H by (simpl; ring). rewrite Ha, Hv, Hr. ring.
  - exfalso. apply H. simpl. ring.
Qed.




Lemma Qsum_nonneg (l : list Q) : Forall (fun c => 0 <= c) l -> 0 <= Qsum l.
Proof.
  induction 1 as [| c l Hc _ IH].
  - cbn. lra.
  - change (Qsum (c :: l)) with (c + Qsum l). lra.
Qed.

Lemma reductionPercentage_nonneg (s t cap : Q) :
  0 < s -> 0 <= t -> 0 <= cap -> 0 <= reductionPercentage s t cap.
Proof.
  intros Hs Ht Hc. unfold reductionPercentage.
  destruct (Qeq_bool t 0) eqn:E; [exact Hc |].
  apply Qeq_bool_neq in E.
  assert (0 < t) by (apply Qle_lteq in Ht as [Ht | Ht]; [exact Ht | symmetry in Ht; tauto]).
  apply Q.min_glb; [| exact Hc].
  apply Qle_shift_div_l; [assumption | lra].
Qed.






Lemma accommodationCosts_map (ds ds' : list Day) :
  map accommodation ds' = map accommodation ds ->
  accommodationCosts ds' = accommodationCosts ds.
Proof.
  intro E. unfold accommodationCosts.
  rewrite <- (map_map accommodation (fun a => parseCurrency (Accommodation.cost a)) ds').
  rewrite E. apply map_map.
Qed.

Lemma transportationCosts_map (ds ds' : list Day) :
  map transportation ds' = map transportation ds ->
  transportationCosts ds' = transportationCosts ds.
Proof.
  intro E. unfold transportationCosts, transportationCost.
  rewrite <- (map_map transportation
                (fun t => match t with
                          | Some tr => parseCurrency (Transportation.cost tr)
                          | None => 0
                          end) ds').
  rewrite E. apply map_map.
Qed.

Lemma activitiesCosts_map (ds ds' : list Day) :
  map activities ds' = map activities ds ->
  activitiesCosts ds' = activitiesCosts ds.
Proof.
  intro E. unfold activitiesCosts.
  rewrite <- (map_map activities activityCosts ds').
  rewrite E. rewrite map_map. reflexivity.
Qed.


Lemma nonneg_costs (ds : list Day) :
  Forall nonnegDay ds ->
  Forall (fun c => 0 <= c) (accommodationCosts ds)
  /\ Forall (fun c => 0 <= c) (activitiesCosts ds)
  /\ Forall (fun c => 0 <= c) (transportationCosts ds).
Proof.
  unfold accommodationCosts, activitiesCosts, transportationCosts.
  induction 1 as [| day ds (Ha & Ht & Hv) _ (IHa & IHv & IHt)]; simpl.
  - repeat split; constructor.
  - repeat split; [constructor; assumption | | constructor; assumption].
    apply Forall_app. split; assumption.
Qed.


(** A non-negative whole-cent cost cut at a non-negative rate is not
    raised by the rounding. *)
Lemma round2_cut_le (c rate : Q) :
  wholeCents c -> 0 <= c -> 0 <= rate -> round2 (c * (1 - rate)) <= c.
Proof.
  intros [k Hk] Hc Hr.
  assert (Hx : c * (1 - rate) <= c).
  { pose proof (Qmult_le_0_compat _ _ Hc Hr). lra. }
  set (x := c * (1 - rate)) in *. unfold round2.
  destruct (Qlt_le_dec x 0) as [Hneg | Hpos].
  - assert (0 <= Qfloor (- x * 100 + (1 # 2)))%Z.
    { change 0%Z with (Qfloor 0). apply Qfloor_resp_le. lra. }
    assert (0 <= inject_Z (Qfloor (- x * 100 + (1 # 2))))
      by (change 0 with (inject_Z 0); rewrite <- Zle_Qle; assumption).
    unfold Qdiv. change (/ 100) with (1 # 100). lra.
  - assert (Qfloor (x * 100 + (1 # 2)) <= k)%Z.
    { rewrite <- (CurrencyFacts.Qfloor_plus_half k). apply Qfloor_resp_le.
      rewrite Hk in Hx. unfold Qdiv in Hx. change (/ 100) with (1 # 100) in Hx. lra. }
    assert (inject_Z (Qfloor (x * 100 + (1 # 2))) <= inject_Z k)
      by (rewrite <- Zle_Qle; assumption).
    rewrite Hk. unfold Qdiv. change (/ 100) with (1 # 100). lra.
Qed.

Lemma accommodation_pass_le (ds : list Day) (s t : Q) :
  0 <= reductionPercentage s t (5 # 10) ->
  Forall centsDay ds -> Forall nonnegDay ds ->
  Forall2 (fun c c' => c' <= c)
    (accommodationCosts ds) (accommodationCosts (optimizeAccommodation ds s t)).
Proof.
  intros Hr Hc Hp. unfold accommodationCosts, optimizeAccommodation.
  induction ds as [| day ds IH]; simpl; [constructor |].
  apply Forall_cons in Hc as [(Hc1 & _ & _) Hc]. apply Forall_cons in Hp as [(Hp1 & _ & _) Hp].
  constructor; [| apply IH; assumption].
  rewrite CurrencyFacts.parseCurrency_formatCurrency.
  apply round2_cut_le; assumption.
Qed.

Lemma transportation_pass_le (ds ds' : list Day) (s t : Q) :
  0 <= reductionPercentage s t (45 # 100) ->
  Forall centsDay ds -> Forall nonnegDay ds ->
  optimizeTransportation ds s t = Ok ds' ->
  Forall2 (fun c c' => c' <= c) (transportationCosts ds) (transportationCosts ds').
Proof.
  intros Hr Hc Hp. unfold optimizeTransportation. revert ds'.
  induction ds as [| day ds IH]; intros ds'; simpl.
  - intros [= <-]. constructor.
  - apply Forall_cons in Hc as [(_ & Hc1 & _) Hc].
    apply Forall_cons in Hp as [(_ & Hp1 & _) Hp].
    unfold transportation_of at 1. destruct (transportation day) as [tr |] eqn:Htr;
      unfold_bind; [| discriminate].
    match goal with
    | |- context [mapM ?f ds] => destruct (mapM f ds) as [rest | e] eqn:Hrest
    end; [| discriminate].
    intros [= <-]. simpl. constructor; [| apply IH; [assumption .. | reflexivity]].
    unfold transportationCost in *. rewrite Htr in *. simpl.
    rewrite CurrencyFacts.parseCurrency_formatCurrency.
    apply round2_cut_le; [apply Hc1; reflexivity | assumption ..].
Qed.

Lemma activities_day_pass_le (r : Q) (acts : list Activity.t) :
  0 <= r ->
  NoDup (map Activity.name acts) ->
  centsActivities acts ->
  Forall (fun c => 0 <= c) (activityCosts acts) ->
  Forall2 (fun c c' => c' <= c)
    (activityCosts acts)
    (activityCosts (reduceSorted r 0 (sortedActivities acts) acts)).
Proof.
  intros Hr Hnd Hcents Hpos. apply Forall2_same_length_lookup. split.
  - unfold activityCosts. rewrite !length_map.
    pose proof (OptimizerFacts.reduceSorted_names r (sortedActivities acts) 0%nat acts) as E.
    apply (f_equal length) in E. rewrite !length_map in E. symmetry. exact E.
  - intros i c c' Hc Hc'. unfold activityCosts in Hc, Hc'.
    change (map ?f ?l) with (f <$> l) in Hc, Hc'.
    rewrite list_lookup_fmap in Hc, Hc'.
    destruct (acts !! i) as [a |] eqn:Ha; [| discriminate].
    injection Hc as <-.
    destruct (OptimizerFacts.reduce_day_distinct r acts i a Hnd Ha)
      as (top & _ & _ & Hlook).
    rewrite Hlook in Hc'. injection Hc' as <-.
    assert (Hca : 0 <= parseCurrency (Activity.cost a)).
    { rewrite Forall_forall in Hpos. apply Hpos. unfold activityCosts.
      apply list_elem_of_In.
      apply (in_map (fun a => parseCurrency (Activity.cost a))).
      apply list_elem_of_In. eapply list_elem_of_lookup_2, Ha. }
    assert (Hcc : wholeCents (parseCurrency (Activity.cost a))).
    { unfold centsActivities in Hcents. rewrite Forall_forall in Hcents.
      apply Hcents. eapply list_elem_of_lookup_2, Ha. }
    unfold reduced, Activity.set_cost. cbn [Activity.cost].
    rewrite CurrencyFacts.parseCurrency_formatCurrency.
    apply round2_cut_le; [assumption .. |].
    unfold adjusted. destruct (Nat.eqb i top).
    + apply Qmult_le_0_compat; lra.
    + apply Qmult_le_0_compat; lra.
Qed.

Lemma activities_pass_le (ds : list Day) (s t : Q) :
  0 <= reductionPercentage s t (4 # 10) ->
  Forall distinctNames ds -> Forall centsDay ds -> Forall nonnegDay ds ->
  Forall2 (fun c c' => c' <= c)
    (activitiesCosts ds) (activitiesCosts (optimizeActivities ds s t)).
Proof.
  intros Hr Hnd Hc Hpos. unfold activitiesCosts, optimizeActivities.
  induction ds as [| day ds IH]; simpl; [constructor |].
  apply Forall_cons in Hnd as [Hd Hnd]. apply Forall_cons in Hpos as [(_ & _ & Hp) Hpos].
  apply Forall_cons in Hc as [(_ & _ & Hc1) Hc].
  apply Forall2_app; [| apply IH; assumption].
  apply activities_day_pass_le; assumption.
Qed.

Lemma Forall2_le_refl (l : list Q) : Forall2 (fun c c' => c' <= c) l l.
Proof. induction l; constructor; [apply Qle_refl | assumption]. Qed.

Lemma Qsum_le (l l' : list Q) :
  Forall2 (fun c c' => c' <= c) l l' -> Qsum l' <= Qsum l.
Proof.
  induction 1 as [| c c' l l' H _ IH].
  - apply Qle_refl.
  - change (Qsum (c :: l)) with (c + Qsum l). change (Qsum (c' :: l')) with (c' + Qsum l').
    lra.
Qed.

(** With costs that are non-negative whole numbers of cents and activities
    of distinct names, the reducer of the dominant category raises no
    cost. *)
Lemma reduceDominant_le (ds ds1 : list Day) (s : Q) (b : Breakdown) :
  0 < s -> Forall centsDay ds -> Forall nonnegDay ds -> Forall distinctNames ds ->
  accommodationTotal b == Qsum (accommodationCosts ds) ->
  activitiesTotal b == Qsum (activitiesCosts ds) ->
  transportationTotal b == Qsum (transportationCosts ds) ->
  reduceDominant ds s b = Ok ds1 ->
  Forall2 (fun c c' => c' <= c) (accommodationCosts ds) (accommodationCosts ds1)
  /\ Forall2 (fun c c' => c' <= c) (activitiesCosts ds) (activitiesCosts ds1)
  /\ Forall2 (fun c c' => c' <= c) (transportationCosts ds) (transportationCosts ds1).
Proof.
  intros Hs Hc Hpos Hnd HA HV HT Hred.
  destruct (nonneg_costs ds Hpos) as (NA & NV & NT).
  assert (PA : 0 <= accommodationTotal b) by (rewrite HA; apply Qsum_nonneg, NA).
  assert (PT : 0 <= transportationTotal b) by (rewrite HT; apply Qsum_nonneg, NT).
  assert (PV : 0 <= activitiesTotal b) by (rewrite HV; apply Qsum_nonneg, NV).
  unfold reduceDominant in Hred.
  destruct (Qgt_bool (accommodationTotal b) (activitiesTotal b)
            && Qgt_bool (accommodationTotal b) (transportationTotal b)).
  - injection Hred as <-.
    destruct (OptimizerFacts.optimizeAccommodation_frame ds s (accommodationTotal b))
      as [Fv Ft].
    rewrite (activitiesCosts_map _ _ Fv), (transportationCosts_map _ _ Ft).
    split; [| split; apply Forall2_le_refl].
    apply accommodation_pass_le; [| assumption ..].
    apply reductionPercentage_nonneg; [assumption .. | lra].
  - destruct (Qgt_bool (activitiesTotal b) (transportationTotal b)).
    + injection Hred as <-.
      destruct (OptimizerFacts.optimizeActivities_frame ds s (activitiesTotal b))
        as [Fa Ft].
      rewrite (accommodationCosts_map _ _ Fa), (transportationCosts_map _ _ Ft).
      split; [apply Forall2_le_refl | split; [| apply Forall2_le_refl]].
      apply activities_pass_le; [| assumption ..].
      apply reductionPercentage_nonneg; [assumption .. | lra].
    + destruct (OptimizerFacts.optimizeTransportation_frame _ _ _ _ Hred) as [Fa Fv].
      rewrite (accommodationCosts_map _ _ Fa), (activitiesCosts_map _ _ Fv).
      split; [apply Forall2_le_refl | split; [apply Forall2_le_refl |]].
      eapply transportation_pass_le; [| eassumption ..].
      apply reductionPercentage_nonneg; [assumption .. | lra].
Qed.

Lemma addBudgetAlternatives_costs (ds : list Day) :
  accommodationCosts (addBudgetAlternatives ds) = accommodationCosts ds
  /\ activitiesCosts (addBudgetAlternatives ds) = activitiesCosts ds
  /\ transportationCosts (addBudgetAlternatives ds) = transportationCosts ds.
Proof.
  unfold addBudgetAlternatives.
  repeat split;
    [apply accommodationCosts_map | apply activitiesCosts_map | apply transportationCosts_map];
    rewrite map_map; reflexivity.
Qed.

(** The over-budget path of optimizeBudget, with the totals as sums. *)
Lemma optimizeBudget_over (it : Itinerary) (totalBudget : Q) :
  totalBudget < parseCurrency (totalCost it) -> complete (days it) ->
  exists b ds1 total,
    analyzeBudgetAllocation it = Ok b
    /\ accommodationTotal b == Qsum (accommodationCosts (days it))
    /\ activitiesTotal b == Qsum (activitiesCosts (days it))
    /\ transportationTotal b == Qsum (transportationCosts (days it))
    /\ reduceDominant (days it) (parseCurrency (totalCost it) - totalBudget) b = Ok ds1
    /\ calculateTotalCost ds1 = Ok total
    /\ total == sumOfCosts ds1
    /\ optimizeBudget it totalBudget
       = Ok (set_days (addBudgetAlternatives ds1) (set_totalCost (formatCurrency total) it)).
Proof.
  intros Hover Hc.
  destruct (OptimizerFacts.optimizeBudget_body_over it totalBudget Hover Hc)
    as (b & ds1 & total & Hb & Hred & _ & Htot & Hbody).
  destruct (analyzeBudgetAllocation_sums it b Hb) as (_ & HA & HV & HT).
  exists b, ds1, total. repeat split; try assumption.
  - apply calculateTotalCost_sums, Htot.
  - unfold optimizeBudget. rewrite Hbody. reflexivity.
Qed.


Lemma optimizeTransportation_dates (ds ds' : list Day) (s t : Q) :
  optimizeTransportation ds s t = Ok ds' -> map date ds' = map date ds.
Proof.
  unfold optimizeTransportation. revert ds'.
  induction ds as [| day ds IH]; intros ds'; simpl.
  - intros [= <-]. reflexivity.
  - unfold transportation_of at 1. destruct (transportation day) as [tr |];
      unfold_bind; [| discriminate].
    match goal with
    | |- context [mapM ?f ds] => destruct (mapM f ds) as [rest | e] eqn:Hrest
    end; [| discriminate].
    intros [= <-]. simpl. f_equal. apply IH. reflexivity.
Qed.

Lemma reduceDominant_dates (ds ds1 : list Day) (s : Q) (b : Breakdown) :
  reduceDominant ds s b = Ok ds1 -> map date ds1 = map date ds.
Proof.
  unfold reduceDominant.
  destruct (_ && _); [| destruct (Qgt_bool _ _)].
  - intros [= <-]. unfold optimizeAccommodation. rewrite map_map. reflexivity.
  - intros [= <-]. unfold optimizeActivities. rewrite map_map. reflexivity.
  - apply optimizeTransportation_dates.
Qed.

End BudgetFacts.

(* ------------------------------------------------------------------ *)
(** ** Facts about the ranges of the weather generator *)

Module WeatherRanges.
Import Weather.

(** [Math.round] of a value between two half-integers. *)
Lemma Math_round_bounds (lo hi : Z) (x : Q) :
  inject_Z lo - (1 # 2) <= x -> x < inject_Z hi + (1 # 2) ->
  (lo <= Math_round x <= hi)%Z.
Proof.
  intros Hlo Hhi. unfold Math_round. split.
  - rewrite <- (Qfloor_Z lo). apply Qfloor_resp_le. lra.
  - pose proof (Qfloor_le (x + (1 # 2))) as H.
    assert (Hlt : inject_Z (Qfloor (x + (1 # 2))) < inject_Z (hi + 1)).
    { rewrite inject_Z_plus. change (inject_Z 1) with 1. lra. }
    rewrite <- Zlt_Qlt in Hlt. lia.
Qed.

Lemma Math_floor_bounds (lo hi : Z) (x : Q) :
  inject_Z lo <= x -> x < inject_Z hi + 1 -> (lo <= Math_floor x <= hi)%Z.
Proof.
  intros Hlo Hhi. unfold Math_floor. split.
  - rewrite <- (Qfloor_Z lo). apply Qfloor_resp_le. exact Hlo.
  - pose proof (Qfloor_le x) as H.
    assert (Hlt : inject_Z (Qfloor x) < inject_Z (hi + 1)).
    { rewrite inject_Z_plus. change (inject_Z 1) with 1. lra. }
    rewrite <- Zlt_Qlt in Hlt. lia.
Qed.

Lemma inject_Z_bounds (lo hi z : Z) :
  (lo <= z <= hi)%Z -> inject_Z lo <= inject_Z z /\ inject_Z z <= inject_Z hi.
Proof. intros [H1 H2]. split; rewrite <- Zle_Qle; assumption. Qed.

Lemma maxTempOf_bounds (Math_sin : Z -> Q) (location : string) (date : JsDate) :
  (forall z, - (1) <= Math_sin z /\ Math_sin z <= 1) ->
  (2 <= maxTempOf Math_sin location date <= 48)%Z.
Proof.
  intros Hsin. unfold maxTempOf. cbv zeta.
  pose proof (WeatherFacts.seasonalTemp_bounds (getMonth date)) as [S1 S2].
  pose proof (Hsin (getDate date * locationHash location)%Z) as [T1 T2].
  pose proof (Z.mod_pos_bound (locationHash location) 25 eq_refl) as Hm.
  destruct (inject_Z_bounds 10 34 (10 + locationHash location mod 25) ltac:(lia))
    as [B1 B2].
  change (inject_Z 10) with 10 in B1. change (inject_Z 34) with 34 in B2.
  apply Math_round_bounds.
  - change (inject_Z 2) with 2. lra.
  - change (inject_Z 48) with 48. lra.
Qed.

(** The minimum is 5 to 10 degrees under the maximum. *)
Lemma minTemp_bounds (maxTemp : Z) (r1 : Q) :
  0 <= r1 -> r1 < 1 ->
  (maxTemp - 10 <= Math_round (inject_Z maxTemp - (5 + r1 * 5)) <= maxTemp - 5)%Z.
Proof.
  intros H0 H1. apply Math_round_bounds.
  - unfold Z.sub. rewrite inject_Z_plus. change (inject_Z (- (10))) with (- (10)). lra.
  - unfold Z.sub. rewrite inject_Z_plus. change (inject_Z (- (5))) with (- (5)). lra.
Qed.

(** The current temperature lies strictly between the two. *)
Lemma currentTemp_bounds (minTemp maxTemp : Z) (r2 : Q) :
  0 <= r2 -> r2 < 1 -> (minTemp + 5 <= maxTemp)%Z ->
  (minTemp + 2
   <= Math_round (inject_Z minTemp
                  + inject_Z (maxTemp - minTemp) * ((3 # 10) + r2 * (4 # 10)))
   <= maxTemp - 2)%Z.
Proof.
  intros H0 H1 Hd.
  assert (D : 5 <= inject_Z (maxTemp - minTemp)).
  { change 5 with (inject_Z 5). rewrite <- Zle_Qle. lia. }
  assert (E : inject_Z maxTemp == inject_Z minTemp + inject_Z (maxTemp - minTemp)).
  { rewrite <- inject_Z_plus. f_equiv. lia. }
  set (d := inject_Z (maxTemp - minTemp)) in *.
  assert (P1 : d * (3 # 10) <= d * ((3 # 10) + r2 * (4 # 10))).
  { apply Qmult_le_l; lra. }
  assert (P2 : d * ((3 # 10) + r2 * (4 # 10)) < d * (7 # 10)).
  { apply Qmult_lt_l; lra. }
  apply Math_round_bounds.
  - rewrite inject_Z_plus. change (inject_Z 2) with 2. lra.
  - unfold Z.sub. rewrite inject_Z_plus. change (inject_Z (- (2))) with (- (2)). lra.
Qed.

(** The chance of precipitation: ten times the last digit of the location
    hash, plus up to 50. *)
Lemma rainChance_bounds (h : Z) (r3 : Q) :
  0 <= r3 -> r3 < 1 ->
  (10 * h
   <= Math_round ((inject_Z h / 10 + r3 * (5 # 10)) * 100)
   <= 10 * h + 50)%Z.
Proof.
  intros H0 H1.
  assert (E : (inject_Z h / 10 + r3 * (5 # 10)) * 100 == inject_Z (10 * h) + r3 * 50).
  { rewrite inject_Z_mult. change (inject_Z 10) with 10. field. }
  apply Math_round_bounds.
  - rewrite E. lra.
  - rewrite E. rewrite inject_Z_plus. change (inject_Z 50) with 50. lra.
Qed.

Lemma rainChance_high (h : Z) (r3 : Q) :
  (6 <= h)%Z -> 9 # 10 <= r3 ->
  (100 < Math_round ((inject_Z h / 10 + r3 * (5 # 10)) * 100))%Z.
Proof.
  intros Hh H1. unfold Math_round.
  assert (H6 : 6 <= inject_Z h) by (change 6 with (inject_Z 6); rewrite <- Zle_Qle; lia).
  assert (101 <= Qfloor ((inject_Z h / 10 + r3 * (5 # 10)) * 100 + (1 # 2)))%Z; [| lia].
  rewrite <- (Qfloor_Z 101). apply Qfloor_resp_le.
  change (inject_Z 101) with 101.
  assert (E : (inject_Z h / 10 + r3 * (5 # 10)) * 100 == inject_Z h * 10 + r3 * 50)
    by field.
  rewrite E. lra.
Qed.

(** A draw scaled by the length of a table of three or four entries picks
    an entry of the table. *)
Lemma description_defined (c : Condition) (r4 : Q) :
  0 <= r4 -> r4 < 1 ->
  exists d,
    at_index (descriptions c)
      (Math_floor (r4 * inject_Z (Z.of_nat (length (descriptions c))))) = Some d
    /\ d ∈ descriptions c.
Proof.
  intros H0 H1.
  assert (Hlen : (3 <= Z.of_nat (length (descriptions c)) <= 4)%Z)
    by (destruct c; simpl; lia).
  remember (Z.of_nat (length (descriptions c))) as n eqn:Hn.
  assert (Hidx : (0 <= Math_floor (r4 * inject_Z n) <= n - 1)%Z).
  { destruct (inject_Z_bounds 3 4 n Hlen) as [B1 B2].
    change (inject_Z 3) with 3 in B1. change (inject_Z 4) with 4 in B2.
    assert (P : r4 * inject_Z n < 1 * inject_Z n) by (apply Qmult_lt_r; lra).
    assert (P0 : 0 <= r4 * inject_Z n) by (apply Qmult_le_0_compat; lra).
    apply Math_floor_bounds.
    - exact P0.
    - unfold Z.sub. rewrite inject_Z_plus. change (inject_Z (- (1))) with (- (1)). lra. }
  unfold at_index. destruct (Z.ltb_spec (Math_floor (r4 * inject_Z n)) 0); [lia |].
  destruct (descriptions c !! Z.to_nat (Math_floor (r4 * inject_Z n))) as [d |] eqn:Hd.
  - exists d. split; [reflexivity |]. eapply list_elem_of_lookup_2, Hd.
  - apply lookup_ge_None in Hd. lia.
Qed.

Lemma scaled_round_bounds (k : Z) (r : Q) :
  (0 <= k)%Z -> 0 <= r -> r < 1 -> (0 <= Math_round (r * inject_Z k) <= k)%Z.
Proof.
  intros Hk H0 H1.
  assert (K : 0 <= inject_Z k) by (change 0 with (inject_Z 0); rewrite <- Zle_Qle; lia).
  assert (P0 : 0 <= r * inject_Z k) by (apply Qmult_le_0_compat; lra).
  assert (P1 : r * inject_Z k <= 1 * inject_Z k) by (apply Qmult_le_compat_r; lra).
  apply Math_round_bounds.
  - change (inject_Z 0) with 0. lra.
  - lra.
Qed.

End WeatherRanges.

(* ------------------------------------------------------------------ *)
(** ** Facts about what parseCurrency reads *)

Module ParsingFacts.
Import Chars.
Import CurrencyShapes.
Import ParsingNotions.

Lemma strip_symbols_no_digit (n : nat) :
  forall l, (length l <= n)%nat ->
    Forall (fun c => digit_of_char c = None) l ->
    Forall (fun c => digit_of_char c = None) (strip_symbols l).
Proof.
  induction n as [| n IH]; intros l Hlen Hl.
  - destruct l; [constructor | simpl in Hlen; lia].
  - destruct l as [| c l]; [constructor |].
    apply Forall_cons in Hl as [Hc Hl]. simpl in Hlen.
    assert (IH1 : Forall (fun c => digit_of_char c = None) (strip_symbols l))
      by (apply IH; [lia | exact Hl]).
    cbn [strip_symbols].
    destruct (code c) as [| p] eqn:Ec; [constructor; assumption |].
    repeat (destruct p as [p | p |]; try (constructor; assumption); try assumption).
    + destruct l as [| c2 [| c3 l3]]; try (constructor; assumption).
      destruct ((code c2 =? 130) && (code c3 =? 172))%N; [| constructor; assumption].
      apply Forall_cons in Hl as [_ Hl]. apply Forall_cons in Hl as [_ Hl].
      apply IH; [simpl in Hlen; lia | exact Hl].
    + destruct l as [| c2 l2]; try (constructor; assumption).
      destruct ((code c2 =? 163) || (code c2 =? 165))%N; [| constructor; assumption].
      apply Forall_cons in Hl as [_ Hl].
      apply IH; [simpl in Hlen; lia | exact Hl].
Qed.

Lemma skip_spaces_no_digit (l : chars) :
  Forall (fun c => digit_of_char c = None) l ->
  Forall (fun c => digit_of_char c = None) (skip_spaces l).
Proof.
  induction 1 as [| c l Hc Hl IH]; simpl; [constructor |].
  destruct (is_space c); [exact IH | constructor; assumption].
Qed.

Lemma trim_no_digit (l : chars) :
  Forall (fun c => digit_of_char c = None) l ->
  Forall (fun c => digit_of_char c = None) (trim l).
Proof.
  intro H. unfold trim.
  apply List.Forall_rev, skip_spaces_no_digit, List.Forall_rev, skip_spaces_no_digit, H.
Qed.

Lemma read_digits_no_digit (l : chars) :
  Forall (fun c => digit_of_char c = None) l -> read_digits l = (Nil, l).
Proof.
  destruct 1 as [| c l Hc Hl]; [reflexivity |].
  simpl. rewrite Hc. reflexivity.
Qed.

(** A text without a digit is not a number. *)
Lemma parseFloat_no_digit (l : chars) :
  Forall (fun c => digit_of_char c = None) l -> parseFloat l = None.
Proof.
  intro H. unfold parseFloat.
  apply skip_spaces_no_digit in H.
  destruct (read_sign (skip_spaces l)) as [neg s1] eqn:Hsign.
  assert (H1 : Forall (fun c => digit_of_char c = None) s1).
  { unfold read_sign in Hsign. destruct (skip_spaces l) as [| sg tl].
    - injection Hsign as _ <-. constructor.
    - apply Forall_cons in H as [Hsg Htl].
      destruct (code sg =? 45)%N; [injection Hsign as _ <-; exact Htl |].
      destruct (code sg =? 43)%N; injection Hsign as _ <-;
        [exact Htl | constructor; assumption]. }
  rewrite (read_digits_no_digit s1 H1).
  destruct s1 as [| dot tl]; [reflexivity |].
  apply Forall_cons in H1 as [_ Htl].
  destruct (code dot =? 46)%N; [| reflexivity].
  rewrite (read_digits_no_digit tl Htl). reflexivity.
Qed.

Lemma skip_spaces_keep (M : chars) :
  head_not_space M ->
  forall L, exists S L', L = S ++ L' /\ skip_spaces (L ++ M) = L' ++ M.
Proof.
  intros HM. induction L as [| c L (S & L' & E & IH)].
  - exists [], []. split; [reflexivity |]. apply CurrencyFacts.skip_spaces_id, HM.
  - cbn [app skip_spaces]. destruct (is_space c).
    + exists (c :: S), L'. split; [rewrite E; reflexivity | exact IH].
    + exists [], (c :: L). split; reflexivity.
Qed.

(** Trimming keeps a text whose ends are not spaces, and of what follows
    it a prefix. *)
Lemma trim_keep (A : chars) (last : ascii) (X : chars) :
  head_not_space (A ++ [last]) -> is_space last = false ->
  exists Y Z, X = Y ++ Z /\ trim ((A ++ [last]) ++ X) = (A ++ [last]) ++ Y.
Proof.
  intros Hhead Hlast. unfold trim.
  assert (Hh : head_not_space ((A ++ [last]) ++ X)).
  { destruct A; exact Hhead. }
  rewrite (CurrencyFacts.skip_spaces_id _ Hh).
  rewrite rev_app_distr.
  destruct (skip_spaces_keep (rev (A ++ [last]))
              ltac:(rewrite rev_app_distr; exact Hlast) (rev X))
    as (S & L' & E & ->).
  exists (rev L'), (rev S). split.
  - rewrite <- rev_app_distr, <- E, rev_involutive. reflexivity.
  - rewrite rev_app_distr, rev_involutive. reflexivity.
Qed.

Lemma read_digits_app (l : chars) (d : uint) (Y : chars) :
  read_digits l = (d, []) -> head_not_digit Y -> read_digits (l ++ Y) = (d, Y).
Proof.
  revert d. induction l as [| c l IH]; intros d.
  - simpl. intros [= <-] HY. destruct Y as [| y Y]; [reflexivity |].
    simpl in *. rewrite HY. reflexivity.
  - simpl. destruct (digit_of_char c) as [dc |]; [| discriminate].
    destruct (read_digits l) as [ds tl] eqn:El. intros [= <- ->] HY.
    rewrite (IH ds eq_refl HY). reflexivity.
Qed.

Lemma of_string_append (a b : string) :
  of_string (String.append a b) = of_string a ++ of_string b.
Proof.
  unfold of_string. induction a as [| c a IH]; simpl; [reflexivity |].
  rewrite IH. reflexivity.
Qed.

Lemma to_string_app (a b : chars) :
  to_string (a ++ b) = String.append (to_string a) (to_string b).
Proof.
  unfold to_string. induction a as [| c a IH]; simpl; [reflexivity |].
  rewrite IH. reflexivity.
Qed.

Lemma strip_symbols_body_tail (ip : uint) (f : Z) (T : chars) :
  (0 <= f < 100)%Z ->
  strip_symbols
    ("$"%char :: group (chars_of_uint ip)
       ++ "."%char :: digit_char (f / 10) :: digit_char (f mod 10) :: T)
  = plain_chars ip f ++ strip_symbols T.
Proof.
  intros Hf.
  destruct (CurrencyFacts.fraction_digits f Hf) as (fp & _ & _ & _ & _ & Hd1 & Hd2 & _ & _).
  destruct (CurrencyFacts.group_spec (chars_of_uint ip) (CurrencyFacts.chars_of_uint_digits ip))
    as [Hg1 Hg2].
  change (strip_symbols ("$"%char :: ?l)) with (strip_symbols l).
  rewrite CurrencyFacts.strip_symbols_group_app by exact Hg1. rewrite Hg2.
  unfold plain_chars. rewrite <- app_assoc. f_equal.
  change (strip_symbols ("."%char :: ?l)) with ("."%char :: strip_symbols l).
  cbn [app]. f_equal.
  rewrite CurrencyFacts.strip_symbols_digit_or_comma
    by (apply CurrencyFacts.is_digit_plain; assumption).
  destruct (CurrencyFacts.is_digit_plain _ Hd1) as [_ ->].
  rewrite CurrencyFacts.strip_symbols_digit_or_comma
    by (apply CurrencyFacts.is_digit_plain; assumption).
  destruct (CurrencyFacts.is_digit_plain _ Hd2) as [_ ->].
  reflexivity.
Qed.

(** A formatted amount followed by nothing, or by a space and any text,
    reads as the amount. *)
Lemma parseFloat_plain_tail (ip : uint) (f : Z) (sign Y : chars) :
  (0 <= f < 100)%Z -> sign = [] \/ sign = ["-"%char] ->
  Y = [] \/ (exists Y', Y = " "%char :: Y') ->
  exists v,
    parseFloat (sign ++ plain_chars ip f ++ Y) = Some v
    /\ v == signum sign * (inject_Z (Z.of_N (N.of_uint ip)) + inject_Z f / 100).
Proof.
  intros Hf Hs HY.
  destruct (CurrencyFacts.fraction_digits f Hf) as (fp & Hfp & Hval & Hlen & Hnd & _).
  assert (HYd : head_not_digit Y) by (destruct HY as [-> | [Y' ->]]; reflexivity).
  assert (HYe : read_exponent Y = 0%Z) by (destruct HY as [-> | [Y' ->]]; reflexivity).
  unfold parseFloat.
  assert (Hhead : head_not_space (sign ++ plain_chars ip f ++ Y)).
  { destruct Hs as [-> | ->]; [| reflexivity].
    unfold plain_chars. destruct ip; reflexivity. }
  rewrite (CurrencyFacts.skip_spaces_id _ Hhead).
  assert (Hsplit : read_sign (sign ++ plain_chars ip f ++ Y)
                   = (match sign with [] => false | _ => true end, plain_chars ip f ++ Y)).
  { destruct Hs as [-> | ->]; [| reflexivity].
    unfold plain_chars. destruct ip; reflexivity. }
  rewrite Hsplit. unfold plain_chars at 1. rewrite <- app_assoc.
  rewrite CurrencyFacts.read_digits_chars_of_uint by reflexivity.
  cbn [app]. change (code "."%char =? 46)%N with true. cbv iota.
  change (digit_char (f / 10) :: digit_char (f mod 10) :: Y)
    with ([digit_char (f / 10); digit_char (f mod 10)] ++ Y).
  rewrite (read_digits_app _ _ _ Hfp HYd).
  rewrite Hnd, andb_false_r, Hlen, Hval, HYe.
  eexists. split; [reflexivity |].
  change (inject_Z (10 ^ Z.of_nat 2)) with 100.
  change ((10 # 1) ^ 0) with 1.
  destruct Hs as [-> | ->]; cbn [signum]; ring.
Qed.

(** Text after a formatted amount and a space is ignored. *)
Lemma parseCurrency_trailing (x : Q) (rest : string) :
  parseCurrency (String.append (formatCurrency x) (String " " rest)) == round2 x.
Proof.
  rewrite CurrencyFacts.round2_cents_form. unfold formatCurrency.
  rewrite <- (string_of_list_ascii_of_string (String " " rest)).
  fold (to_string (list_ascii_of_string (String " " rest))).
  rewrite <- to_string_app.
  change (list_ascii_of_string (String " " rest)) with (" "%char :: of_string rest).
  unfold format_chars. cbv zeta.
  pose proof (CurrencyFacts.cents_nonneg x) as Hc. set (c := cents x) in *.
  assert (Hf : (0 <= c mod 100 < 100)%Z) by (apply Z.mod_pos_bound; lia).
  replace (c mod 10)%Z with ((c mod 100) mod 10)%Z
    by (apply Z.mod_mod_divide; exists 10%Z; reflexivity).
  set (ip := N.to_uint (Z.to_N (c / 100))).
  set (sign := if Qlt_le_dec x 0 then ["-"%char] else []).
  assert (Hs : sign = [] \/ sign = ["-"%char])
    by (unfold sign; destruct (Qlt_le_dec x 0); auto).
  rewrite CurrencyFacts.parseCurrency_to_string
    by (destruct Hs as [-> | ->]; discriminate).
  set (R := strip_symbols (of_string rest)).
  assert (Hstrip :
    strip_symbols
      ((sign ++ "$"%char :: group (chars_of_uint ip)
          ++ "."%char :: [digit_char (c mod 100 / 10); digit_char ((c mod 100) mod 10)])
       ++ " "%char :: of_string rest)
    = (sign ++ plain_chars ip (c mod 100)) ++ " "%char :: R).
  { rewrite <- !app_assoc. cbn [app]. rewrite <- !app_assoc. cbn [app].
    destruct Hs as [-> | ->]; cbn [app].
    - rewrite strip_symbols_body_tail by exact Hf. reflexivity.
    - change (strip_symbols ("-"%char :: ?l)) with ("-"%char :: strip_symbols l).
      rewrite strip_symbols_body_tail by exact Hf. reflexivity. }
  rewrite Hstrip.
  destruct (CurrencyFacts.fraction_digits (c mod 100) Hf)
    as (fp & _ & _ & _ & _ & _ & _ & _ & Hsp).
  assert (Hsnoc : sign ++ plain_chars ip (c mod 100)
                  = (sign ++ chars_of_uint ip
                       ++ ["."%char; digit_char (c mod 100 / 10)])
                    ++ [digit_char ((c mod 100) mod 10)]).
  { unfold plain_chars. rewrite <- !app_assoc. reflexivity. }
  pose proof (CurrencyFacts.plain_chars_head ip (c mod 100) sign Hs) as Hhead.
  rewrite Hsnoc in Hhead |- *.
  destruct (trim_keep _ _ (" "%char :: R) Hhead Hsp) as (Y & Z & HX & ->).
  rewrite <- Hsnoc. rewrite <- app_assoc.
  assert (HY : Y = [] \/ (exists Y', Y = " "%char :: Y')).
  { destruct Y as [| y Y']; [left; reflexivity | right].
    injection HX as <- _. exists Y'. reflexivity. }
  destruct (parseFloat_plain_tail ip (c mod 100) sign Y Hf Hs HY) as (v & -> & Hv).
  rewrite Hv. unfold ip. rewrite DecimalN.Unsigned.of_to.
  rewrite Z2N.id by (apply Z.div_pos; lia).
  rewrite CurrencyFacts.inject_Z_cents. reflexivity.
Qed.

(** A text that starts with a letter is not a number, whatever follows. *)
Lemma strip_symbols_letter (c : ascii) (l : chars) :
  is_letter c = true -> strip_symbols (c :: l) = c :: strip_symbols l.
Proof.
  destruct c as [[] [] [] [] [] [] [] []]; intro H; try discriminate H; reflexivity.
Qed.

Lemma parseFloat_letter (c : ascii) (l : chars) :
  is_letter c = true -> parseFloat (c :: l) = None.
Proof.
  destruct c as [[] [] [] [] [] [] [] []]; intro H; try discriminate H; reflexivity.
Qed.

Lemma is_letter_not_space (c : ascii) : is_letter c = true -> is_space c = false.
Proof.
  destruct c as [[] [] [] [] [] [] [] []]; intro H; try discriminate H; reflexivity.
Qed.

Lemma trim_head (c : ascii) (X : chars) :
  is_space c = false -> exists Y, trim (c :: X) = c :: Y.
Proof.
  intro Hc. unfold trim. cbn [skip_spaces]. rewrite Hc. cbn [rev].
  destruct (skip_spaces_keep [c] Hc (rev X)) as (S & L' & _ & ->).
  rewrite rev_app_distr. exists (rev L'). reflexivity.
Qed.

End ParsingFacts.

(* ------------------------------------------------------------------ *)
(** ** Facts about arrays and the stable sort *)

Module ArrayFacts.
Import JSArray.

Lemma insertBy_Permutation {A} (gt : A -> A -> bool) (x : A) (sorted : list A) :
  insertBy gt x sorted ≡ₚ x :: sorted.
Proof.
  induction sorted as [| y rest IH]; simpl; [reflexivity |].
  destruct (gt x y); [| reflexivity].
  rewrite IH. apply Permutation_swap.
Qed.

Lemma sort_Permutation {A} (gt : A -> A -> bool) (l : list A) : sort gt l ≡ₚ l.
Proof.
  unfold sort. induction l as [| x l IH]; simpl; [reflexivity |].
  rewrite insertBy_Permutation, IH. reflexivity.
Qed.

(** For a comparator that never puts two elements each after the other
    and whose "not after" is transitive, the sort leaves no element after
    a later one. *)
Lemma sort_sorted {A} (gt : A -> A -> bool) (l : list A) :
  (forall a b, gt a b = true -> gt b a = false) ->
  (forall a b c, gt a b = false -> gt b c = false -> gt a c = false) ->
  StronglySorted (fun a b => gt a b = false) (sort gt l).
Proof.
  intros Hasym Htrans. unfold sort.
  induction l as [| x l IH]; simpl; [constructor |].
  revert IH. generalize (foldr (insertBy gt) [] l) as s. clear l.
  induction s as [| y s IHs]; intro Hs; simpl.
  - constructor; constructor.
  - inversion Hs as [| ? ? Hs' Hy]; subst.
    destruct (gt x y) eqn:E.
    + constructor; [apply IHs, Hs' |].
      rewrite insertBy_Permutation. constructor; [apply Hasym, E | exact Hy].
    + constructor; [exact Hs |].
      constructor; [exact E |].
      eapply Forall_impl; [exact Hy |]. intros z Hz. eapply Htrans; eassumption.
Qed.

Lemma item_Some {A} (table : list A) (i : Z) :
  (0 <= i < Z.of_nat (length table))%Z ->
  exists x, item table i = Some x /\ x ∈ table.
Proof.
  intros Hi. unfold item. destruct (Z.ltb_spec i 0); [lia |].
  destruct (table !! Z.to_nat i) as [x |] eqn:E.
  - exists x. split; [reflexivity |]. eapply list_elem_of_lookup_2, E.
  - apply lookup_ge_None in E. lia.
Qed.

Lemma upto_spec (n : Z) :
  Forall (fun i => (0 <= i < n)%Z) (upto n) /\ length (upto n) = Z.to_nat n.
Proof.
  unfold upto. split.
  - apply List.Forall_forall. intros i Hi. apply in_map_iff in Hi as (k & <- & Hk).
    apply in_seq in Hk. lia.
  - rewrite length_map, length_seq. reflexivity.
Qed.

(** A loop whose turns all succeed builds the array of their results. *)
Lemma mapM_Forall2 {A B} (f : A -> result B) (P : A -> B -> Prop) (l : list A) :
  Forall (fun x => exists y, f x = Ok y /\ P x y) l ->
  exists ys, mapM f l = Ok ys /\ Forall2 P l ys.
Proof.
  induction 1 as [| x l (y & Hy & Py) _ (ys & Hys & Pys)]; simpl.
  - exists []. split; [reflexivity | constructor].
  - rewrite Hy. simpl. rewrite Hys. simpl. exists (y :: ys).
    split; [reflexivity | constructor; assumption].
Qed.

Lemma Forall2_map_eq {A B C} (P : A -> B -> Prop) (g : A -> C) (h : B -> C)
    (l : list A) (k : list B) :
  (forall x y, P x y -> h y = g x) -> Forall2 P l k -> map h k = map g l.
Proof.
  intros HP. induction 1 as [| x y l k Hxy _ IH]; simpl; [reflexivity |].
  rewrite (HP _ _ Hxy), IH. reflexivity.
Qed.

Lemma Forall2_Forall_r {A B} (P : A -> B -> Prop) (Q : B -> Prop)
    (l : list A) (k : list B) :
  (forall x y, P x y -> Q y) -> Forall2 P l k -> Forall Q k.
Proof.
  intros HP. induction 1 as [| x y l k Hxy _ IH]; constructor; [eapply HP, Hxy | exact IH].
Qed.

Lemma mapM_inv {A B} (f : A -> result B) (l : list A) (ys : list B) :
  mapM f l = Ok ys -> Forall2 (fun x y => f x = Ok y) l ys.
Proof.
  revert ys. induction l as [| x l IH]; intros ys; simpl.
  - intros [= <-]. constructor.
  - destruct (f x) as [y | e] eqn:Hy; simpl; [| discriminate].
    destruct (mapM f l) as [ys' | e]; simpl; [| discriminate].
    intros [= <-]. constructor; [exact Hy | apply IH; reflexivity].
Qed.

Lemma StronglySorted_lookup {A} (R : A -> A -> Prop) (l : list A) :
  StronglySorted R l ->
  forall i j a b, (i < j)%nat -> l !! i = Some a -> l !! j = Some b -> R a b.
Proof.
  induction 1 as [| x l Hs IH Hx]; intros i j a b Hij Ha Hb.
  - rewrite lookup_nil in Ha. discriminate.
  - destruct j as [| j]; [lia |]. destruct i as [| i].
    + injection Ha as <-. rewrite Forall_forall in Hx. apply Hx.
      eapply list_elem_of_lookup_2, Hb.
    + apply (IH i j); [lia | exact Ha | exact Hb].
Qed.

End ArrayFacts.

(* ------------------------------------------------------------------ *)
(** ** Facts about the hash and the flight generator *)

Module FlightsFacts.
Import JSArray.
Import Flights.
Import FlightNotions.

Lemma wrap32_range (z : Z) : (- 2 ^ 31 <= Generators.wrap32 z < 2 ^ 31)%Z.
Proof.
  unfold Generators.wrap32.
  pose proof (Z.mod_pos_bound (z + 2 ^ 31) (2 ^ 32) eq_refl). lia.
Qed.

(** The hash is the absolute value of a signed 32-bit integer. *)
Lemma hashString_range (str : string) : (0 <= Generators.hashString str <= 2 ^ 31)%Z.
Proof.
  unfold Generators.hashString.
  assert (H : forall (l : list ascii) (h : Z),
             (- 2 ^ 31 <= h < 2 ^ 31)%Z ->
             (- 2 ^ 31
              <= fold_left
                   (fun hash char =>
                      Generators.wrap32
                        (Generators.wrap32 (hash * 32) - hash + Z.of_N (Chars.code char)))
                   l h
              < 2 ^ 31)%Z).
  { induction l as [| c l IH]; intros h Hh; simpl; [exact Hh |].
    apply IH, wrap32_range. }
  specialize (H (Chars.of_string str) 0%Z ltac:(lia)). lia.
Qed.

Lemma item_map_upto {A} (g : Z -> A) (n j : Z) :
  (0 <= j < n)%Z -> item (map g (upto n)) j = Some (g j).
Proof.
  intros Hj. unfold item, upto. destruct (Z.ltb_spec j 0); [lia |].
  rewrite map_map. change (map ?f ?l) with (f <$> l).
  rewrite list_lookup_fmap, lookup_seq_lt by lia.
  simpl. rewrite Z2Nat.id by lia. reflexivity.
Qed.

Lemma calculateFlightDuration_range (origin destination : string) :
  (3 <= calculateFlightDuration origin destination <= 14)%Z.
Proof.
  unfold calculateFlightDuration. cbv zeta.
  pose proof (hashString_range (cat [origin; "-"%string; destination])) as [H0 _].
  rewrite Z.rem_mod_nonneg by lia.
  pose proof (Z.mod_pos_bound (Generators.hashString (cat [origin; "-"%string; destination]))
                12 eq_refl).
  lia.
Qed.

Lemma calculateBaseFlightPrice_range (origin destination : string) (duration : Z) :
  (120 + duration * 70 <= calculateBaseFlightPrice origin destination duration
   <= 179 + duration * 70)%Z.
Proof.
  unfold calculateBaseFlightPrice. cbv zeta.
  pose proof (hashString_range (cat [origin; "-"%string; destination])) as [H0 _].
  rewrite Z.rem_mod_nonneg by lia.
  pose proof (Z.mod_pos_bound (Generators.hashString (cat [origin; "-"%string; destination]))
                60 eq_refl).
  lia.
Qed.

(** A fare for at least one passenger is at least 162. *)
Lemma fare_floor (basePrice : Z) (multiplier passengers : Q) :
  (190 <= basePrice)%Z -> 85 # 100 <= multiplier -> 1 <= passengers ->
  (162 <= Weather.Math_round (inject_Z basePrice * multiplier * passengers))%Z.
Proof.
  intros Hb Hm Hp.
  assert (B : 190 <= inject_Z basePrice)
    by (change 190 with (inject_Z 190); rewrite <- Zle_Qle; exact Hb).
  assert (P1 : 190 * (85 # 100) <= inject_Z basePrice * multiplier).
  { apply Qle_trans with (inject_Z basePrice * (85 # 100)).
    - apply Qmult_le_compat_r; lra.
    - apply Qmult_le_l; lra. }
  assert (P2 : inject_Z basePrice * multiplier * 1
               <= inject_Z basePrice * multiplier * passengers).
  { apply Qmult_le_l; [| exact Hp].
    apply Qlt_le_trans with (190 * (85 # 100)); [reflexivity | exact P1]. }
  unfold Weather.Math_round. rewrite <- (Qfloor_Z 162). apply Qfloor_resp_le.
  change (inject_Z 162) with 162. lra.
Qed.

(** One turn of the loop, for a seed that is a hash and a valid day. *)
Lemma flightAt_Ok (setHours : Z -> Z -> Z -> Z -> option Z) (isoString : Z -> string)
    (originCity originAirport destinationCity destinationAirport : string)
    (t : Z) (passengers : Q) (seed i : Z) :
  validDay setHours t -> (0 <= seed)%Z -> (0 <= i)%Z ->
  exists f,
    flightAt setHours isoString originCity originAirport destinationCity destinationAirport
      t passengers seed i = Ok f
    /\ wellFormed f
    /\ cabinClass f = cabinAt i
    /\ id f = cat ["flight-"; originAirport; "-"; destinationAirport; "-"; showZ i]%string
    /\ (1 <= passengers -> (162 <= price f)%Z).
Proof.
  intros Hday Hseed Hi. unfold flightAt.
  destruct (ArrayFacts.item_Some airlines (Z.rem (seed + i) 10)) as (a & Ha & Hin).
  { rewrite Z.rem_mod_nonneg by lia.
    pose proof (Z.mod_pos_bound (seed + i) 10 eq_refl). simpl. lia. }
  rewrite Ha. cbv zeta.
  destruct (Hday (6 + Z.rem (seed + i * 3) 16) (Z.rem (seed + i * 7) 12 * 5))%Z
    as (t' & Ht' & Habs).
  { rewrite Z.rem_mod_nonneg by lia.
    pose proof (Z.mod_pos_bound (seed + i * 3) 16 eq_refl). lia. }
  { rewrite Z.rem_mod_nonneg by lia.
    pose proof (Z.mod_pos_bound (seed + i * 7) 12 eq_refl). lia. }
  rewrite Ht'.
  pose proof (calculateFlightDuration_range originCity destinationCity) as Hbase.
  assert (Hvar : (0 <= Z.rem (seed + i) 5 <= 4)%Z).
  { rewrite Z.rem_mod_nonneg by lia.
    pose proof (Z.mod_pos_bound (seed + i) 5 eq_refl). lia. }
  assert (Hmin : (0 <= Z.rem (seed + i * 13) 12 <= 11)%Z).
  { rewrite Z.rem_mod_nonneg by lia.
    pose proof (Z.mod_pos_bound (seed + i * 13) 12 eq_refl). lia. }
  match goal with
  | |- context [timeClip ?x] => assert (Hclip : timeClip x = Some x)
  end.
  { unfold timeClip, maxTime in *.
    match goal with |- (if ?c then _ else _) = _ => destruct c eqn:E end;
      [reflexivity |].
    apply Z.leb_gt in E. lia. }
  rewrite Hclip. unfold toISOString. unfold_bind. cbv beta iota.
  eexists. split; [reflexivity |].
  assert (Hstops : (0 <= (if (i =? 0)%Z then 0 else Z.min 2 (Z.rem (seed + i) 3)) <= 2)%Z).
  { destruct (i =? 0)%Z; [lia |]. rewrite Z.rem_mod_nonneg by lia.
    pose proof (Z.mod_pos_bound (seed + i) 3 eq_refl). lia. }
  set (stops := if (i =? 0)%Z then 0%Z else Z.min 2 (Z.rem (seed + i) 3)) in *.
  split; [| split; [reflexivity | split; [reflexivity |]]].
  - unfold wellFormed.
    cbn [Flights.stops Flights.layovers Flights.cabinClass Flights.airline Flights.currency].
    split; [exact Hstops |]. split.
    { destruct (Z.gtb_spec stops 0); split; intro H'; try reflexivity; try discriminate; lia. }
    split.
    { intros ls Hls. destruct (Z.gtb_spec stops 0) as [Hpos | Hz]; [| discriminate].
      injection Hls as <-. rewrite length_map.
      destruct (ArrayFacts.upto_spec stops) as [Hup Hlen]. rewrite Hlen.
      split; [lia |].
      apply Forall_map. eapply Forall_impl; [exact Hup |].
      intros j Hj. cbv beta in Hj. cbn [airport].
      unfold getLayoverAirports. rewrite (item_map_upto _ _ _ Hj).
      destruct (ArrayFacts.item_Some hubs (Z.rem (seed + i + j * 7) 18))
        as (hub & Hhub & Hhin).
      { rewrite Z.rem_mod_nonneg by lia.
        pose proof (Z.mod_pos_bound (seed + i + j * 7) 18 eq_refl). simpl. lia. }
      exists hub. split; assumption. }
    split.
    { unfold stops. destruct (i =? 0)%Z; [reflexivity |].
      destruct (i =? 1)%Z; discriminate. }
    split; [exact Hin | reflexivity].
  - intro Hp. cbn [price]. apply fare_floor; [| | exact Hp].
    + pose proof (calculateBaseFlightPrice_range originCity destinationCity
                    (Z.max 1 (calculateFlightDuration originCity destinationCity
                              + (Z.rem (seed + i) 5 - 2)))).
      lia.
    + assert (0 <= inject_Z (Z.rem (seed + i * 17) 30)).
      { change 0 with (inject_Z 0). rewrite <- Zle_Qle.
        rewrite Z.rem_mod_nonneg by lia.
        pose proof (Z.mod_pos_bound (seed + i * 17) 30 eq_refl). lia. }
      unfold Qdiv. change (/ 100) with (1 # 100). lra.
Qed.

Lemma dearer_sorted (l : list Flight) :
  forall i j a b, (i < j)%nat ->
    sort dearer l !! i = Some a -> sort dearer l !! j = Some b ->
    (price a <= price b)%Z.
Proof.
  intros i j a b Hij Ha Hb.
  assert (H : dearer a b = false).
  { apply (ArrayFacts.StronglySorted_lookup _ _
             (ArrayFacts.sort_sorted dearer l
                ltac:(unfold dearer; intros x y Hxy;
                      apply Z.gtb_lt in Hxy;
                      destruct (Z.gtb_spec (price y - price x) 0); [lia | reflexivity])
                ltac:(unfold dearer; intros x y z Hxy Hyz;
                      destruct (Z.gtb_spec (price x - price y) 0); [discriminate |];
                      destruct (Z.gtb_spec (price y - price z) 0); [discriminate |];
                      destruct (Z.gtb_spec (price x - price z) 0); [lia | reflexivity]))
             i j a b Hij Ha Hb). }
  unfold dearer in H. destruct (Z.gtb_spec (price a - price b) 0); [discriminate | lia].
Qed.

(** What one turn of the loop copies from the arguments. *)
Lemma flightAt_route (setHours : Z -> Z -> Z -> Z -> option Z) (isoString : Z -> string)
    (originCity originAirport destinationCity destinationAirport : string)
    (t : Z) (passengers : Q) (seed i : Z) (f : Flight) :
  flightAt setHours isoString originCity originAirport destinationCity destinationAirport
    t passengers seed i = Ok f ->
  departureAirport f = originAirport /\ departureCity f = originCity
  /\ arrivalAirport f = destinationAirport /\ arrivalCity f = destinationCity.
Proof.
  unfold flightAt. destruct (item airlines _); [| discriminate]. cbv zeta.
  unfold toISOString. unfold_bind.
  destruct (setHours _ _ _ _); [| discriminate].
  destruct (timeClip _); [| discriminate].
  intros [= <-]. repeat split.
Qed.

Lemma numFlights_range (seed : Z) : (0 <= seed)%Z -> (3 <= 3 + Z.rem seed 5 <= 7)%Z.
Proof.
  intro H. rewrite Z.rem_mod_nonneg by lia.
  pose proof (Z.mod_pos_bound seed 5 eq_refl). lia.
Qed.

(** Whenever the loop runs to its end, it has built 3 to 7 flights of the
    route, and they are returned by ascending price. *)
Lemma buildFlights_inv (setHours : Z -> Z -> Z -> Z -> option Z) (isoString : Z -> string)
    (originCity originAirport destinationCity destinationAirport : string)
    (t : Z) (passengers : Q) (seed : Z) (fl : list Flight) :
  (0 <= seed)%Z ->
  buildFlights setHours isoString originCity originAirport destinationCity destinationAirport
    t passengers seed = Ok fl ->
  (3 <= length fl <= 7)%nat
  /\ (forall i j a b, (i < j)%nat -> fl !! i = Some a -> fl !! j = Some b ->
        (price a <= price b)%Z)
  /\ Forall (fun f => departureAirport f = originAirport /\ departureCity f = originCity
                      /\ arrivalAirport f = destinationAirport
                      /\ arrivalCity f = destinationCity) fl.
Proof.
  intros Hseed. unfold buildFlights. cbv zeta. unfold_bind.
  destruct (mapM _ _) as [flights | e] eqn:Hm; [| discriminate].
  intros [= <-]. apply ArrayFacts.mapM_inv in Hm.
  pose proof (ArrayFacts.sort_Permutation dearer flights) as Hperm.
  split; [| split].
  - rewrite (Permutation_length Hperm). rewrite <- (Forall2_length _ _ _ Hm).
    destruct (ArrayFacts.upto_spec (3 + Z.rem seed 5)) as [_ ->].
    pose proof (numFlights_range seed Hseed). lia.
  - apply dearer_sorted.
  - rewrite Hperm. eapply ArrayFacts.Forall2_Forall_r; [| exact Hm].
    intros i f Hf. cbv beta in Hf. eapply flightAt_route, Hf.
Qed.

Lemma append_inj_r (p x y : string) : String.append p x = String.append p y -> x = y.
Proof. induction p as [| c p IH]; simpl; [auto |]. intros [= H]. apply IH, H. Qed.

Lemma showZ_small_inj (i j : Z) :
  (0 <= i < 7)%Z -> (0 <= j < 7)%Z -> showZ i = showZ j -> i = j.
Proof.
  intros Hi Hj.
  assert (Ei : (i = 0 \/ i = 1 \/ i = 2 \/ i = 3 \/ i = 4 \/ i = 5 \/ i = 6)%Z) by lia.
  assert (Ej : (j = 0 \/ j = 1 \/ j = 2 \/ j = 3 \/ j = 4 \/ j = 5 \/ j = 6)%Z) by lia.
  repeat destruct Ei as [-> | Ei]; try subst i;
    repeat destruct Ej as [-> | Ej]; try subst j;
    intro H; try reflexivity; vm_compute in H; discriminate H.
Qed.

Lemma upto_NoDup (n : Z) : NoDup (upto n).
Proof.
  unfold upto. change (map ?f ?l) with (f <$> l).
  apply NoDup_fmap_2; [intros x y H; lia | apply NoDup_seq].
Qed.

Lemma cabins_of (n : Z) :
  (3 <= n <= 7)%Z ->
  map cabinAt (upto n)
  = "Business"%string :: "Premium Economy"%string
      :: replicate (Z.to_nat n - 2) "Economy"%string.
Proof.
  intros Hn.
  assert (E : (n = 3 \/ n = 4 \/ n = 5 \/ n = 6 \/ n = 7)%Z) by lia.
  repeat destruct E as [-> | E]; try subst n; reflexivity.
Qed.

(** The flights of one direction, for a valid day. *)
Lemma buildFlights_Ok (setHours : Z -> Z -> Z -> Z -> option Z) (isoString : Z -> string)
    (originCity originAirport destinationCity destinationAirport : string)
    (t : Z) (passengers : Q) (seed : Z) :
  validDay setHours t -> (0 <= seed)%Z ->
  exists fl,
    buildFlights setHours isoString originCity originAirport destinationCity
      destinationAirport t passengers seed = Ok fl
    /\ map cabinClass fl
       ≡ₚ "Business"%string :: "Premium Economy"%string
            :: replicate (length fl - 2) "Economy"%string
    /\ NoDup (map id fl)
    /\ Forall wellFormed fl
    /\ (1 <= passengers -> Forall (fun f => (162 <= price f)%Z) fl).
Proof.
  intros Hday Hseed. unfold buildFlights. cbv zeta.
  pose proof (numFlights_range seed Hseed) as Hn.
  set (n := (3 + Z.rem seed 5)%Z) in *.
  destruct (ArrayFacts.upto_spec n) as [Hup Hlen].
  destruct (ArrayFacts.mapM_Forall2
              (flightAt setHours isoString originCity originAirport destinationCity
                 destinationAirport t passengers seed)
              (fun i f =>
                 wellFormed f /\ cabinClass f = cabinAt i
                 /\ id f = cat ["flight-"; originAirport; "-"; destinationAirport; "-";
                                showZ i]%string
                 /\ (1 <= passengers -> (162 <= price f)%Z))
              (upto n)) as (flights & Hm & Hall).
  { eapply Forall_impl; [exact Hup |]. intros i Hi. cbv beta in Hi.
    apply flightAt_Ok; [assumption | assumption | lia]. }
  rewrite Hm. unfold_bind. eexists. split; [reflexivity |].
  pose proof (ArrayFacts.sort_Permutation dearer flights) as Hperm.
  assert (Hcount : length (sort dearer flights) = Z.to_nat n).
  { rewrite (Permutation_length Hperm), <- (Forall2_length _ _ _ Hall). exact Hlen. }
  split; [| split; [| split]].
  - rewrite Hcount, <- (cabins_of n Hn).
    assert (E : map cabinClass flights = map cabinAt (upto n)).
    { eapply ArrayFacts.Forall2_map_eq; [| exact Hall].
      intros i f (_ & H & _). exact H. }
    rewrite <- E. apply Permutation_map, Hperm.
  - rewrite Hperm.
    assert (E : map id flights
                = map (fun i => cat ["flight-"; originAirport; "-"; destinationAirport; "-";
                                     showZ i]%string) (upto n)).
    { eapply ArrayFacts.Forall2_map_eq; [| exact Hall].
      intros i f (_ & _ & H & _). exact H. }
    rewrite E.
    change (map ?f ?l) with (f <$> l).
    apply NoDup_fmap_2_strong; [| apply upto_NoDup].
    intros i j Hi Hj Hij.
    rewrite Forall_forall in Hup.
    pose proof (Hup i Hi) as Ri. pose proof (Hup j Hj) as Rj. cbv beta in Ri, Rj.
    unfold cat in Hij. cbn [foldr] in Hij.
    repeat apply append_inj_r in Hij.
    apply showZ_small_inj; [lia | lia |].
    revert Hij. clear. generalize (showZ i) (showZ j). intros a b.
    clear. revert b. induction a as [| c a IH]; destruct b as [| d b]; simpl;
      intro H; try discriminate H; try reflexivity.
    injection H as -> H. f_equal. apply IH, H.
  - rewrite Hperm. eapply ArrayFacts.Forall2_Forall_r; [| exact Hall].
    intros i f (H & _). exact H.
  - intro Hp. rewrite Hperm. eapply ArrayFacts.Forall2_Forall_r; [| exact Hall].
    intros i f (_ & _ & _ & H). apply H, Hp.
Qed.

(** The loop stops at its first turn when the host cannot set the time of
    day. *)
Lemma buildFlights_no_time (setHours : Z -> Z -> Z -> Z -> option Z) (isoString : Z -> string)
    (originCity originAirport destinationCity destinationAirport : string)
    (t : Z) (passengers : Q) (seed : Z) :
  (0 <= seed)%Z -> (forall h m, setHours t h m 0%Z = None) ->
  exists e,
    buildFlights setHours isoString originCity originAirport destinationCity
      destinationAirport t passengers seed = Throw e.
Proof.
  intros Hseed Hno. unfold buildFlights. cbv zeta.
  pose proof (numFlights_range seed Hseed) as Hn.
  unfold JSArray.upto.
  destruct (Z.to_nat (3 + Z.rem seed 5)) as [| n] eqn:E; [lia |].
  cbn [seq map mapM].
  assert (Hfirst : exists e,
            flightAt setHours isoString originCity originAirport destinationCity
              destinationAirport t passengers seed (Z.of_nat 0) = Throw e).
  { unfold flightAt.
    destruct (JSArray.item airlines _); [| eexists; reflexivity].
    cbv zeta. rewrite Hno. eexists. reflexivity. }
  destruct Hfirst as [e ->]. exists e. reflexivity.
Qed.

Lemma utcSetHours_validDay (t : Z) :
  (0 <= t <= 4102444800000)%Z -> validDay utcSetHours t.
Proof.
  intros Ht h m Hh Hm. unfold utcSetHours, timeClip, maxTime.
  pose proof (Z.mod_pos_bound t 86400000 eq_refl).
  pose proof (Z.mod_pos_bound t 1000 eq_refl).
  destruct (Z.leb_spec
              (Z.abs (t - t mod 86400000 + h * 3600000 + m * 60000 + 0 * 1000 + t mod 1000))
              8640000000000000); [| lia].
  eexists. split; [reflexivity | lia].
Qed.

End FlightsFacts.

(* ------------------------------------------------------------------ *)
(** ** Facts about the activity generator *)

Module ActivitiesFacts.
Import JSArray.
Import JSString.
Import Activities.
Import ActivityNotions.

Lemma rem_range (a n : Z) : (0 <= a)%Z -> (0 < n)%Z -> (0 <= Z.rem a n < n)%Z.
Proof. intros Ha Hn. rewrite Z.rem_mod_nonneg by lia. apply Z.mod_pos_bound, Hn. Qed.

Lemma pick_Some (table : list string) (i : Z) :
  (0 <= i < Z.of_nat (length table))%Z -> pick table i ∈ table.
Proof.
  intro Hi. unfold pick.
  destruct (ArrayFacts.item_Some table i Hi) as (x & -> & Hx). exact Hx.
Qed.

Lemma pick_inj (table : list string) (i j : Z) :
  NoDup table ->
  (0 <= i < Z.of_nat (length table))%Z -> (0 <= j < Z.of_nat (length table))%Z ->
  pick table i = pick table j -> i = j.
Proof.
  intros Hnd Hi Hj. unfold pick, item.
  destruct (Z.ltb_spec i 0); [lia |]. destruct (Z.ltb_spec j 0); [lia |].
  destruct (table !! Z.to_nat i) as [x |] eqn:Ei;
    [| apply lookup_ge_None in Ei; lia].
  destruct (table !! Z.to_nat j) as [y |] eqn:Ej;
    [| apply lookup_ge_None in Ej; lia].
  intros ->. pose proof (NoDup_lookup _ _ _ _ Hnd Ei Ej). lia.
Qed.

(** The sixteen highlight options differ in their first three
    characters, whatever the city and the subcategory. *)
Lemma highlightOptions_NoDup (city subcategory : string) :
  NoDup (highlightOptions city subcategory).
Proof.
  apply (NoDup_fmap_1 key3). vm_compute.
  apply (bool_decide_unpack _). vm_compute. exact I.
Qed.

Lemma holds_false (highlights : list string) (option : string) :
  option ∉ highlights -> holds highlights option = false.
Proof.
  intro H. unfold holds. destruct (existsb _ _) eqn:E; [| reflexivity].
  apply existsb_exists in E as (x & Hx & Hxo). apply String.eqb_eq in Hxo. subst x.
  exfalso. apply H, list_elem_of_In, Hx.
Qed.

(** As long as the options picked are distinct, the loop pushes them and
    never the fallback. *)
Lemma push_distinct (f : Z -> string) (fallback : string) (l : list Z) :
  forall acc, NoDup (acc ++ map f l) ->
    fold_left
      (fun highlights i =>
         if negb (holds highlights (f i)) then highlights ++ [f i]
         else highlights ++ [fallback])
      l acc
    = acc ++ map f l.
Proof.
  induction l as [| i l IH]; intros acc Hnd; simpl.
  - rewrite app_nil_r. reflexivity.
  - simpl in Hnd. rewrite holds_false.
    + simpl. rewrite IH by (rewrite <- app_assoc; exact Hnd).
      rewrite <- app_assoc. reflexivity.
    + apply NoDup_app in Hnd as (_ & Hdisj & _). intro Hin.
      apply (Hdisj _ Hin). left.
Qed.

Lemma highlights_distinct (name city subcategory category : string) (count seed : Z) :
  (0 <= seed)%Z -> (0 <= count <= 16)%Z ->
  generateActivityHighlights name city subcategory category count seed
  = map (fun i => pick (highlightOptions city subcategory) (Z.rem (seed + i * 17) 16))
      (upto count)
  /\ NoDup (generateActivityHighlights name city subcategory category count seed).
Proof.
  intros Hseed Hcount.
  assert (Hnd : NoDup (map (fun i => pick (highlightOptions city subcategory)
                                       (Z.rem (seed + i * 17) 16)) (upto count))).
  { change (map ?f ?l) with (f <$> l).
    apply NoDup_fmap_2_strong; [| apply FlightsFacts.upto_NoDup].
    intros i j Hi Hj Hij.
    destruct (ArrayFacts.upto_spec count) as [Hup _]. rewrite Forall_forall in Hup.
    pose proof (Hup i Hi) as Ri. pose proof (Hup j Hj) as Rj. cbv beta in Ri, Rj.
    apply pick_inj in Hij;
      [| apply highlightOptions_NoDup
       | change (Z.of_nat (length (highlightOptions city subcategory))) with 16%Z;
         apply rem_range; lia ..].
    rewrite !Z.rem_mod_nonneg in Hij by lia.
    pose proof (Z.div_mod (seed + i * 17) 16 ltac:(lia)).
    pose proof (Z.div_mod (seed + j * 17) 16 ltac:(lia)).
    lia. }
  assert (E : generateActivityHighlights name city subcategory category count seed
              = map (fun i => pick (highlightOptions city subcategory)
                                (Z.rem (seed + i * 17) 16)) (upto count)).
  { unfold generateActivityHighlights.
    apply (push_distinct
             (fun i => pick (highlightOptions city subcategory) (Z.rem (seed + i * 17) 16))
             _ (upto count) []).
    exact Hnd. }
  split; [exact E | rewrite E; exact Hnd].
Qed.

Lemma kinds_five : Forall (fun kind => length (kindSubcategories kind) = 5%nat) categories.
Proof. repeat constructor. Qed.

Lemma categoryMultiplier_range (category : string) :
  5 # 10 <= categoryMultiplier category /\ categoryMultiplier category <= 18 # 10.
Proof.
  unfold categoryMultiplier.
  repeat match goal with
         | |- context [String.eqb ?a ?b] => destruct (String.eqb a b)
         end; split; lra.
Qed.

(** A product of two factors between bounds. *)
Lemma product_bounds (a a1 a2 b b1 b2 : Q) :
  0 <= a1 -> a1 <= a -> a <= a2 -> 0 <= b1 -> b1 <= b -> b <= b2 ->
  a1 * b1 <= a * b /\ a * b <= a2 * b2.
Proof.
  intros. split; apply Qmult_le_compat_nonneg; split; lra.
Qed.

Lemma inject_Z_range (lo hi z : Z) :
  (lo <= z <= hi)%Z -> inject_Z lo <= inject_Z z /\ inject_Z z <= inject_Z hi.
Proof. intros [H1 H2]. split; rewrite <- Zle_Qle; assumption. Qed.

(** One activity, for a category of the table and a seed that is not
    negative. *)
Lemma generateActivity_Ok (city : string) (kind : Kind) (seed : Z) (interest : option string) :
  kind ∈ categories -> (0 <= seed)%Z ->
  exists a,
    generateActivity city (kindName kind) (kindSubcategories kind) seed interest = Ok a
    /\ madeFrom city kind seed a.
Proof.
  intros Hkind Hseed.
  pose proof kinds_five as H5. rewrite Forall_forall in H5. specialize (H5 kind Hkind).
  unfold generateActivity. rewrite H5. cbn [Nat.eqb].
  destruct (ArrayFacts.item_Some (kindSubcategories kind) (Z.rem seed 5))
    as (sub & Hsub & Hin).
  { rewrite H5. apply rem_range; lia. }
  change (Z.of_nat 5) with 5%Z. cbn [mbind option_bind]. rewrite Hsub. cbv zeta.
  eexists. split; [reflexivity |].
  pose proof (rem_range seed 30 Hseed eq_refl) as R30.
  pose proof (rem_range seed 40 Hseed eq_refl) as R40.
  pose proof (rem_range seed 150 Hseed eq_refl) as R150.
  pose proof (rem_range seed 3 Hseed eq_refl) as R3.
  pose proof (rem_range seed 2 Hseed eq_refl) as R2.
  pose proof (rem_range seed 10 Hseed eq_refl) as R10.
  pose proof (rem_range (Z.rem seed 10) 6 ltac:(lia) eq_refl) as R6.
  destruct (inject_Z_range 0 29 (Z.rem seed 30) ltac:(lia)) as [Q30a Q30b].
  change (inject_Z 0) with 0 in Q30a. change (inject_Z 29) with 29 in Q30b.
  assert (Hrating : 35 # 10 <= (35 # 10) + inject_Z (Z.rem seed 30) / 20
                    /\ (35 # 10) + inject_Z (Z.rem seed 30) / 20 <= 495 # 100).
  { unfold Qdiv. change (/ 20) with (1 # 20). split; lra. }
  unfold madeFrom.
  cbn [Activities.city category id duration currency rating price reviewCount tags
       suitableFor highlights subcategories].
  split; [reflexivity |]. split; [reflexivity |]. split; [reflexivity |].
  split; [reflexivity |]. split; [reflexivity |]. split; [exact Hrating |].
  split.
  { (* the price *)
    set (d := Z.max 1 (Z.rem (Z.rem seed 10) 6)).
    destruct (inject_Z_range 1 5 d ltac:(unfold d; lia)) as [D1 D5].
    change (inject_Z 1) with 1 in D1. change (inject_Z 5) with 5 in D5.
    destruct (categoryMultiplier_range (kindName kind)) as [M1 M2].
    assert (Hbase : (10 <= getBaseActivityPrice (kindName kind) d <= 180)%Z).
    { unfold getBaseActivityPrice.
      destruct (product_bounds (20 * inject_Z d) 20 100 (categoryMultiplier (kindName kind))
                  (5 # 10) (18 # 10)) as [P1 P2]; try lra.
      apply WeatherRanges.Math_round_bounds.
      - change (inject_Z 10) with 10. lra.
      - change (inject_Z 180) with 180. lra. }
    destruct (inject_Z_range 10 180 _ Hbase) as [B1 B2].
    change (inject_Z 10) with 10 in B1. change (inject_Z 180) with 180 in B2.
    destruct (inject_Z_range 0 39 (Z.rem seed 40) ltac:(lia)) as [V1 V2].
    change (inject_Z 0) with 0 in V1. change (inject_Z 39) with 39 in V2.
    destruct (product_bounds (inject_Z (getBaseActivityPrice (kindName kind) d)) 10 180
                ((8 # 10) + inject_Z (Z.rem seed 40) / 100) (8 # 10) (119 # 100))
      as [P1 P2]; try lra;
      try (unfold Qdiv; change (/ 100) with (1 # 100); lra).
    apply WeatherRanges.Math_round_bounds.
    - change (inject_Z 8) with 8. lra.
    - change (inject_Z 214) with 214. lra. }
  split.
  { (* the number of reviews *)
    assert (Hfloor : (0 <= Weather.Math_floor
                             ((35 # 10) + inject_Z (Z.rem seed 30) / 20 - 3) <= 1)%Z).
    { apply WeatherRanges.Math_floor_bounds.
      - change (inject_Z 0) with 0. lra.
      - change (inject_Z 1) with 1. lra. }
    nia. }
  split.
  { rewrite length_app, length_map, (proj2 (ArrayFacts.upto_spec 3)).
    destruct interest as [text |]; [destruct (String.eqb text "") |]; simpl; lia. }
  split.
  { rewrite length_map, (proj2 (ArrayFacts.upto_spec _)). lia. }
  destruct (highlights_distinct
              (generateActivityName city (kindName kind) sub seed) city sub (kindName kind)
              (3 + Z.rem seed 2) seed Hseed ltac:(lia)) as [E Hnd].
  split.
  { rewrite E, length_map, (proj2 (ArrayFacts.upto_spec _)). lia. }
  split; [exact Hnd |].
  exists sub. split; [exact Hin |]. split; [reflexivity |].
  rewrite E. apply Forall_map.
  eapply Forall_impl; [exact (proj1 (ArrayFacts.upto_spec _)) |].
  intros i Hi. cbv beta in Hi. apply pick_Some.
  change (Z.of_nat (length (highlightOptions city sub))) with 16%Z.
  apply rem_range; lia.
Qed.

(** A loop whose turns all succeed, with an invariant that counts the
    turns. *)
Lemma forEach_steps {A St} (body : St -> A -> result St) (l : list A) :
  forall (J : nat -> St -> Prop),
    (forall n s x, l !! n = Some x -> J n s -> exists s', body s x = Ok s' /\ J (S n) s') ->
    forall acc, J 0%nat acc -> exists r, forEach body l acc = Ok r /\ J (length l) r.
Proof.
  induction l as [| x l IH]; intros J Hstep acc Hacc; simpl.
  - exists acc. split; [reflexivity | exact Hacc].
  - destruct (Hstep 0%nat acc x eq_refl Hacc) as (s' & -> & Hs'). simpl.
    apply (IH (fun n => J (S n))); [| exact Hs'].
    intros n s y Hy Hs. apply (Hstep (S n) s y Hy Hs).
Qed.

Lemma upto_lookup (m : Z) (n : nat) (x : Z) : upto m !! n = Some x -> x = Z.of_nat n.
Proof.
  unfold upto. change (map ?f ?l) with (f <$> l). rewrite list_lookup_fmap.
  destruct (seq 0 (Z.to_nat m) !! n) as [k |] eqn:E; [| discriminate].
  apply lookup_seq in E as [-> _]. intros [= <-]. reflexivity.
Qed.

Lemma filter_categories (interest : string) (kind : Kind) :
  kind ∈ List.filter (matches interest) categories -> kind ∈ categories.
Proof.
  rewrite !list_elem_of_In. intro H. apply filter_In in H. tauto.
Qed.

(** The first loop of generateActivities. *)
Lemma interestActivities_Ok (city : string) (userInterests : list string) (seed : Z) :
  (0 <= seed)%Z ->
  exists acts,
    interestActivities city userInterests seed = Ok acts
    /\ (length acts <= 8)%nat /\ (length acts <= length userInterests)%nat
    /\ Forall (generated city seed) acts.
Proof.
  intro Hseed. unfold interestActivities.
  match goal with
  | |- context [forEach ?body ?l ?acc] =>
      pose proof (forEach_steps body l
                    (fun n s => (length s <= n)%nat /\ Forall (generated city seed) s))
        as Hloop
  end.
  lazymatch type of Hloop with ?P -> _ => assert (Hstep : P) end.
  - intros n s [i text] Hx [Hlen Hall].
    apply lookup_zip_with_Some in Hx as (i' & text' & [= <- <-] & Hi & _).
    apply upto_lookup in Hi. subst i.
    destruct (0 <? length (List.filter (matches (Generators.toLowerCase text)) categories))%nat
      eqn:Hm.
    + apply Nat.ltb_lt in Hm.
      destruct (ArrayFacts.item_Some
                  (List.filter (matches (Generators.toLowerCase text)) categories)
                  (Z.rem (seed + Z.of_nat n)
                     (Z.of_nat (length (List.filter (matches (Generators.toLowerCase text))
                                          categories)))))
        as (kind & -> & Hkind).
      { apply rem_range; lia. }
      apply filter_categories in Hkind.
      destruct (generateActivity_Ok city kind (seed + Z.of_nat n * 100)
                  (Some (Generators.toLowerCase text)) Hkind ltac:(lia))
        as (a & -> & Ha).
      unfold_bind. eexists. split; [reflexivity |]. split.
      * rewrite length_app. simpl. lia.
      * apply Forall_app. split; [exact Hall |]. constructor; [| constructor].
        exists (Z.of_nat n), kind. split; [lia |]. split; assumption.
    + eexists. split; [reflexivity |]. split; [lia | exact Hall].
  - destruct (Hloop Hstep [] ltac:(split; [simpl; lia | constructor]))
      as (r & Hr & Hlen & Hall).
    exists r. split; [exact Hr |].
    rewrite length_zip_with, (proj2 (ArrayFacts.upto_spec 8)) in Hlen.
    change (Z.to_nat 8) with 8%nat in Hlen.
    split; [lia |]. split; [lia | exact Hall].
Qed.

Lemma kind_parity (index : Z) (kind : Kind) :
  (0 <= index < 8)%Z -> item categories index = Some kind ->
  kindName kind ∈ kindsOfParity (index mod 2).
Proof.
  intros Hi.
  assert (E : (index = 0 \/ index = 1 \/ index = 2 \/ index = 3 \/ index = 4
               \/ index = 5 \/ index = 6 \/ index = 7)%Z) by lia.
  repeat destruct E as [-> | E]; try subst index;
    intros [= <-]; apply list_elem_of_In; vm_compute; tauto.
Qed.

(** The second loop: [count] more activities, all of categories at
    positions of one parity. *)
Lemma fillActivities_Ok (city : string) (remainingActivities : Q) (seed : Z)
    (acts0 : list Activity) :
  (0 <= seed)%Z ->
  exists fill,
    fillActivities city remainingActivities seed acts0 = Ok (acts0 ++ fill)
    /\ length fill = Z.to_nat (Qceiling remainingActivities)
    /\ Forall (generated city seed) fill
    /\ Forall (fun a =>
                 category a ∈ kindsOfParity ((seed + Z.of_nat (length acts0)) mod 2))
         fill.
Proof.
  intro Hseed. unfold fillActivities.
  match goal with
  | |- context [forEach ?body ?l ?acc] =>
      pose proof (forEach_steps body l
                    (fun n s =>
                       exists fill,
                         s = acts0 ++ fill /\ length fill = n
                         /\ Forall (generated city seed) fill
                         /\ Forall (fun a =>
                                      category a
                                      ∈ kindsOfParity
                                          ((seed + Z.of_nat (length acts0)) mod 2))
                              fill))
        as Hloop
  end.
  lazymatch type of Hloop with ?P -> _ => assert (Hstep : P) end.
  - intros n s x Hx (fill & -> & Hlen & Hall & Hpar).
    apply upto_lookup in Hx. subst x.
    rewrite length_app, Hlen.
    set (k0 := length acts0) in *.
    destruct (ArrayFacts.item_Some categories
                (Z.rem (seed + Z.of_nat n + Z.of_nat (k0 + n)) 8))
      as (kind & Hitem & Hkind).
    { change (Z.of_nat (length categories)) with 8%Z. apply rem_range; lia. }
    rewrite Hitem.
    destruct (generateActivity_Ok city kind
                (seed + (Z.of_nat n + Z.of_nat (k0 + n)) * 100) None Hkind ltac:(lia))
      as (a & -> & Ha).
    unfold_bind. eexists. split; [reflexivity |].
    exists (fill ++ [a]). split; [rewrite app_assoc; reflexivity |].
    split; [rewrite length_app; simpl; lia |].
    split.
    + apply Forall_app. split; [exact Hall |]. constructor; [| constructor].
      exists (Z.of_nat n + Z.of_nat (k0 + n))%Z, kind. split; [lia |].
      split; assumption.
    + apply Forall_app. split; [exact Hpar |]. constructor; [| constructor].
      destruct Ha as (_ & -> & _).
      pose proof (kind_parity _ kind
                    (rem_range (seed + Z.of_nat n + Z.of_nat (k0 + n)) 8 ltac:(lia) eq_refl)
                    Hitem) as Hk.
      replace ((seed + Z.of_nat k0) mod 2)%Z
        with (Z.rem (seed + Z.of_nat n + Z.of_nat (k0 + n)) 8 mod 2)%Z; [exact Hk |].
      rewrite Z.rem_mod_nonneg by lia.
      pose proof (Z.div_mod (seed + Z.of_nat n + Z.of_nat (k0 + n)) 8 ltac:(lia)).
      pose proof (Z.mod_pos_bound (seed + Z.of_nat n + Z.of_nat (k0 + n)) 8 eq_refl).
      pose proof (Z.div_mod ((seed + Z.of_nat n + Z.of_nat (k0 + n)) mod 8) 2 ltac:(lia)).
      pose proof (Z.mod_pos_bound ((seed + Z.of_nat n + Z.of_nat (k0 + n)) mod 8) 2 eq_refl).
      pose proof (Z.div_mod (seed + Z.of_nat k0) 2 ltac:(lia)).
      pose proof (Z.mod_pos_bound (seed + Z.of_nat k0) 2 eq_refl).
      lia.
  - destruct (Hloop Hstep acts0
                ltac:(exists []; rewrite app_nil_r; repeat split; constructor))
      as (r & Hr & fill & -> & Hlen & Hall & Hpar).
    exists fill. split; [exact Hr |].
    rewrite (proj2 (ArrayFacts.upto_spec _)) in Hlen.
    split; [exact Hlen |]. split; assumption.
Qed.

Lemma after_false (a b : Activity) : after a b = false <-> inOrder a b.
Proof.
  unfold after, inOrder.
  destruct (Qeq_bool (rating b) (rating a)) eqn:E; cbn [negb].
  - apply Qeq_bool_eq in E. split.
    + intro H. right. split; [symmetry; exact E |].
      destruct (Z.gtb_spec (price a - price b) 0); [discriminate | lia].
    + intros [H | [_ H]]; [rewrite E in H; exfalso; apply (Qlt_irrefl _ H) |].
      destruct (Z.gtb_spec (price a - price b) 0); [lia | reflexivity].
  - apply Qeq_bool_neq in E. split.
    + intro H. left. apply negb_false_iff, Qle_bool_iff in H.
      apply Qle_lteq in H as [H | H]; [lra |]. exfalso. apply E. lra.
    + intros [H | [H _]]; [| exfalso; apply E; symmetry; exact H].
      apply negb_false_iff, Qle_bool_iff. lra.
Qed.

Lemma after_true (a b : Activity) : after a b = true -> inOrder b a.
Proof.
  unfold after, inOrder.
  destruct (Qeq_bool (rating b) (rating a)) eqn:E; cbn [negb].
  - apply Qeq_bool_eq in E. intro H. right. split; [exact E |].
    destruct (Z.gtb_spec (price a - price b) 0); [lia | discriminate].
  - intro H. left. apply negb_true_iff in H.
    destruct (Qlt_le_dec 0 (rating b - rating a)) as [Hlt | Hle]; [lra |].
    apply Qle_bool_iff in Hle. congruence.
Qed.

Lemma inOrder_trans (a b c : Activity) : inOrder a b -> inOrder b c -> inOrder a c.
Proof.
  unfold inOrder. intros [H1 | [E1 P1]] [H2 | [E2 P2]].
  - left. lra.
  - left. rewrite <- E2. exact H1.
  - left. rewrite E1. exact H2.
  - right. split; [rewrite E1; exact E2 | lia].
Qed.

Lemma sort_after_inOrder (l : list Activity) :
  forall i j a b, (i < j)%nat ->
    sort after l !! i = Some a -> sort after l !! j = Some b -> inOrder a b.
Proof.
  intros i j a b Hij Ha Hb. apply after_false.
  apply (ArrayFacts.StronglySorted_lookup _ _
           (ArrayFacts.sort_sorted after l
              ltac:(intros x y Hxy; apply after_false, after_true, Hxy)
              ltac:(intros x y z Hxy Hyz; apply after_false;
                    apply after_false in Hxy; apply after_false in Hyz;
                    eapply inOrder_trans; eassumption))
           i j a b Hij Ha Hb).
Qed.

Lemma Qceiling_unique (x : Q) (c : Z) :
  inject_Z (c - 1) < x -> x <= inject_Z c -> Qceiling x = c.
Proof.
  intros H1 H2.
  pose proof (Qle_ceiling x) as H3. pose proof (Qceiling_lt x) as H4.
  assert (A : inject_Z (c - 1) < inject_Z (Qceiling x)) by lra.
  assert (B : inject_Z (Qceiling x - 1) < inject_Z c) by lra.
  rewrite <- Zlt_Qlt in A, B. lia.
Qed.

Lemma Qceiling_minus_Z (x : Q) (k : Z) : Qceiling (x - inject_Z k) = (Qceiling x - k)%Z.
Proof.
  pose proof (Qle_ceiling x) as H3. pose proof (Qceiling_lt x) as H4.
  apply Qceiling_unique.
  - replace (Qceiling x - k - 1)%Z with (Qceiling x - 1 + - k)%Z by lia.
    rewrite inject_Z_plus, inject_Z_opp. lra.
  - unfold Z.sub. rewrite inject_Z_plus, inject_Z_opp. lra.
Qed.

(** The number of activities asked for, for a trip of [t] days. *)
Lemma numActivities_range (t : Q) :
  0 <= t -> (10 <= Qceiling (Qmin 50 (t * 4 + 10)) <= 50)%Z.
Proof.
  intro Ht.
  assert (L : 10 <= Qmin 50 (t * 4 + 10)) by (apply Q.min_glb; lra).
  pose proof (Qceiling_resp_le _ _ L) as H1.
  pose proof (Qceiling_resp_le _ _ (Q.le_min_l 50 (t * 4 + 10))) as H2.
  change (Qceiling 10) with 10%Z in H1. change (Qceiling 50) with 50%Z in H2.
  split; assumption.
Qed.

(** generateActivities, for a seed and a trip duration that are not
    negative. *)
Lemma generateActivities_Ok (city : string) (interests : list string) (t : Q) (seed : Z) :
  (0 <= seed)%Z -> 0 <= t ->
  exists matched fill,
    generateActivities city interests t seed = Ok (sort after (matched ++ fill))
    /\ (length matched <= 8)%nat
    /\ length (matched ++ fill) = Z.to_nat (Qceiling (Qmin 50 (t * 4 + 10)))
    /\ Forall (generated city seed) (matched ++ fill)
    /\ Forall (fun a =>
                 category a ∈ kindsOfParity ((seed + Z.of_nat (length matched)) mod 2))
         fill.
Proof.
  intros Hseed Ht. unfold generateActivities. cbv zeta.
  destruct (interestActivities_Ok city
              (if (0 <? length interests)%nat then interests
               else ["history"; "food"; "culture"; "nature"]%string) seed Hseed)
    as (matched & -> & H8 & _ & Hgen).
  unfold_bind.
  destruct (fillActivities_Ok city
              (Qmin 50 (t * 4 + 10) - inject_Z (Z.of_nat (length matched))) seed matched Hseed)
    as (fill & -> & Hlen & Hfill & Hpar).
  exists matched, fill. split; [reflexivity |]. split; [exact H8 |].
  split; [| split; [apply Forall_app; split; assumption | exact Hpar]].
  rewrite length_app, Hlen, Qceiling_minus_Z.
  pose proof (numActivities_range t Ht). lia.
Qed.

Lemma durationFor_shift (seed k : Z) :
  (0 <= seed)%Z -> (0 <= k)%Z -> durationFor (seed + k * 100) = durationFor seed.
Proof.
  intros Hseed Hk. unfold durationFor.
  assert (E10 : Z.rem (seed + k * 100) 10 = Z.rem seed 10).
  { rewrite !Z.rem_mod_nonneg by lia.
    replace (seed + k * 100)%Z with (seed + k * 10 * 10)%Z by lia.
    apply Z.mod_add. lia. }
  assert (E2 : Z.rem (seed + k * 100 + 3) 2 = Z.rem (seed + 3) 2).
  { rewrite !Z.rem_mod_nonneg by lia.
    replace (seed + k * 100 + 3)%Z with (seed + 3 + k * 50 * 2)%Z by lia.
    apply Z.mod_add. lia. }
  rewrite E10, E2. reflexivity.
Qed.

End ActivitiesFacts.

(* ------------------------------------------------------------------ *)
(** ** Facts about the hotel generator *)

Module HotelsFacts.
Import JSArray.
Import JSString.
Import Hotels.
Import HotelNotions.

Lemma insertBy_ext {A} (gt gt' : A -> A -> bool) (x : A) (s : list A) :
  Forall (fun y => gt x y = gt' x y) s -> insertBy gt x s = insertBy gt' x s.
Proof.
  induction 1 as [| y s Hy _ IH]; simpl; [reflexivity |].
  rewrite Hy, IH. reflexivity.
Qed.

(** Two comparators that agree on the elements of an array sort it the
    same way. *)
Lemma sort_ext {A} (gt gt' : A -> A -> bool) (P : A -> Prop) (l : list A) :
  (forall a b, P a -> P b -> gt a b = gt' a b) -> Forall P l ->
  sort gt l = sort gt' l.
Proof.
  intros Hagree. unfold sort. induction 1 as [| x l Hx Hl IH]; simpl; [reflexivity |].
  rewrite IH. apply insertBy_ext.
  fold (sort gt' l). rewrite (ArrayFacts.sort_Permutation gt' l).
  eapply Forall_impl; [exact Hl |]. intros y Hy. apply Hagree; assumption.
Qed.

(** Hotels that all have a price come out by ascending price. *)
Lemma priced_sorted (l : list Hotel) :
  Forall (fun h => is_Some (price h)) l ->
  forall i j a b, (i < j)%nat ->
    sort dearer l !! i = Some a -> sort dearer l !! j = Some b ->
    exists x y, price a = Some x /\ price b = Some y /\ (x <= y)%Z.
Proof.
  intros Hall i j a b Hij Ha Hb.
  assert (E : sort dearer l = sort dearer0 l).
  { apply (sort_ext dearer dearer0 (fun h => is_Some (price h)) l); [| exact Hall].
    intros x y [px Hx] [py Hy]. unfold dearer, dearer0, priceOr0.
    rewrite Hx, Hy. reflexivity. }
  rewrite E in Ha, Hb.
  assert (Hin : forall h, h ∈ sort dearer0 l -> is_Some (price h)).
  { intros h Hh. rewrite (ArrayFacts.sort_Permutation dearer0 l) in Hh.
    rewrite Forall_forall in Hall. apply Hall, Hh. }
  destruct (Hin a (list_elem_of_lookup_2 _ _ _ Ha)) as [x Hx].
  destruct (Hin b (list_elem_of_lookup_2 _ _ _ Hb)) as [y Hy].
  exists x, y. split; [exact Hx |]. split; [exact Hy |].
  assert (H : dearer0 a b = false).
  { apply (ArrayFacts.StronglySorted_lookup _ _
             (ArrayFacts.sort_sorted dearer0 l
                ltac:(unfold dearer0; intros u v Huv; apply Z.gtb_lt in Huv;
                      destruct (Z.gtb_spec (priceOr0 v - priceOr0 u) 0);
                      [lia | reflexivity])
                ltac:(unfold dearer0; intros u v w Huv Hvw;
                      destruct (Z.gtb_spec (priceOr0 u - priceOr0 v) 0); [discriminate |];
                      destruct (Z.gtb_spec (priceOr0 v - priceOr0 w) 0); [discriminate |];
                      destruct (Z.gtb_spec (priceOr0 u - priceOr0 w) 0);
                      [lia | reflexivity]))
             i j a b Hij Ha Hb). }
  unfold dearer0, priceOr0 in H. rewrite Hx, Hy in H.
  destruct (Z.gtb_spec (x - y) 0); [discriminate | lia].
Qed.

(** Hotels without a price are left in the order of their generation. *)
Lemma sort_no_price (l : list Hotel) :
  Forall (fun h => price h = None) l -> sort dearer l = l.
Proof.
  unfold sort. induction 1 as [| x l Hx _ IH]; simpl; [reflexivity |].
  rewrite IH. destruct l as [| y l]; [reflexivity |].
  simpl. unfold dearer. rewrite Hx. reflexivity.
Qed.

Lemma amenities_NoDup : NoDup (commonAmenities ++ luxuryAmenities).
Proof.
  apply (NoDup_fmap_1 codes). vm_compute.
  apply (bool_decide_unpack _). vm_compute. exact I.
Qed.

Lemma shift_rem (seed i m q : Z) :
  (0 <= seed)%Z -> (0 <= i)%Z -> (0 < m)%Z -> (100 = q * m)%Z ->
  Z.rem (seed + i * 100) m = Z.rem seed m.
Proof.
  intros Hs Hi Hm Hq. rewrite !Z.rem_mod_nonneg by lia.
  replace (seed + i * 100)%Z with (seed + i * q * m)%Z by (rewrite Hq; ring).
  apply Z.mod_add. lia.
Qed.

(** One hotel of the loop, for a seed and an index that are not
    negative. *)
Lemma hotelAt_facts (Math_pow : Q -> Q -> Q) (city country : string) (nights : option Z)
    (guests : Q) (accommodationType : string) (seed i : Z) :
  (0 <= seed)%Z -> (0 <= i)%Z ->
  let h := hotelAt Math_pow city country nights guests accommodationType seed i in
  wellFormedHotel guests h
  /\ rating h = 3 + inject_Z (Z.rem seed 20) / 10
  /\ Hotels.city h = city /\ Hotels.country h = country
  /\ price h
     = match pricePerNight h, nights with
       | Some perNight, Some nights => Some (perNight * nights * Qceiling (guests / 2))%Z
       | _, _ => None
       end
  /\ (is_Some (pricePerNight h) <-> is_Some (typeMultiplier accommodationType)).
Proof.
  intros Hseed Hi h.
  pose proof (shift_rem seed i 20 5 Hseed Hi eq_refl eq_refl) as E20.
  pose proof (ActivitiesFacts.rem_range seed 20 Hseed eq_refl) as R20.
  destruct (ActivitiesFacts.inject_Z_range 0 19 (Z.rem seed 20) ltac:(lia)) as [Q1 Q2].
  change (inject_Z 0) with 0 in Q1. change (inject_Z 19) with 19 in Q2.
  assert (Hrating : rating h = 3 + inject_Z (Z.rem seed 20) / 10).
  { unfold h, hotelAt. cbn [rating]. rewrite E20. reflexivity. }
  assert (Hfloor : (1 <= Weather.Math_floor (rating h - 2) <= 2)%Z).
  { rewrite Hrating. apply WeatherRanges.Math_floor_bounds.
    - change (inject_Z 1) with 1. unfold Qdiv. change (/ 10) with (1 # 10). lra.
    - change (inject_Z 2) with 2. unfold Qdiv. change (/ 10) with (1 # 10). lra. }
  split; [| split; [exact Hrating | split; [reflexivity | split; [reflexivity |]]]].
  - unfold wellFormedHotel. rewrite Hrating.
    split; [unfold Qdiv; change (/ 10) with (1 # 10); split; lra |].
    split.
    { unfold h, hotelAt. cbn [reviewCount].
      pose proof (ActivitiesFacts.rem_range (seed + i * 100) 1000 ltac:(lia) eq_refl). lia. }
    assert (Ham : amenities h
                  = commonAmenities
                    ++ map (fun j => pick luxuryAmenities (Z.rem (seed + i * 100 + j * 11) 10))
                         (upto (Weather.Math_floor (rating h - 2)))).
    { unfold h at 1. unfold hotelAt. cbn [amenities].
      change (Z.of_nat (length luxuryAmenities)) with 10%Z.
      rewrite Z.min_l by (fold h; unfold h, hotelAt in Hfloor; cbn [rating] in Hfloor; lia).
      reflexivity. }
    destruct (ArrayFacts.upto_spec (Weather.Math_floor (rating h - 2))) as [Hup Hlen].
    split.
    { rewrite Ham, length_app, length_map, Hlen.
      change (length commonAmenities) with 5%nat. lia. }
    assert (Hlux : Forall (fun a => a ∈ luxuryAmenities)
                     (map (fun j => pick luxuryAmenities
                                      (Z.rem (seed + i * 100 + j * 11) 10))
                        (upto (Weather.Math_floor (rating h - 2))))).
    { apply Forall_map. eapply Forall_impl; [exact Hup |]. intros j Hj. cbv beta in Hj.
      apply ActivitiesFacts.pick_Some.
      change (Z.of_nat (length luxuryAmenities)) with 10%Z.
      apply ActivitiesFacts.rem_range; lia. }
    split.
    { rewrite Ham. pose proof amenities_NoDup as Hnd.
      apply NoDup_app in Hnd as (Hc & Hdisj & Hl).
      apply NoDup_app. split; [exact Hc |]. split.
      - intros a Ha Hin. apply (Hdisj a Ha).
        rewrite Forall_forall in Hlux. apply Hlux, Hin.
      - change (map ?f ?l) with (f <$> l).
        apply NoDup_fmap_2_strong; [| apply FlightsFacts.upto_NoDup].
        intros j1 j2 H1 H2 Hj.
        rewrite Forall_forall in Hup.
        pose proof (Hup j1 H1) as B1. pose proof (Hup j2 H2) as B2. cbv beta in B1, B2.
        apply ActivitiesFacts.pick_inj in Hj;
          [| exact Hl
           | change (Z.of_nat (length luxuryAmenities)) with 10%Z;
             apply ActivitiesFacts.rem_range; lia ..].
        rewrite !Z.rem_mod_nonneg in Hj by lia.
        pose proof (Z.div_mod (seed + i * 100 + j1 * 11) 10 ltac:(lia)).
        pose proof (Z.div_mod (seed + i * 100 + j2 * 11) 10 ltac:(lia)).
        lia. }
    split.
    { rewrite Ham. apply Forall_app. split.
      - apply Forall_forall. intros a Ha. apply elem_of_app. left. exact Ha.
      - eapply Forall_impl; [exact Hlux |]. intros a Ha. apply elem_of_app. right. exact Ha. }
    repeat split.
  - split; [reflexivity |].
    unfold h, hotelAt. cbn [pricePerNight]. unfold getBasePrice, is_Some.
    destruct (typeMultiplier accommodationType); simpl; split; intros [x Hx];
      try discriminate; eexists; reflexivity.
Qed.

Lemma amenities_count (Math_pow : Q -> Q -> Q) (city country : string) (nights : option Z)
    (guests : Q) (accommodationType : string) (seed i : Z) :
  (0 <= seed)%Z -> (0 <= i)%Z ->
  length (amenities (hotelAt Math_pow city country nights guests accommodationType seed i))
  = length (amenities (hotelAt Math_pow city country nights guests accommodationType seed 0)).
Proof.
  intros Hseed Hi. unfold hotelAt. cbn [amenities].
  rewrite !length_app, !length_map, !(proj2 (ArrayFacts.upto_spec _)).
  rewrite (shift_rem seed i 20 5), (shift_rem seed 0 20 5) by lia.
  reflexivity.
Qed.

(** The search always comes back with the sorted hotels of the loop. *)
Lemma searchHotels_Ok (Math_pow : Q -> Q -> Q) (newDate : string -> option Z)
    (destination checkInDate checkOutDate : string) (guests : Q)
    (accommodationType : string) :
  let seed :=
    Generators.hashString
      (String.append destination
         (String.append "-" (String.append checkInDate (String.append "-" checkOutDate)))) in
  searchHotels Math_pow newDate destination checkInDate checkOutDate guests accommodationType
  = JS.Ok
      (sort dearer
         (map (hotelAt Math_pow (Generators.cityOf destination)
                 (Generators.countryOf destination)
                 (Generators.nightsBetween (newDate checkInDate) (newDate checkOutDate))
                 guests (Generators.toLowerCase accommodationType) seed)
            (upto (8 + Z.rem seed 8)))).
Proof. reflexivity. Qed.

Lemma generated_Forall (P : Hotel -> Prop) (f : Z -> Hotel) (n : Z) :
  (forall i, (0 <= i)%Z -> P (f i)) -> Forall P (map f (upto n)).
Proof.
  intro H. apply Forall_map. eapply Forall_impl; [exact (proj1 (ArrayFacts.upto_spec n)) |].
  intros i Hi. cbv beta in Hi. apply H. lia.
Qed.

Lemma sorted_Forall (P : Hotel -> Prop) (l : list Hotel) :
  Forall P l -> Forall P (sort dearer l).
Proof. intro H. rewrite (ArrayFacts.sort_Permutation dearer l). exact H. Qed.

Lemma generated_length (f : Z -> Hotel) (seed : Z) :
  (0 <= seed)%Z ->
  (8 <= length (sort dearer (map f (upto (8 + Z.rem seed 8)))) <= 15)%nat.
Proof.
  intro Hseed. rewrite (Permutation_length (ArrayFacts.sort_Permutation dearer _)).
  rewrite length_map, (proj2 (ArrayFacts.upto_spec _)).
  pose proof (ActivitiesFacts.rem_range seed 8 Hseed eq_refl). lia.
Qed.

Lemma generated_lookup (f : Z -> Hotel) (n : Z) (k : nat) (h : Hotel) :
  map f (upto n) !! k = Some h -> h = f (Z.of_nat k).
Proof.
  change (map f (upto n)) with (f <$> upto n). rewrite list_lookup_fmap.
  destruct (upto n !! k) as [x |] eqn:E; [| discriminate].
  apply ActivitiesFacts.upto_lookup in E as ->. intros [= <-]. reflexivity.
Qed.

End HotelsFacts.

(* ------------------------------------------------------------------ *)
(** ** Facts about the matching of names *)

Module MatchingFacts.
Import JSString.
Import Matching.
Import MatchingNotions.

Lemma prefix_spec (needle hay : string) :
  String.prefix needle hay = true <-> exists post, hay = String.append needle post.
Proof.
  revert hay. induction needle as [| a needle IH]; intro hay.
  - destruct hay; simpl; (split; [intros _; eexists; reflexivity | reflexivity]).
  - destruct hay as [| b hay]; simpl.
    + split; [discriminate | intros [post H]; discriminate].
    + destruct (Ascii.ascii_dec a b) as [-> | Hab].
      * rewrite IH. split; intros [post H]; exists post; congruence.
      * split; [discriminate | intros [post H]; congruence].
Qed.

Lemma includes_eq (hay needle : string) :
  includes hay needle
  = String.prefix needle hay
    || match hay with
       | EmptyString => false
       | String _ rest => includes rest needle
       end.
Proof. destruct hay; reflexivity. Qed.

(** [includes] finds exactly the substrings. *)
Lemma includes_spec (hay needle : string) :
  includes hay needle = true <-> contains hay needle.
Proof.
  split.
  - induction hay as [| c hay IH]; rewrite includes_eq; intro H;
      apply orb_true_iff in H as [H | H].
    + apply prefix_spec in H as [post H]. exists EmptyString, post. exact H.
    + discriminate.
    + apply prefix_spec in H as [post H]. exists EmptyString, post. exact H.
    + destruct (IH H) as (pre & post & E). exists (String c pre), post.
      simpl. rewrite E. reflexivity.
  - intros (pre & post & E). revert hay E.
    induction pre as [| c pre IH]; intros hay E.
    + simpl in E. rewrite includes_eq.
      assert (P : String.prefix needle hay = true) by (apply prefix_spec; eauto).
      rewrite P. reflexivity.
    + simpl in E. subst hay. rewrite includes_eq, (IH _ eq_refl). apply orb_true_r.
Qed.

Lemma similar_spec {Item : Type} (name : Item -> string) (query : string) (item : Item) :
  similar Item name query item = true <-> related name query item.
Proof.
  unfold similar, related. rewrite orb_true_iff, !includes_spec. reflexivity.
Qed.

(** [Array.prototype.find]: the first element that passes, after
    elements that all fail. *)
Lemma find_first {A} (f : A -> bool) (l : list A) :
  match List.find f l with
  | Some x =>
      exists pre post, l = pre ++ x :: post /\ f x = true /\ Forall (fun y => f y = false) pre
  | None => Forall (fun y => f y = false) l
  end.
Proof.
  induction l as [| a l IH]; simpl; [constructor |].
  destruct (f a) eqn:Ha.
  - exists [], l. split; [reflexivity |]. split; [exact Ha | constructor].
  - destruct (List.find f l) as [x |].
    + destruct IH as (pre & post & -> & Hx & Hpre).
      exists (a :: pre), post. split; [reflexivity |]. split; [exact Hx |].
      constructor; assumption.
    + constructor; assumption.
Qed.

Lemma not_similar {Item : Type} (name : Item -> string) (query : string) (l : list Item) :
  Forall (fun y => similar Item name query y = false) l ->
  Forall (fun y => ~ related name query y) l.
Proof.
  intro H. eapply Forall_impl; [exact H |].
  intros y Hy Hr. cbv beta in Hy. apply similar_spec in Hr. congruence.
Qed.

End MatchingFacts.

(* ------------------------------------------------------------------ *)
(** ** Facts about the airport codes *)

Module AirportFacts.
Import Chars.

(** The character added to a short code is a capital letter. *)
Lemma extra_letter (h : Z) :
  (0 <= h)%Z -> (65 <= code (ascii_of_N (Z.to_N (65 + h mod 26))) <= 90)%N.
Proof.
  intro Hh. unfold code. pose proof (Z.mod_pos_bound h 26 eq_refl) as Hm.
  rewrite N_ascii_embedding by lia. lia.
Qed.

End AirportFacts.

(* ------------------------------------------------------------------ *)
(** * Further properties of the code *)

Import BudgetNotions.





(** X4.  With costs that are non-negative whole numbers of cents and
    activities of distinct names within each day, a run over budget raises
    no cost: every accommodation, activity and transportation cost returned
    is at most the one given, and the total returned is at most the sum of
    the costs given. *)
Theorem no_cost_raised (itinerary : Itinerary) (totalBudget : Q) :
  totalBudget < parseCurrency (totalCost itinerary) ->
  complete (days itinerary) ->
  Forall centsDay (days itinerary) ->
  Forall nonnegDay (days itinerary) ->
  Forall distinctNames (days itinerary) ->
  exists out,
    optimizeBudget itinerary totalBudget = Ok out
    /\ Forall2 (fun c c' => c' <= c)
         (accommodationCosts (days itinerary)) (accommodationCosts (days out))
    /\ Forall2 (fun c c' => c' <= c)
         (activitiesCosts (days itinerary)) (activitiesCosts (days out))
    /\ Forall2 (fun c c' => c' <= c)
         (transportationCosts (days itinerary)) (transportationCosts (days out))
    /\ parseCurrency (totalCost out) <= sumOfCosts (days itinerary).
Proof.
  intros Hover Hc Hcents Hpos Hnd.
  destruct (BudgetFacts.optimizeBudget_over itinerary totalBudget Hover Hc)
    as (b & ds1 & total & Hb & HA & HV & HT & Hred & Hcalc & Htot & Hout).
  eexists. split; [exact Hout |].
  cbn [days totalCost set_days set_totalCost].
  assert (Hs : 0 < parseCurrency (totalCost itinerary) - totalBudget) by lra.
  destruct (BudgetFacts.reduceDominant_le _ _ _ _ Hs Hcents Hpos Hnd HA HV HT Hred)
    as (LA & LV & LT).
  destruct (BudgetFacts.addBudgetAlternatives_costs ds1) as (-> & -> & ->).
  repeat split; try assumption.
  rewrite CurrencyFacts.parseCurrency_formatCurrency.
  rewrite OptimizerFacts.wholeCents_round2.
  - rewrite Htot. unfold sumOfCosts.
    pose proof (BudgetFacts.Qsum_le _ _ LA). pose proof (BudgetFacts.Qsum_le _ _ LV).
    pose proof (BudgetFacts.Qsum_le _ _ LT). lra.
  - eapply OptimizerFacts.calculateTotalCost_cents; [| exact Hcalc].
    eapply OptimizerFacts.reduceDominant_cents; eassumption.
Qed.

Lemma no_cost_raised_witness :
  exists out,
    optimizeBudget Examples.scenario 300 = Ok out
    /\ Forall2 (fun c c' => c' <= c)
         (accommodationCosts (days Examples.scenario)) (accommodationCosts (days out))
    /\ Forall2 (fun c c' => c' <= c)
         (activitiesCosts (days Examples.scenario)) (activitiesCosts (days out))
    /\ Forall2 (fun c c' => c' <= c)
         (transportationCosts (days Examples.scenario)) (transportationCosts (days out))
    /\ parseCurrency (totalCost out) <= sumOfCosts (days Examples.scenario).
Proof.
  apply (no_cost_raised Examples.scenario 300).
  - vm_compute. reflexivity.
  - repeat constructor; eexists; reflexivity.
  - cbv [Examples.scenario days Examples.day Examples.activity].
    repeat match goal with
           | |- Forall _ (_ :: _) => apply Forall_cons; split
           | |- Forall _ [] => constructor
           | |- centsDay _ => split; [| split]
           | |- centsActivities _ => unfold centsActivities; cbn [activities]
           | |- forall tr, _ = Some tr -> _ => intros tr [= <-]
           | |- wholeCents ?q => exists (Qfloor (q * 100)); vm_compute; reflexivity
           end.
  - repeat constructor; vm_compute; discriminate.
  - repeat constructor; rewrite ?list_elem_of_In; cbn; intuition discriminate.
Defined.

(** X5.  A run over budget (every day complete) adds to every day a list
    of alternatives that replaces any list the day came with: one
    alternative for each activity the day is returned with, in the same
    order, named "Budget " and the activity's name, described as a more
    affordable version of it, costing 60% of the activity's returned cost
    rounded to cents, with its type, location, duration and image.  The
    dates of the days are kept. *)
Theorem budget_alternatives_added (itinerary : Itinerary) (totalBudget : Q) :
  totalBudget < parseCurrency (totalCost itinerary) ->
  complete (days itinerary) ->
  exists out,
    optimizeBudget itinerary totalBudget = Ok out
    /\ map date (days out) = map date (days itinerary)
    /\ forall k day, days out !! k = Some day ->
         exists alts,
           alternativeActivities day = Some alts
           /\ length alts = length (activities day)
           /\ forall i a, activities day !! i = Some a ->
                exists alt,
                  alts !! i = Some alt
                  /\ Activity.name alt = String.append "Budget " (Activity.name a)
                  /\ Activity.description alt
                     = String.append "A more affordable version of "
                         (String.append (Activity.name a) ".")
                  /\ parseCurrency (Activity.cost alt)
                     == round2 (parseCurrency (Activity.cost a) * (6 # 10))
                  /\ Activity.type alt = Activity.type a
                  /\ Activity.location alt = Activity.location a
                  /\ Activity.duration alt = Activity.duration a
                  /\ Activity.imageUrl alt = Activity.imageUrl a.
Proof.
  intros Hover Hc.
  destruct (BudgetFacts.optimizeBudget_over itinerary totalBudget Hover Hc)
    as (b & ds1 & total & _ & _ & _ & _ & Hred & _ & _ & Hout).
  eexists. split; [exact Hout |]. cbn [days set_days set_totalCost].
  split.
  - unfold addBudgetAlternatives. rewrite map_map. cbn [date set_alternativeActivities].
    apply (BudgetFacts.reduceDominant_dates _ _ _ _ Hred).
  - intros k day Hk. unfold addBudgetAlternatives in Hk.
    change (map ?f ?l) with (f <$> l) in Hk. rewrite list_lookup_fmap in Hk.
    destruct (ds1 !! k) as [d1 |]; [| discriminate]. injection Hk as <-.
    cbn [alternativeActivities activities set_alternativeActivities].
    eexists. split; [reflexivity |]. split; [apply length_map |].
    intros i a Hi. exists (budgetAlternative a). split.
    + change (map ?f ?l) with (f <$> l). rewrite list_lookup_fmap, Hi. reflexivity.
    + unfold budgetAlternative.
      cbn [Activity.name Activity.description Activity.cost Activity.type
           Activity.location Activity.duration Activity.imageUrl].
      repeat split. apply CurrencyFacts.parseCurrency_formatCurrency.
Qed.

Lemma budget_alternatives_added_witness :
  exists out,
    optimizeBudget Examples.scenario 300 = Ok out
    /\ map (fun day => option_map (map Activity.name) (alternativeActivities day)) (days out)
       = [Some ["Budget Tram tour"%string; "Budget Fado night"%string];
          Some ["Budget Tram tour"%string; "Budget Fado night"%string]].
Proof.
  destruct (budget_alternatives_added Examples.scenario 300) as (out & Hout & _ & _).
  - vm_compute. reflexivity.
  - repeat constructor; eexists; reflexivity.
  - exists out. split; [exact Hout |].
    assert (E : Ok out = optimizeBudget Examples.scenario 300) by (symmetry; exact Hout).
    vm_compute in E. injection E as ->. reflexivity.
Defined.

(** X6.  With draws of Math.random in [0, 1) and a sine in [-1, 1], the
    three temperatures of a forecast are ordered: the maximum is between 2
    and 48, the minimum is 5 to 10 degrees under the maximum, and the
    current temperature lies strictly between the two, at least 2 degrees
    above the minimum and at least 1 degree under the maximum (the last
    degree is what the rounding of the product at the largest draw can
    take). *)
Theorem weather_temperatures_ordered
    (Math_sin : Z -> Q) (location : string) (date : Weather.JsDate) (g : Weather.Draws) :
  (forall z, - (1) <= Math_sin z /\ Math_sin z <= 1) ->
  (forall n, 0 <= g n /\ g n < 1) ->
  let f := fst (Weather.generateMockWeatherData Math_sin location date g) in
  (2 <= Weather.temperature_max f <= 48)%Z
  /\ (Weather.temperature_max f - 10 <= Weather.temperature_min f
      <= Weather.temperature_max f - 5)%Z
  /\ (Weather.temperature_min f + 2 <= Weather.temperature_current f
      <= Weather.temperature_max f - 1)%Z.
Proof.
  intros Hsin Hg f.
  set (maxTemp := Weather.maxTempOf Math_sin location date).
  set (minTemp := Weather.Math_round (inject_Z maxTemp - (5 + g 0%nat * 5))).
  change (Weather.temperature_max f) with maxTemp.
  change (Weather.temperature_min f) with minTemp.
  change (Weather.temperature_current f)
    with (Weather.Math_round
            (inject_Z minTemp
             + inject_Z (maxTemp - minTemp) * ((3 # 10) + g 1%nat * (4 # 10)))).
  pose proof (WeatherRanges.maxTempOf_bounds Math_sin location date Hsin) as Hmax.
  destruct (Hg 0%nat) as [A0 A1]. destruct (Hg 1%nat) as [B0 B1].
  pose proof (WeatherRanges.minTemp_bounds maxTemp (g 0%nat) A0 A1) as Hmin.
  fold minTemp in Hmin.
  pose proof (WeatherRanges.currentTemp_bounds minTemp maxTemp (g 1%nat) B0 B1
                ltac:(lia)) as Hcur.
  repeat split; lia.
Qed.

Lemma weather_temperatures_ordered_witness :
  let f :=
    fst (Weather.generateMockWeatherData Examples.sine "Rome" Examples.june15
           Examples.draws04) in
  (2 <= Weather.temperature_max f <= 48)%Z
  /\ (Weather.temperature_max f - 10 <= Weather.temperature_min f
      <= Weather.temperature_max f - 5)%Z
  /\ (Weather.temperature_min f + 2 <= Weather.temperature_current f
      <= Weather.temperature_max f - 1)%Z.
Proof.
  apply (weather_temperatures_ordered Examples.sine "Rome" Examples.june15 Examples.draws04).
  - intro z. unfold Examples.sine. destruct (z =? 6525)%Z; split; vm_compute; discriminate.
  - intro n. split; vm_compute; [discriminate | reflexivity].
Defined.

(** X7.  With draws in [0, 1) and a sine of at least -1, the chance of
    precipitation is ten times the last decimal digit of the location hash
    plus 0 to 50: between 0 and 140, above 100 for a digit of 6 or more and
    a third draw of 0.9 or more, and above 70 (a rainy forecast, whatever
    the draws) for a digit of 8 or 9.  The condition is never snowy nor
    stormy, the wind speed is between 5 and 30, the humidity between 30 and
    95, and the description is an entry of the condition's table. *)
Theorem weather_ranges
    (Math_sin : Z -> Q) (location : string) (date : Weather.JsDate) (g : Weather.Draws) :
  (forall z, - (1) <= Math_sin z) ->
  (forall n, 0 <= g n /\ g n < 1) ->
  let f := fst (Weather.generateMockWeatherData Math_sin location date g) in
  let digit := (Weather.locationHash location mod 10)%Z in
  (10 * digit <= Weather.precipitation_chance f <= 10 * digit + 50)%Z
  /\ (0 <= Weather.precipitation_chance f <= 140)%Z
  /\ ((6 <= digit)%Z -> 9 # 10 <= g 2%nat -> (100 < Weather.precipitation_chance f)%Z)
  /\ ((8 <= digit)%Z -> Weather.condition f = Weather.rainy)
  /\ Weather.condition f <> Weather.snowy
  /\ Weather.condition f <> Weather.stormy
  /\ (5 <= Weather.wind_speed f <= 30)%Z
  /\ (30 <= Weather.humidity f <= 95)%Z
  /\ exists d,
       Weather.description f = Some d
       /\ d ∈ Weather.descriptions (Weather.condition f).
Proof.
  intros Hsin Hg f digit.
  set (maxTemp := Weather.maxTempOf Math_sin location date).
  set (chance := Weather.Math_round ((inject_Z digit / 10 + g 2%nat * (5 # 10)) * 100)).
  set (cond := Weather.classify chance maxTemp).
  change (Weather.precipitation_chance f) with chance.
  change (Weather.condition f) with cond.
  change (Weather.description f)
    with (Weather.at_index (Weather.descriptions cond)
            (Weather.Math_floor
               (g 3%nat * inject_Z (Z.of_nat (length (Weather.descriptions cond)))))).
  change (Weather.wind_speed f)
    with (match cond with
          | Weather.stormy => (30 + Weather.Math_round (g 4%nat * 30))%Z
          | Weather.rainy | Weather.snowy => (10 + Weather.Math_round (g 4%nat * 20))%Z
          | _ => (5 + Weather.Math_round (g 4%nat * 15))%Z
          end).
  change (Weather.humidity f)
    with (match cond with
          | Weather.rainy | Weather.snowy | Weather.stormy =>
              (70 + Weather.Math_round (g 5%nat * 25))%Z
          | Weather.cloudy => (50 + Weather.Math_round (g 5%nat * 30))%Z
          | _ => (30 + Weather.Math_round (g 5%nat * 30))%Z
          end).
  destruct (Hg 2%nat) as [C0 C1]. destruct (Hg 3%nat) as [D0 D1].
  destruct (Hg 4%nat) as [E0 E1]. destruct (Hg 5%nat) as [F0 F1].
  pose proof (Z.mod_pos_bound (Weather.locationHash location) 10 eq_refl) as Hdigit.
  fold digit in Hdigit.
  pose proof (WeatherRanges.rainChance_bounds digit (g 2%nat) C0 C1) as Hchance.
  fold chance in Hchance.
  pose proof (WeatherFacts.maxTempOf_ge_2 Math_sin location date Hsin) as Hmax.
  fold maxTemp in Hmax.
  assert (Hcond : cond <> Weather.snowy /\ cond <> Weather.stormy
                  /\ ((70 < chance)%Z -> cond = Weather.rainy)).
  { unfold cond, Weather.classify. cbv zeta.
    destruct (Z.gtb_spec chance 70).
    - destruct (Z.ltb_spec maxTemp 2); [lia |]. repeat split; discriminate.
    - destruct (chance >? 40)%Z; [| destruct (chance >? 20)%Z];
        (repeat split; [discriminate | discriminate | lia]). }
  destruct Hcond as (Hsnow & Hstorm & Hrainy).
  pose proof (WeatherRanges.scaled_round_bounds 30 (g 4%nat) ltac:(lia) E0 E1) as W30.
  pose proof (WeatherRanges.scaled_round_bounds 20 (g 4%nat) ltac:(lia) E0 E1) as W20.
  pose proof (WeatherRanges.scaled_round_bounds 15 (g 4%nat) ltac:(lia) E0 E1) as W15.
  pose proof (WeatherRanges.scaled_round_bounds 25 (g 5%nat) ltac:(lia) F0 F1) as U25.
  pose proof (WeatherRanges.scaled_round_bounds 30 (g 5%nat) ltac:(lia) F0 F1) as U30.
  change (inject_Z 30) with 30 in W30, U30. change (inject_Z 20) with 20 in W20.
  change (inject_Z 15) with 15 in W15. change (inject_Z 25) with 25 in U25.
  split; [exact Hchance |]. split; [lia |].
  split; [intros H6 H9; apply WeatherRanges.rainChance_high; assumption |].
  split; [intro H8; apply Hrainy; lia |].
  split; [exact Hsnow |]. split; [exact Hstorm |].
  clearbody cond.
  split; [destruct cond; try lia; congruence |].
  split; [destruct cond; try lia; congruence |].
  apply WeatherRanges.description_defined; assumption.
Qed.

Lemma weather_ranges_witness :
  let f :=
    fst (Weather.generateMockWeatherData Examples.sine "Rome" Examples.june15
           Examples.draws09) in
  (50 <= Weather.precipitation_chance f <= 100)%Z
  /\ Weather.condition f = Weather.rainy
  /\ exists d, Weather.description f = Some d.
Proof.
  pose proof (weather_ranges Examples.sine "Rome" Examples.june15 Examples.draws09) as H.
  cbv zeta in H.
  destruct H as (H1 & _ & _ & _ & _ & _ & _ & _ & d & Hd & _).
  - intro z. unfold Examples.sine. destruct (z =? 6525)%Z; vm_compute; discriminate.
  - intro n. split; vm_compute; [discriminate | reflexivity].
  - cbv zeta. split; [| split].
    + change (10 * (Weather.locationHash "Rome" mod 10))%Z with 50%Z in H1. lia.
    + vm_compute. reflexivity.
    + exists d. exact Hd.
Defined.

Import ParsingNotions.

(** X8.  A cost that is not a number parses to 0.  This is so for every
    string without a decimal digit (and without a capital I, which
    excludes the literal Infinity that parseFloat reads), and for every
    string that starts with a letter other than I, whatever follows it:
    "Free", but also "USD 25.00" or "about $25". *)
Theorem unparseable_cost_is_zero :
  (forall s : string,
     forallb no_digit_no_I (Chars.of_string s) = true -> parseCurrency s = 0)
  /\ (forall (c : ascii) (rest : string),
        is_letter c = true -> c <> "I"%char -> parseCurrency (String c rest) = 0).
Proof.
  split.
  - intros s Hs. destruct s as [| c s]; [reflexivity |].
    unfold parseCurrency.
    rewrite ParsingFacts.parseFloat_no_digit; [reflexivity |].
    apply ParsingFacts.trim_no_digit.
    apply (ParsingFacts.strip_symbols_no_digit _ _ (Nat.le_refl _)).
    rewrite forallb_forall in Hs. apply List.Forall_forall. intros a Ha.
    specialize (Hs a Ha). unfold no_digit_no_I, Chars.is_digit in Hs.
    destruct (Chars.digit_of_char a); [discriminate | reflexivity].
  - intros c rest Hc _. unfold parseCurrency.
    change (Chars.of_string (String c rest)) with (c :: Chars.of_string rest).
    rewrite (ParsingFacts.strip_symbols_letter _ _ Hc).
    destruct (ParsingFacts.trim_head c (strip_symbols (Chars.of_string rest))
                (ParsingFacts.is_letter_not_space c Hc)) as [Y ->].
    rewrite (ParsingFacts.parseFloat_letter _ _ Hc). reflexivity.
Qed.

Lemma unparseable_cost_is_zero_witness :
  parseCurrency "Free" = 0 /\ parseCurrency "USD 25.00" = 0.
Proof.
  destruct unparseable_cost_is_zero as [H1 H2]. split.
  - apply H1. reflexivity.
  - apply H2; [reflexivity | discriminate].
Defined.

(** X9.  Parsing reads the amount at the front of a string and ignores
    what follows it: for every amount, negative ones included, the
    formatted amount parses to the amount rounded to cents, and so does the
    formatted amount followed by a space and any text ("$25.00 per
    person"). *)
Theorem trailing_text_ignored (x : Q) (rest : string) :
  parseCurrency (formatCurrency x) == round2 x
  /\ parseCurrency (String.append (formatCurrency x) (String " " rest)) == round2 x.
Proof.
  split.
  - apply CurrencyFacts.parseCurrency_formatCurrency.
  - apply ParsingFacts.parseCurrency_trailing.
Qed.

Lemma trailing_text_ignored_witness :
  parseCurrency (formatCurrency (- (12505 # 10))) == round2 (- (12505 # 10))
  /\ parseCurrency (String.append (formatCurrency (- (12505 # 10))) " per person")
     == round2 (- (12505 # 10)).
Proof. exact (trailing_text_ignored (- (12505 # 10)) "per person"). Defined.

Import FlightNotions.

(** X10.  hashString returns the absolute value of a signed 32-bit
    integer: a number between 0 and 2^31 (2^31 itself for a hash of
    -2^31), never negative.  So the remainder of a seed by a positive
    table length is a valid index into the table. *)
Theorem hashString_is_a_valid_seed (str : string) :
  (0 <= Generators.hashString str <= 2 ^ 31)%Z
  /\ forall n, (0 < n)%Z -> (0 <= Z.rem (Generators.hashString str) n < n)%Z.
Proof.
  pose proof (FlightsFacts.hashString_range str) as H. split; [exact H |].
  intros n Hn. rewrite Z.rem_mod_nonneg by lia. apply Z.mod_pos_bound, Hn.
Qed.

(** X11.  When both dates parse to days the host's calendar can set a
    time of day in, the flight search returns the 3 to 7 outbound flights
    followed by the 3 to 7 return flights; each of the two groups is in
    ascending order of price, the outbound flights leave JFK (New York)
    for the destination city and the return flights come back.  When one
    of the two dates does not parse, or is a day the host cannot set a time
    of day in, the search returns no flight at all. *)
Theorem searchFlights_shape
    (setHours : Z -> Z -> Z -> Z -> option Z) (isoString : Z -> string)
    (newDate : string -> option Z) (destination departDate returnDate : string)
    (passengers : Q) (departure comeback : Z) :
  newDate departDate = Some departure ->
  newDate returnDate = Some comeback ->
  validDay setHours departure ->
  validDay setHours comeback ->
  (exists outbound back,
     Flights.searchFlights setHours isoString newDate destination departDate returnDate
       passengers = Ok (outbound ++ back)
     /\ (3 <= length outbound <= 7)%nat /\ (3 <= length back <= 7)%nat
     /\ (forall i j a b, (i < j)%nat ->
           outbound !! i = Some a -> outbound !! j = Some b ->
           (Flights.price a <= Flights.price b)%Z)
     /\ (forall i j a b, (i < j)%nat ->
           back !! i = Some a -> back !! j = Some b ->
           (Flights.price a <= Flights.price b)%Z)
     /\ Forall (fun f => Flights.departureAirport f = "JFK"%string
                         /\ Flights.departureCity f = "New York"%string
                         /\ Flights.arrivalCity f = Generators.cityOf destination)
          outbound
     /\ Forall (fun f => Flights.arrivalAirport f = "JFK"%string
                         /\ Flights.arrivalCity f = "New York"%string
                         /\ Flights.departureCity f = Generators.cityOf destination)
          back)
  /\ (forall text,
        newDate text = None ->
        Flights.searchFlights setHours isoString newDate destination text returnDate
          passengers = Ok []
        /\ Flights.searchFlights setHours isoString newDate destination departDate text
             passengers = Ok [])
  /\ (forall text t,
        newDate text = Some t -> (forall h m, setHours t h m 0%Z = None) ->
        Flights.searchFlights setHours isoString newDate destination text returnDate
          passengers = Ok []
        /\ Flights.searchFlights setHours isoString newDate destination departDate text
             passengers = Ok []).
Proof.
  intros Hd Hr Hvd Hvr.
  assert (Hseed : forall s, (0 <= Generators.hashString s)%Z)
    by (intro s; apply FlightsFacts.hashString_range).
  split; [| split].
  - unfold Flights.searchFlights, Generators.searchFlights, Generators.searchFlights_body.
    cbv zeta. unfold Generators.generateFlights. rewrite Hd, Hr.
    match goal with
    | |- context [Flights.buildFlights ?a ?b ?c ?d ?e ?f ?g ?h ?i] =>
        destruct (FlightsFacts.buildFlights_Ok a b c d e f g h i Hvd (Hseed _))
          as (outbound & H1 & _)
    end.
    rewrite H1. unfold mbind, result_bind, JS.bind.
    match goal with
    | |- context [match Flights.buildFlights ?a ?b ?c ?d ?e ?f ?g ?h ?i with _ => _ end] =>
        destruct (FlightsFacts.buildFlights_Ok a b c d e f g h i Hvr (Hseed _))
          as (back & H2 & _)
    end.
    rewrite H2. exists outbound, back. split; [reflexivity |].
    apply FlightsFacts.buildFlights_inv in H1; [| apply Hseed].
    apply FlightsFacts.buildFlights_inv in H2; [| apply Hseed].
    destruct H1 as (L1 & S1 & R1). destruct H2 as (L2 & S2 & R2).
    split; [exact L1 |]. split; [exact L2 |]. split; [exact S1 |]. split; [exact S2 |].
    split.
    + eapply Forall_impl; [exact R1 |]. intros f (A & B & _ & D). auto.
    + eapply Forall_impl; [exact R2 |]. intros f (A & B & C & D). auto.
  - intros text Hbad.
    unfold Flights.searchFlights, Generators.searchFlights, Generators.searchFlights_body.
    cbv zeta. unfold Generators.generateFlights. rewrite Hbad. split; [reflexivity |].
    rewrite Hd. unfold mbind, result_bind, JS.bind.
    match goal with
    | |- context [Flights.buildFlights ?a ?b ?c ?d ?e ?f ?g ?h ?i] =>
        destruct (Flights.buildFlights a b c d e f g h i)
    end; reflexivity.
  - intros text t Ht Hno.
    unfold Flights.searchFlights, Generators.searchFlights, Generators.searchFlights_body.
    cbv zeta. unfold Generators.generateFlights. rewrite Ht, Hd, Hr.
    unfold mbind, result_bind, JS.bind. split.
    + match goal with
      | |- context [Flights.buildFlights ?a ?b ?c ?d ?e ?f ?g ?h ?i] =>
          destruct (FlightsFacts.buildFlights_no_time a b c d e f g h i (Hseed _) Hno) as [err ->]
      end. reflexivity.
    + match goal with
      | |- context [Flights.buildFlights ?a ?b ?c ?d ?e ?f departure ?h ?i] =>
          destruct (Flights.buildFlights a b c d e f departure h i); [| reflexivity]
      end.
      match goal with
      | |- context [Flights.buildFlights ?a ?b ?c ?d ?e ?f ?g ?h ?i] =>
          destruct (FlightsFacts.buildFlights_no_time a b c d e f g h i (Hseed _) Hno) as [err ->]
      end. reflexivity.
Qed.

Lemma searchFlights_shape_witness :
  exists outbound back,
    Flights.searchFlights utcSetHours sampleIso HotelNotions.sampleDate "Paris, France" "2024-06-01"
      "2024-06-04" 2 = Ok (outbound ++ back)
    /\ (3 <= length outbound <= 7)%nat /\ (3 <= length back <= 7)%nat.
Proof.
  destruct (searchFlights_shape utcSetHours sampleIso HotelNotions.sampleDate "Paris, France"
              "2024-06-01" "2024-06-04" 2 1717200000000 1717459200000)
    as ((outbound & back & H & L1 & L2 & _) & _).
  - reflexivity.
  - reflexivity.
  - apply FlightsFacts.utcSetHours_validDay. lia.
  - apply FlightsFacts.utcSetHours_validDay. lia.
  - exists outbound, back. split; [exact H |]. split; assumption.
Defined.

(** X12.  For a day the host's calendar can set a time of day in,
    generateFlights returns 3 to 7 flights with distinct ids: one Business
    flight, one Premium Economy flight and Economy flights for the rest.
    Every flight has 0, 1 or 2 stops, no layovers property exactly when it
    has no stop, otherwise as many layovers as stops, each at one of the
    hub airports; the Business flight is non-stop; the airline is one of
    the table and the currency is USD.  For at least one passenger every
    price is at least 162. *)
Theorem flights_of_a_valid_day
    (setHours : Z -> Z -> Z -> Z -> option Z) (isoString : Z -> string)
    (originCity originAirport destinationCity destinationAirport : string)
    (t : Z) (passengers : Q) :
  validDay setHours t ->
  exists fl,
    Flights.generateFlights setHours isoString originCity originAirport destinationCity
      destinationAirport (Some t) passengers = Ok fl
    /\ (3 <= length fl <= 7)%nat
    /\ map Flights.cabinClass fl
       ≡ₚ "Business"%string :: "Premium Economy"%string
            :: replicate (length fl - 2) "Economy"%string
    /\ NoDup (map Flights.id fl)
    /\ Forall wellFormed fl
    /\ (1 <= passengers -> Forall (fun f => (162 <= Flights.price f)%Z) fl).
Proof.
  intro Hday. unfold Flights.generateFlights, Generators.generateFlights. cbv zeta.
  match goal with
  | |- context [Flights.buildFlights _ _ _ _ _ _ _ _ ?seed] =>
      destruct (FlightsFacts.buildFlights_Ok setHours isoString originCity originAirport
                  destinationCity destinationAirport t passengers seed Hday
                  ltac:(apply FlightsFacts.hashString_range))
        as (fl & Hfl & Hcab & Hids & Hwf & Hprice);
      pose proof (FlightsFacts.buildFlights_inv _ _ _ _ _ _ _ _ _ _
                    ltac:(apply FlightsFacts.hashString_range) Hfl) as (Hlen & _ & _)
  end.
  exists fl. split; [exact Hfl |]. split; [exact Hlen |].
  split; [exact Hcab |]. split; [exact Hids |]. split; [exact Hwf | exact Hprice].
Qed.

Lemma flights_of_a_valid_day_witness :
  exists fl,
    Flights.generateFlights utcSetHours sampleIso "New York" "JFK" "Paris" "PAR"
      (Some june1) 2 = Ok fl
    /\ (3 <= length fl <= 7)%nat
    /\ map Flights.cabinClass fl
       ≡ₚ "Business"%string :: "Premium Economy"%string
            :: replicate (length fl - 2) "Economy"%string
    /\ NoDup (map Flights.id fl)
    /\ Forall wellFormed fl
    /\ (1 <= 2 -> Forall (fun f => (162 <= Flights.price f)%Z) fl).
Proof.
  apply (flights_of_a_valid_day utcSetHours sampleIso "New York" "JFK" "Paris" "PAR"
           june1 2).
  intros h m Hh Hm. unfold utcSetHours, Flights.timeClip.
  change (june1 mod 86400000)%Z with 0%Z. change (june1 mod 1000)%Z with 0%Z.
  unfold june1, Flights.maxTime.
  destruct (Z.leb_spec
              (Z.abs (1717200000000 - 0 + h * 3600000 + m * 60000 + 0 * 1000 + 0))
              8640000000000000); [| lia].
  eexists. split; [reflexivity | lia].
Defined.

Import ActivityNotions.

(** X13.  For a trip duration that is not negative, findActivities
    returns as many activities as the duration asks for, the ceiling of
    min(50, 4 * tripDuration + 10), so between 10 and 50, in order of
    rating, highest first, and for equal ratings in order of price,
    lowest first. *)
Theorem activities_found (destination : string) (interests : list string) (tripDuration : Q) :
  0 <= tripDuration ->
  exists l,
    Activities.findActivities destination interests tripDuration = Ok l
    /\ length l = Z.to_nat (Qceiling (Qmin 50 (tripDuration * 4 + 10)))
    /\ (10 <= length l <= 50)%nat
    /\ forall i j a b, (i < j)%nat -> l !! i = Some a -> l !! j = Some b ->
         Activities.rating b < Activities.rating a
         \/ (Activities.rating a == Activities.rating b
             /\ (Activities.price a <= Activities.price b)%Z).
Proof.
  intro Ht.
  destruct (ActivitiesFacts.generateActivities_Ok (Generators.cityOf destination) interests
              tripDuration (Generators.hashString destination)
              ltac:(apply FlightsFacts.hashString_range) Ht)
    as (matched & fill & Hgen & _ & Hlen & _ & _).
  exists (JSArray.sort Activities.after (matched ++ fill)).
  pose proof (ArrayFacts.sort_Permutation Activities.after (matched ++ fill)) as Hperm.
  pose proof (ActivitiesFacts.numActivities_range tripDuration Ht) as Hnum.
  split; [| split; [| split]].
  - unfold Activities.findActivities, Generators.findActivities,
      Generators.findActivities_body. cbv zeta. rewrite Hgen. reflexivity.
  - rewrite (Permutation_length Hperm). exact Hlen.
  - rewrite (Permutation_length Hperm), Hlen. lia.
  - apply ActivitiesFacts.sort_after_inOrder.
Qed.

Lemma activities_found_witness :
  exists l,
    Activities.findActivities "Paris, France" [] 3 = Ok l
    /\ length l = Z.to_nat (Qceiling (Qmin 50 (3 * 4 + 10)))
    /\ (10 <= length l <= 50)%nat
    /\ forall i j a b, (i < j)%nat -> l !! i = Some a -> l !! j = Some b ->
         Activities.rating b < Activities.rating a
         \/ (Activities.rating a == Activities.rating b
             /\ (Activities.price a <= Activities.price b)%Z).
Proof. apply (activities_found "Paris, France" [] 3). vm_compute. discriminate. Defined.

(** X14.  For a trip duration that is not negative, every activity that
    findActivities returns is of the destination's city and of a category
    of the table, with one subcategory of that category; its currency is
    USD, its rating between 3.5 and 4.95, its price between 8 and 214, its
    number of reviews between 50 and 497; it has 5 or 6 tags, 2 to 4
    entries in suitableFor, and 3 or 4 highlights that are pairwise
    distinct entries of the table of highlights (the fallback highlight
    is never used). *)
Theorem activities_well_formed
    (destination : string) (interests : list string) (tripDuration : Q) :
  0 <= tripDuration ->
  exists l,
    Activities.findActivities destination interests tripDuration = Ok l
    /\ Forall
         (fun a =>
            Activities.city a = Generators.cityOf destination
            /\ Activities.currency a = "USD"%string
            /\ (35 # 10 <= Activities.rating a /\ Activities.rating a <= 495 # 100)
            /\ (8 <= Activities.price a <= 214)%Z
            /\ (50 <= Activities.reviewCount a <= 497)%Z
            /\ (5 <= length (Activities.tags a) <= 6)%nat
            /\ (2 <= length (Activities.suitableFor a) <= 4)%nat
            /\ (3 <= length (Activities.highlights a) <= 4)%nat
            /\ NoDup (Activities.highlights a)
            /\ exists kind subcategory,
                 kind ∈ Activities.categories
                 /\ Activities.category a = Activities.kindName kind
                 /\ subcategory ∈ Activities.kindSubcategories kind
                 /\ Activities.subcategories a = [subcategory]
                 /\ Forall (fun h =>
                              h ∈ Activities.highlightOptions
                                    (Generators.cityOf destination) subcategory)
                      (Activities.highlights a))
         l.
Proof.
  intro Ht.
  destruct (ActivitiesFacts.generateActivities_Ok (Generators.cityOf destination) interests
              tripDuration (Generators.hashString destination)
              ltac:(apply FlightsFacts.hashString_range) Ht)
    as (matched & fill & Hgen & _ & _ & Hall & _).
  exists (JSArray.sort Activities.after (matched ++ fill)).
  split.
  - unfold Activities.findActivities, Generators.findActivities,
      Generators.findActivities_body. cbv zeta. rewrite Hgen. reflexivity.
  - rewrite (ArrayFacts.sort_Permutation Activities.after (matched ++ fill)).
    eapply Forall_impl; [exact Hall |].
    intros a (k & kind & _ & Hkind & Hmade).
    destruct Hmade as (Hcity & Hcat & _ & _ & Hcur & Hrat & Hprice & Hrev & Htags & Hsuit
                       & Hhl & Hnd & sub & Hsub & Hsubs & Hopts).
    repeat (split; [assumption |]).
    exists kind, sub. repeat (split; [assumption |]). exact Hopts.
Qed.

Lemma activities_well_formed_witness :
  exists l,
    Activities.findActivities "Paris, France" ["art"%string] 2 = Ok l
    /\ Forall
         (fun a =>
            Activities.city a = Generators.cityOf "Paris, France"
            /\ Activities.currency a = "USD"%string
            /\ (35 # 10 <= Activities.rating a /\ Activities.rating a <= 495 # 100)
            /\ (8 <= Activities.price a <= 214)%Z
            /\ (50 <= Activities.reviewCount a <= 497)%Z
            /\ (5 <= length (Activities.tags a) <= 6)%nat
            /\ (2 <= length (Activities.suitableFor a) <= 4)%nat
            /\ (3 <= length (Activities.highlights a) <= 4)%nat
            /\ NoDup (Activities.highlights a)
            /\ exists kind subcategory,
                 kind ∈ Activities.categories
                 /\ Activities.category a = Activities.kindName kind
                 /\ subcategory ∈ Activities.kindSubcategories kind
                 /\ Activities.subcategories a = [subcategory]
                 /\ Forall (fun h =>
                              h ∈ Activities.highlightOptions
                                    (Generators.cityOf "Paris, France") subcategory)
                      (Activities.highlights a))
         l.
Proof.
  apply (activities_well_formed "Paris, France" ["art"%string] 2). vm_compute. discriminate.
Defined.

(** X15.  All the activities of one search have the same duration: the
    seeds of the activities differ by multiples of 100, and the duration
    is computed from the seed modulo 10 and modulo 2. *)
Theorem activities_share_duration
    (destination : string) (interests : list string) (tripDuration : Q) :
  0 <= tripDuration ->
  exists l,
    Activities.findActivities destination interests tripDuration = Ok l
    /\ forall a b, a ∈ l -> b ∈ l -> Activities.duration a = Activities.duration b.
Proof.
  intro Ht.
  destruct (ActivitiesFacts.generateActivities_Ok (Generators.cityOf destination) interests
              tripDuration (Generators.hashString destination)
              ltac:(apply FlightsFacts.hashString_range) Ht)
    as (matched & fill & Hgen & _ & _ & Hall & _).
  exists (JSArray.sort Activities.after (matched ++ fill)).
  split.
  - unfold Activities.findActivities, Generators.findActivities,
      Generators.findActivities_body. cbv zeta. rewrite Hgen. reflexivity.
  - assert (Hdur : forall a, a ∈ JSArray.sort Activities.after (matched ++ fill) ->
                     Activities.duration a
                     = durationFor (Generators.hashString destination)).
    { intros a Ha.
      rewrite (ArrayFacts.sort_Permutation Activities.after (matched ++ fill)) in Ha.
      rewrite Forall_forall in Hall.
      destruct (Hall a Ha) as (k & kind & Hk & _ & Hmade).
      destruct Hmade as (_ & _ & _ & -> & _).
      apply ActivitiesFacts.durationFor_shift;
        [apply FlightsFacts.hashString_range | exact Hk]. }
    intros a b Ha Hb. rewrite (Hdur a Ha), (Hdur b Hb). reflexivity.
Qed.

Lemma activities_share_duration_witness :
  exists l,
    Activities.findActivities "Paris, France" [] 3 = Ok l
    /\ forall a b, a ∈ l -> b ∈ l -> Activities.duration a = Activities.duration b.
Proof.
  apply (activities_share_duration "Paris, France" [] 3). vm_compute. discriminate.
Defined.

(** X16.  The activities that fill the list up, all but the at most eight
    generated for the interests, come from half of the categories: the
    loop adds its counter and the growing length of the list, so the
    position in the table advances by two, and the fill activities are
    all of Sightseeing, Food & Drink, Adventure and Shopping, or all of
    Cultural, Nature & Outdoors, Entertainment and Relaxation. *)
Theorem fill_categories_one_parity
    (destination : string) (interests : list string) (tripDuration : Q) :
  0 <= tripDuration ->
  exists l matched fill,
    Activities.findActivities destination interests tripDuration = Ok l
    /\ l ≡ₚ matched ++ fill
    /\ (length matched <= 8)%nat
    /\ (2 <= length fill)%nat
    /\ (Forall (fun a => Activities.category a ∈ kindsOfParity 0) fill
        \/ Forall (fun a => Activities.category a ∈ kindsOfParity 1) fill).
Proof.
  intro Ht.
  destruct (ActivitiesFacts.generateActivities_Ok (Generators.cityOf destination) interests
              tripDuration (Generators.hashString destination)
              ltac:(apply FlightsFacts.hashString_range) Ht)
    as (matched & fill & Hgen & H8 & Hlen & _ & Hpar).
  exists (JSArray.sort Activities.after (matched ++ fill)), matched, fill.
  split; [| split; [| split; [| split]]].
  - unfold Activities.findActivities, Generators.findActivities,
      Generators.findActivities_body. cbv zeta. rewrite Hgen. reflexivity.
  - apply ArrayFacts.sort_Permutation.
  - exact H8.
  - pose proof (ActivitiesFacts.numActivities_range tripDuration Ht).
    rewrite length_app in Hlen. lia.
  - pose proof (Z.mod_pos_bound
                  (Generators.hashString destination + Z.of_nat (length matched)) 2 eq_refl)
      as Hp.
    assert (E : ((Generators.hashString destination + Z.of_nat (length matched)) mod 2 = 0
                 \/ (Generators.hashString destination + Z.of_nat (length matched)) mod 2 = 1)%Z)
      by lia.
    destruct E as [E | E]; rewrite E in Hpar; [left | right]; exact Hpar.
Qed.

Lemma fill_categories_one_parity_witness :
  exists l matched fill,
    Activities.findActivities "Paris, France" [] 3 = Ok l
    /\ l ≡ₚ matched ++ fill
    /\ (length matched <= 8)%nat
    /\ (2 <= length fill)%nat
    /\ (Forall (fun a => Activities.category a ∈ kindsOfParity 0) fill
        \/ Forall (fun a => Activities.category a ∈ kindsOfParity 1) fill).
Proof.
  apply (fill_categories_one_parity "Paris, France" [] 3). vm_compute. discriminate.
Defined.

Import HotelNotions.

(** X17.  A hotel search never fails and returns 8 to 15 hotels, whatever
    the dates and the accommodation type are.  Every hotel is in the city
    and country of the destination, priced in USD, rated 3.0 to 4.9 with
    50 to 1049 reviews, has the five common amenities and one or two
    luxury ones, none listed twice, and as many rooms as half the guests,
    rounded up.  All hotels of one search have the same rating, and so
    the same number of amenities: the seeds of the hotels differ by
    multiples of 100, and the rating looks at the seed modulo 20. *)
Theorem hotels_found (Math_pow : Q -> Q -> Q) (newDate : string -> option Z)
    (destination checkInDate checkOutDate : string) (guests : Q)
    (accommodationType : string) :
  exists l,
    Hotels.searchHotels Math_pow newDate destination checkInDate checkOutDate guests
      accommodationType = JS.Ok l
    /\ (8 <= length l <= 15)%nat
    /\ Forall (fun h => wellFormedHotel guests h
                       /\ Hotels.city h = Generators.cityOf destination
                       /\ Hotels.country h = Generators.countryOf destination) l
    /\ (forall a b, a ∈ l -> b ∈ l ->
          Hotels.rating a = Hotels.rating b
          /\ length (Hotels.amenities a) = length (Hotels.amenities b)).
Proof.
  pose proof (HotelsFacts.searchHotels_Ok Math_pow newDate destination checkInDate
                checkOutDate guests accommodationType) as Hs.
  cbv zeta in Hs.
  pose proof (FlightsFacts.hashString_range
                (String.append destination
                   (String.append "-"
                      (String.append checkInDate (String.append "-" checkOutDate)))))
    as [Hseed _].
  eexists. split; [exact Hs |].
  split; [apply HotelsFacts.generated_length; exact Hseed |].
  split.
  - apply HotelsFacts.sorted_Forall, HotelsFacts.generated_Forall. intros i Hi.
    destruct (HotelsFacts.hotelAt_facts Math_pow (Generators.cityOf destination)
                (Generators.countryOf destination)
                (Generators.nightsBetween (newDate checkInDate) (newDate checkOutDate))
                guests (Generators.toLowerCase accommodationType) _ i Hseed Hi)
      as (Hw & _ & Hc & Hk & _).
    split; [exact Hw |]. split; [exact Hc | exact Hk].
  - assert (Hall : Forall
                     (fun h =>
                        Hotels.rating h
                        = 3 + inject_Z
                                (Z.rem
                                   (Generators.hashString
                                      (String.append destination
                                         (String.append "-"
                                            (String.append checkInDate
                                               (String.append "-" checkOutDate))))) 20) / 10
                        /\ length (Hotels.amenities h)
                           = length
                               (Hotels.amenities
                                  (Hotels.hotelAt Math_pow (Generators.cityOf destination)
                                     (Generators.countryOf destination)
                                     (Generators.nightsBetween (newDate checkInDate)
                                        (newDate checkOutDate))
                                     guests (Generators.toLowerCase accommodationType)
                                     (Generators.hashString
                                        (String.append destination
                                           (String.append "-"
                                              (String.append checkInDate
                                                 (String.append "-" checkOutDate))))) 0)))
                     (JSArray.sort Hotels.dearer
                        (map (Hotels.hotelAt Math_pow (Generators.cityOf destination)
                                (Generators.countryOf destination)
                                (Generators.nightsBetween (newDate checkInDate)
                                   (newDate checkOutDate))
                                guests (Generators.toLowerCase accommodationType)
                                (Generators.hashString
                                   (String.append destination
                                      (String.append "-"
                                         (String.append checkInDate
                                            (String.append "-" checkOutDate))))))
                           (JSArray.upto
                              (8 + Z.rem
                                     (Generators.hashString
                                        (String.append destination
                                           (String.append "-"
                                              (String.append checkInDate
                                                 (String.append "-" checkOutDate))))) 8))))).
    { apply HotelsFacts.sorted_Forall, HotelsFacts.generated_Forall. intros i Hi. split.
      - apply (HotelsFacts.hotelAt_facts Math_pow _ _ _ guests _ _ i Hseed Hi).
      - apply HotelsFacts.amenities_count; assumption. }
    rewrite Forall_forall in Hall.
    intros a b Ha Hb. destruct (Hall a Ha) as [Ra La], (Hall b Hb) as [Rb Lb].
    split; congruence.
Qed.

(** X18.  When both dates parse and the accommodation type has a price
    multiplier, every hotel has a price per night and its price is that
    times the number of nights (the days between the two dates, rounded
    up) times the number of rooms (half the guests, rounded up), and the
    hotels come by ascending price. *)
Theorem hotels_by_price (Math_pow : Q -> Q -> Q) (newDate : string -> option Z)
    (destination checkInDate checkOutDate : string) (guests : Q)
    (accommodationType : string) (t_in t_out : Z) :
  newDate checkInDate = Some t_in ->
  newDate checkOutDate = Some t_out ->
  is_Some (Hotels.typeMultiplier (Generators.toLowerCase accommodationType)) ->
  exists l,
    Hotels.searchHotels Math_pow newDate destination checkInDate checkOutDate guests
      accommodationType = JS.Ok l
    /\ Forall (fun h =>
                 exists perNight,
                   Hotels.pricePerNight h = Some perNight
                   /\ Hotels.price h
                      = Some (perNight
                              * Qceiling (inject_Z (t_out - t_in) / inject_Z 86400000)
                              * Qceiling (guests / 2))%Z) l
    /\ (forall i j a b, (i < j)%nat -> l !! i = Some a -> l !! j = Some b ->
          exists x y, Hotels.price a = Some x /\ Hotels.price b = Some y /\ (x <= y)%Z).
Proof.
  intros Hin Hout Htype.
  pose proof (HotelsFacts.searchHotels_Ok Math_pow newDate destination checkInDate
                checkOutDate guests accommodationType) as Hs.
  cbv zeta in Hs. rewrite Hin, Hout in Hs.
  pose proof (FlightsFacts.hashString_range
                (String.append destination
                   (String.append "-"
                      (String.append checkInDate (String.append "-" checkOutDate)))))
    as [Hseed _].
  assert (Hgen : Forall (fun h =>
                 exists perNight,
                   Hotels.pricePerNight h = Some perNight
                   /\ Hotels.price h
                      = Some (perNight
                              * Qceiling (inject_Z (t_out - t_in) / inject_Z 86400000)
                              * Qceiling (guests / 2))%Z)
            (map (Hotels.hotelAt Math_pow (Generators.cityOf destination)
                    (Generators.countryOf destination)
                    (Generators.nightsBetween (Some t_in) (Some t_out))
                    guests (Generators.toLowerCase accommodationType)
                    (Generators.hashString
                       (String.append destination
                          (String.append "-"
                             (String.append checkInDate
                                (String.append "-" checkOutDate))))))
               (JSArray.upto
                  (8 + Z.rem
                         (Generators.hashString
                            (String.append destination
                               (String.append "-"
                                  (String.append checkInDate
                                     (String.append "-" checkOutDate))))) 8)))).
  { apply HotelsFacts.generated_Forall. intros i Hi.
    destruct (HotelsFacts.hotelAt_facts Math_pow (Generators.cityOf destination)
                (Generators.countryOf destination)
                (Generators.nightsBetween (Some t_in) (Some t_out))
                guests (Generators.toLowerCase accommodationType) _ i Hseed Hi)
      as (_ & _ & _ & _ & Hp & Hn).
    destruct (proj2 Hn Htype) as [perNight Hper].
    exists perNight. split; [exact Hper |].
    rewrite Hp, Hper. reflexivity. }
  eexists. split; [exact Hs |]. split.
  - apply HotelsFacts.sorted_Forall, Hgen.
  - apply HotelsFacts.priced_sorted.
    eapply Forall_impl; [exact Hgen |].
    intros h (perNight & _ & Hp). rewrite Hp. eexists. reflexivity.
Qed.

Lemma hotels_by_price_witness :
  exists l,
    Hotels.searchHotels linearPow sampleDate "Paris, France" "2024-06-01" "2024-06-04" 3
      "Hotel" = JS.Ok l
    /\ Forall (fun h =>
                 exists perNight,
                   Hotels.pricePerNight h = Some perNight
                   /\ Hotels.price h
                      = Some (perNight
                              * Qceiling (inject_Z (1717459200000 - 1717200000000)
                                          / inject_Z 86400000)
                              * Qceiling (3 / 2))%Z) l
    /\ (forall i j a b, (i < j)%nat -> l !! i = Some a -> l !! j = Some b ->
          exists x y, Hotels.price a = Some x /\ Hotels.price b = Some y /\ (x <= y)%Z).
Proof.
  apply (hotels_by_price linearPow sampleDate "Paris, France" "2024-06-01" "2024-06-04" 3
           "Hotel" 1717200000000 1717459200000).
  - reflexivity.
  - reflexivity.
  - vm_compute. eexists. reflexivity.
Defined.

(** X19.  When a date does not parse, or the accommodation type names a
    property that every object inherits (such as "constructor"), the
    search still returns its 8 to 15 hotels, but none has a price (the
    price is NaN), and the hotels stay in the order of their generation:
    the k-th has the id made of the seed plus 100 k. *)
Theorem hotels_without_price (Math_pow : Q -> Q -> Q) (newDate : string -> option Z)
    (destination checkInDate checkOutDate : string) (guests : Q)
    (accommodationType : string) :
  newDate checkInDate = None \/ newDate checkOutDate = None
  \/ Hotels.typeMultiplier (Generators.toLowerCase accommodationType) = None ->
  exists l,
    Hotels.searchHotels Math_pow newDate destination checkInDate checkOutDate guests
      accommodationType = JS.Ok l
    /\ (8 <= length l <= 15)%nat
    /\ Forall (fun h => Hotels.price h = None) l
    /\ (forall k h, l !! k = Some h ->
          Hotels.id h
          = JSArray.cat
              ["hotel-"%string;
               JSArray.showZ
                 (Generators.hashString
                    (String.append destination
                       (String.append "-"
                          (String.append checkInDate (String.append "-" checkOutDate))))
                  + Z.of_nat k * 100)]).
Proof.
  intros Hbad.
  pose proof (HotelsFacts.searchHotels_Ok Math_pow newDate destination checkInDate
                checkOutDate guests accommodationType) as Hs.
  cbv zeta in Hs.
  pose proof (FlightsFacts.hashString_range
                (String.append destination
                   (String.append "-"
                      (String.append checkInDate (String.append "-" checkOutDate)))))
    as [Hseed _].
  pose proof (HotelsFacts.generated_length
                (Hotels.hotelAt Math_pow (Generators.cityOf destination)
                   (Generators.countryOf destination)
                   (Generators.nightsBetween (newDate checkInDate) (newDate checkOutDate))
                   guests (Generators.toLowerCase accommodationType)
                   (Generators.hashString
                      (String.append destination
                         (String.append "-"
                            (String.append checkInDate
                               (String.append "-" checkOutDate))))))
                _ Hseed) as Hlen.
  assert (Hgen : Forall (fun h => Hotels.price h = None)
            (map (Hotels.hotelAt Math_pow (Generators.cityOf destination)
                    (Generators.countryOf destination)
                    (Generators.nightsBetween (newDate checkInDate) (newDate checkOutDate))
                    guests (Generators.toLowerCase accommodationType)
                    (Generators.hashString
                       (String.append destination
                          (String.append "-"
                             (String.append checkInDate
                                (String.append "-" checkOutDate))))))
               (JSArray.upto
                  (8 + Z.rem
                         (Generators.hashString
                            (String.append destination
                               (String.append "-"
                                  (String.append checkInDate
                                     (String.append "-" checkOutDate))))) 8)))).
  { apply HotelsFacts.generated_Forall. intros i Hi.
    destruct (HotelsFacts.hotelAt_facts Math_pow (Generators.cityOf destination)
                (Generators.countryOf destination)
                (Generators.nightsBetween (newDate checkInDate) (newDate checkOutDate))
                guests (Generators.toLowerCase accommodationType) _ i Hseed Hi)
      as (_ & _ & _ & _ & Hp & Hn).
    rewrite Hp.
    destruct (Hotels.pricePerNight _) as [perNight |] eqn:Hper; [| reflexivity].
    destruct Hbad as [Hbad | [Hbad | Hbad]].
    - rewrite Hbad. reflexivity.
    - rewrite Hbad. destruct (newDate checkInDate); reflexivity.
    - destruct (proj1 Hn ltac:(eexists; reflexivity)) as [m Hm]. congruence. }
  rewrite (HotelsFacts.sort_no_price _ Hgen) in Hs, Hlen.
  eexists. split; [exact Hs |]. split; [exact Hlen |]. split; [exact Hgen |].
  intros k h Hk. apply HotelsFacts.generated_lookup in Hk. rewrite Hk. reflexivity.
Qed.

Lemma hotels_without_price_witness :
  exists l,
    Hotels.searchHotels linearPow sampleDate "Lima" "2024-06-01" "next week" 2
      "Hotel" = JS.Ok l
    /\ (8 <= length l <= 15)%nat
    /\ Forall (fun h => Hotels.price h = None) l
    /\ (forall k h, l !! k = Some h ->
          Hotels.id h
          = JSArray.cat
              ["hotel-"%string;
               JSArray.showZ
                 (Generators.hashString
                    (String.append "Lima"
                       (String.append "-"
                          (String.append "2024-06-01" (String.append "-" "next week"))))
                  + Z.of_nat k * 100)]).
Proof.
  apply (hotels_without_price linearPow sampleDate "Lima" "2024-06-01" "next week" 2 "Hotel").
  right. left. reflexivity.
Defined.

Import MatchingNotions.

(** X20.  findMatchingHotel and findMatchingActivity return the first item
    of the list whose name contains the wanted name or is contained in it,
    letter case apart, and undefined exactly when the wanted name is
    undefined or empty, the list is undefined, or no item of the list is
    related to the name in this way.  So an item with an empty name
    matches every name that is not empty. *)
Theorem findMatching_first_related {Item : Type} (name : Item -> string)
    (query : option string) (items : option (list Item)) :
  match Matching.findMatching Item name query items with
  | Some found =>
      exists wanted l pre post,
        query = Some wanted /\ wanted <> EmptyString /\ items = Some l
        /\ l = pre ++ found :: post
        /\ related name wanted found
        /\ Forall (fun item => ~ related name wanted item) pre
  | None =>
      query = None \/ query = Some EmptyString \/ items = None
      \/ exists wanted l,
           query = Some wanted /\ items = Some l
           /\ Forall (fun item => ~ related name wanted item) l
  end
  /\ (forall wanted l item,
        wanted <> EmptyString -> item ∈ l -> name item = EmptyString ->
        is_Some (Matching.findMatching Item name (Some wanted) (Some l))).
Proof.
  split.
  - destruct query as [wanted |]; [| simpl; left; reflexivity].
    destruct items as [l |]; [| simpl; right; right; left; reflexivity].
    unfold Matching.findMatching.
    destruct (String.eqb_spec wanted EmptyString) as [-> | Hne].
    { simpl. right. left. reflexivity. }
    destruct l as [| a l].
    { simpl. right. right. right. exists wanted, []. repeat split. constructor. }
    cbn [orb length Nat.eqb].
    pose proof (MatchingFacts.find_first (Matching.similar Item name wanted) (a :: l)) as H.
    destruct (List.find (Matching.similar Item name wanted) (a :: l)) as [found |].
    + destruct H as (pre & post & E & Hf & Hpre).
      exists wanted, (a :: l), pre, post.
      split; [reflexivity |]. split; [exact Hne |]. split; [reflexivity |].
      split; [exact E |]. split; [apply MatchingFacts.similar_spec, Hf |].
      apply MatchingFacts.not_similar, Hpre.
    + right. right. right. exists wanted, (a :: l).
      split; [reflexivity |]. split; [reflexivity |].
      apply MatchingFacts.not_similar, H.
  - intros wanted l item Hne Hin Hname.
    unfold Matching.findMatching.
    destruct (String.eqb_spec wanted EmptyString) as [-> | _]; [congruence |].
    destruct l as [| a l]; [inversion Hin |].
    cbn [orb length Nat.eqb].
    pose proof (MatchingFacts.find_first (Matching.similar Item name wanted) (a :: l)) as H.
    destruct (List.find (Matching.similar Item name wanted) (a :: l)) as [found |];
      [eexists; reflexivity |].
    rewrite Forall_forall in H. specialize (H item Hin).
    assert (Hs : Matching.similar Item name wanted item = true).
    { apply MatchingFacts.similar_spec. right. rewrite Hname.
      exists EmptyString, (Generators.toLowerCase wanted). reflexivity. }
    congruence.
Qed.

(** X21.  For a city written in ASCII: the airport code of a city of
    three or more characters is its first three characters in upper case.
    A shorter city does not get a code of three letters: its last character
    is repeated to fill three places and a capital letter chosen by the
    hash of the city is added, which gives four characters; the empty
    city gets the code "A". *)
Theorem airport_code_shape (city : string) :
  ascii_only city ->
  match Chars.of_string city with
  | [] => Generators.generateAirportCode city = "A"%string
  | [a] =>
      exists x,
        Generators.generateAirportCode city
        = Chars.to_string
            [Generators.toUpperCase a; Generators.toUpperCase a; Generators.toUpperCase a; x]
        /\ (65 <= Chars.code x <= 90)%N
  | [a; b] =>
      exists x,
        Generators.generateAirportCode city
        = Chars.to_string
            [Generators.toUpperCase a; Generators.toUpperCase b; Generators.toUpperCase b; x]
        /\ (65 <= Chars.code x <= 90)%N
  | a :: b :: c :: _ =>
      Generators.generateAirportCode city
      = Chars.to_string
          [Generators.toUpperCase a; Generators.toUpperCase b; Generators.toUpperCase c]
  end.
Proof.
  intros _.
  destruct city as [| a [| b [| c rest]]].
  - vm_compute. reflexivity.
  - change (Chars.of_string (String a EmptyString)) with [a].
    eexists. split; [reflexivity |].
    apply (AirportFacts.extra_letter (Generators.hashString (String a EmptyString))),
      FlightsFacts.hashString_range.
  - change (Chars.of_string (String a (String b EmptyString))) with [a; b].
    eexists. split; [reflexivity |].
    apply (AirportFacts.extra_letter
             (Generators.hashString (String a (String b EmptyString)))),
      FlightsFacts.hashString_range.
  - change (Chars.of_string (String a (String b (String c rest))))
      with (a :: b :: c :: Chars.of_string rest).
    unfold Generators.generateAirportCode. cbv zeta.
    change (Chars.of_string (String a (String b (String c rest))))
      with (a :: b :: c :: Chars.of_string rest).
    assert (L : (3 <= Z.of_nat (length (a :: b :: c :: Chars.of_string rest)))%Z)
      by (simpl length; lia).
    remember (Z.of_nat (length (a :: b :: c :: Chars.of_string rest))) as len.
    destruct (Z.ltb_spec len 3); [lia |].
    rewrite !Z.min_l by lia. reflexivity.
Qed.

Lemma airport_code_shape_witness :
  exists x,
    Generators.generateAirportCode "LA"
    = Chars.to_string ["L"%char; "A"%char; "A"%char; x]
    /\ (65 <= Chars.code x <= 90)%N.
Proof.
  apply (airport_code_shape "LA").
  repeat constructor.
Defined.
